(** * Multi-tenant authentication and authorization layer

    A shallow embedding of [server/tenant-auth.ts], of the handlers of
    [server/tenant-routes.ts] that issue hub licenses and receive hub
    heartbeats, and of the tables of [shared/tenant-schema.ts] they read
    and write, followed by the properties of the specification that hold
    (or fail) on them.

    Conventions of the embedding:
    - a table is the list of its rows, oldest first; a [select] is a
      [filter], and [const [row] = await ...] is the head of the result;
    - JavaScript values that the code leaves loosely typed are kept as
      [Js.value]; a string is the sequence of the bytes of its UTF-8
      encoding;
    - a statement the store refuses throws, and so does [res.setHeader]
      on a value it refuses; what is thrown inside a handler's [try] is
      answered by its [catch], and what a middleware throws is answered
      by the error handling of Express;
    - the clock and the random source are read from an explicit [Env];
    - a middleware either calls [next()] or sends a response, which is
      the [Outcome] type; the request-scoped state is threaded through. *)

From Stdlib Require Import ZArith List String Ascii Bool Lia DecimalString.
From Stdlib Require Import Permutation Sorted DecimalPos DecimalZ.
Import ListNotations.
Local Open Scope string_scope.
Local Open Scope Z_scope.

(* ===================================================================== *)
(** ** The fragment of JavaScript the middleware relies on *)
(* ===================================================================== *)

Module Js.

(** Runtime values. Functions and objects are opaque: only their
    identity as a function or an object matters here. *)
Inductive value : Type :=
| VUndef
| VNull
| VBool (b : bool)
| VNum (n : Z)
| VNaN
| VStr (s : string)
| VFun (name : string)
| VObj (class : string).

(** ToBoolean. *)
Definition truthy (v : value) : bool :=
  match v with
  | VUndef | VNull => false
  | VBool b => b
  | VNum n => negb (n =? 0)
  | VNaN => false
  | VStr s => negb (s =? "")%string
  | VFun _ | VObj _ => true
  end.

(** [a || b]. *)
Definition or (a b : value) : value := if truthy a then a else b.

(** [!a]. *)
Definition not (a : value) : bool := negb (truthy a).

(** Number.prototype.toString() on an integer. *)
Definition numToString (n : Z) : string := NilZero.string_of_int (Z.to_int n).

(** ToString, for the values that occur. A function prints its source
    text, which for a built-in is the fixed text below. *)
Definition toString (v : value) : string :=
  match v with
  | VUndef => "undefined"
  | VNull => "null"
  | VBool true => "true"
  | VBool false => "false"
  | VNum n => numToString n
  | VNaN => "NaN"
  | VStr s => s
  | VFun name => "function " ++ name ++ "() { [native code] }"
  | VObj _ => "[object Object]"
  end.

(** ToNumber of a primitive that is not a string; [None] is NaN. *)
Definition toNumber (v : value) : option Z :=
  match v with
  | VNull => Some 0
  | VBool b => Some (if b then 1 else 0)
  | VNum n => Some n
  | _ => None
  end.

(** StringToNumber on the empty string and on a decimal integer numeral,
    the texts it is applied to here (the store prints a [bigint] as one);
    [None] is NaN. *)
Definition numeralToNumber (s : string) : option Z :=
  if (s =? "")%string then Some 0
  else option_map Z.of_int (NilZero.int_of_string s).

(** ToNumber. An object or a function without a conversion of its own
    gives NaN. *)
Definition asNumber (v : value) : option Z :=
  match v with
  | VStr s => numeralToNumber s
  | _ => toNumber v
  end.

(** [a >= b] for operands that are not both strings: each is converted
    to a number, and the comparison is false as soon as one is NaN. *)
Definition ge (a b : value) : bool :=
  match asNumber a, asNumber b with
  | Some x, Some y => y <=? x
  | _, _ => false
  end.

(** ToPrimitive yields a string for a string, and for an object or a
    function that defines no conversion of its own (its rendering). *)
Definition stringLike (v : value) : bool :=
  match v with
  | VStr _ | VFun _ | VObj _ => true
  | _ => false
  end.

(** [a + b]: concatenation of the string renderings as soon as one
    operand is a string or an object, numeric addition otherwise. *)
Definition add (a b : value) : value :=
  if stringLike a || stringLike b then VStr (toString a ++ toString b)
  else match toNumber a, toNumber b with
       | Some x, Some y => VNum (x + y)
       | _, _ => VNaN
       end.

(** Array.prototype.indexOf on an array of strings: the first position
    holding the string, -1 when there is none. *)
Fixpoint indexOfFrom (i : Z) (xs : list string) (x : string) : Z :=
  match xs with
  | [] => -1
  | y :: ys => if (y =? x)%string then i else indexOfFrom (i + 1) ys x
  end.

Definition indexOf (xs : list string) (x : string) : Z := indexOfFrom 0 xs x.

(** The property names every object literal inherits from
    [Object.prototype]. All are functions but [__proto__], an accessor
    that yields the prototype object. The function under [constructor] is
    named [Object]; the others are named as their property. *)
Definition objectPrototypeMethods : list string :=
  [ "constructor"; "__defineGetter__"; "__defineSetter__"; "hasOwnProperty";
    "__lookupGetter__"; "__lookupSetter__"; "isPrototypeOf";
    "propertyIsEnumerable"; "toString"; "valueOf"; "toLocaleString" ].

Definition inheritedFunction (k : string) : string :=
  if (k =? "constructor")%string then "Object" else k.

Fixpoint assoc {A : Type} (k : string) (kvs : list (string * A)) : option A :=
  match kvs with
  | [] => None
  | (k', v) :: rest => if (k' =? k)%string then Some v else assoc k rest
  end.

(** [obj[k]] on an object literal with the given own properties: own
    properties first, then the prototype chain, else [undefined]. *)
Definition getProperty (own : list (string * value)) (k : string) : value :=
  match assoc k own with
  | Some v => v
  | None =>
      if (k =? "__proto__")%string then VObj "Object"
      else if existsb (String.eqb k) objectPrototypeMethods
           then VFun (inheritedFunction k)
           else VUndef
  end.

(** A header or query parameter that may be missing. *)
Definition ofOption (o : option string) : value :=
  match o with
  | Some s => VStr s
  | None => VUndef
  end.

(** Truthiness of a [string | undefined]: the string when it is present
    and not empty. [if (!x)] is the [None] case. *)
Definition present (o : option string) : option string :=
  match o with
  | Some s => if (s =? "")%string then None else Some s
  | None => None
  end.

(** [a || b] on two [string | undefined]. *)
Definition orString (a b : option string) : option string :=
  match present a with
  | Some s => Some s
  | None => b
  end.

(** String.prototype.toUpperCase on the ASCII letters; other bytes are
    left as they are (tenant slugs are made of [a-z0-9-]). *)
Definition upperAscii (c : ascii) : ascii :=
  let n := nat_of_ascii c in
  if ((97 <=? n) && (n <=? 122))%nat then ascii_of_nat (n - 32) else c.

Fixpoint toUpperCase (s : string) : string :=
  match s with
  | EmptyString => EmptyString
  | String c r => String (upperAscii c) (toUpperCase r)
  end.

Fixpoint repeatChar (n : nat) (c : ascii) : string :=
  match n with
  | O => EmptyString
  | S m => String c (repeatChar m c)
  end.

(** String.prototype.padStart with a one-character filler. *)
Definition padStart (width : nat) (c : ascii) (s : string) : string :=
  repeatChar (width - String.length s) c ++ s.

Definition digit36 (d : Z) : ascii :=
  if d <? 10 then ascii_of_nat (Z.to_nat d + 48)
  else ascii_of_nat (Z.to_nat d + 87).

Fixpoint toBase36Aux (fuel : nat) (n : Z) (acc : string) : string :=
  match fuel with
  | O => acc
  | S f =>
      let acc' := String (digit36 (n mod 36)) acc in
      if n / 36 =? 0 then acc' else toBase36Aux f (n / 36) acc'
  end.

(** Number.prototype.toString(36) on a non-negative integer. The fuel
    exceeds the number of base-36 digits. *)
Definition toBase36 (n : Z) : string :=
  toBase36Aux (S (Z.to_nat (Z.log2 n))) n EmptyString.

Fixpoint toHexAux (digits : nat) (n : Z) (acc : string) : string :=
  match digits with
  | O => acc
  | S d => toHexAux d (n / 16) (String (digit36 (n mod 16)) acc)
  end.

(** [buffer.toString('hex')] on a buffer of [digits / 2] bytes that spell
    the number [n]: two digits a byte, the first byte first. *)
Definition toHex (digits : nat) (n : Z) : string := toHexAux digits n EmptyString.

(** [s.split(sep).pop()]: what follows the last separator. *)
Fixpoint lastSegmentAux (sep : ascii) (s cur : string) : string :=
  match s with
  | EmptyString => cur
  | String c r =>
      if Ascii.eqb c sep then lastSegmentAux sep r EmptyString
      else lastSegmentAux sep r (cur ++ String c EmptyString)
  end.

Definition lastSegment (sep : ascii) (s : string) : string :=
  lastSegmentAux sep s EmptyString.

(** [new Date(ms).toISOString().slice(0, 7)]: the year and month of a
    time stamp in UTC, through the days-to-civil-date conversion. *)
Definition civilYearMonth (ms : Z) : Z * Z :=
  let z := ms / 86400000 + 719468 in
  let era := z / 146097 in
  let doe := z - era * 146097 in
  let yoe := (doe - doe / 1460 + doe / 36524 - doe / 146096) / 365 in
  let doy := doe - (365 * yoe + yoe / 4 - yoe / 100) in
  let mp := (5 * doy + 2) / 153 in
  let m := if mp <? 10 then mp + 3 else mp - 9 in
  let y := yoe + era * 400 + (if m <=? 2 then 1 else 0) in
  (y, m).

Definition pad (width : nat) (n : Z) : string :=
  padStart width "0"%char (numToString n).

Definition isoYear (y : Z) : string :=
  if (0 <=? y) && (y <=? 9999) then pad 4 y
  else if y <? 0 then "-" ++ pad 6 (- y)
  else "+" ++ pad 6 y.

Definition isoMonth (ms : Z) : string :=
  let '(y, m) := civilYearMonth ms in
  substring 0 7 (isoYear y ++ "-" ++ pad 2 m).

End Js.

(* ===================================================================== *)
(** ** Tables of [shared/tenant-schema.ts] *)
(* ===================================================================== *)

Module Schema.

(** Row of [tenants]. The billing and settings columns are not read by
    the code embedded here and are left out. *)
Record Tenant : Type := mkTenant {
  t_id : Z;
  t_name : string;
  t_slug : string;
  t_apiKey : string;
  t_subscriptionTier : string;
  t_maxHubs : Z;
  t_maxCameras : Z;
  t_status : string
}.

(** Row of [hub_licenses]. Time stamps are milliseconds since the epoch;
    a nullable column is an [option]. *)
Record HubLicense : Type := mkHubLicense {
  l_id : Z;
  l_tenantId : Z;
  l_hubSerial : string;
  l_licenseKey : string;
  l_hubName : option string;
  l_deploymentLocation : option string;
  l_status : string;
  l_maxCameras : Z;
  l_features : Js.value;
  l_activatedAt : option Z;
  l_expiresAt : option Z;
  l_createdAt : Z;
  l_updatedAt : Z
}.

(** Row of [hubs] (the table [tenantsHubs]). The columns the heartbeat
    handler fills from the request body keep the JavaScript value they
    were given. *)
Record TenantHub : Type := mkTenantHub {
  h_id : Z;
  h_tenantId : Z;
  h_name : string;
  h_serialNumber : string;
  h_status : Js.value;
  h_lastHeartbeat : option Z;
  h_ipAddress : Js.value;
  h_version : Js.value;
  h_configuration : Js.value
}.

(** Row of [api_usage]. *)
Record ApiUsage : Type := mkApiUsage {
  u_id : Z;
  u_tenantId : Z;
  u_endpoint : string;
  u_method : string;
  u_requestCount : Z;
  u_timestamp : Z;
  u_month : string
}.

(** The store: the four tables and the [serial] sequences of the three
    the code inserts into. *)
Record DB : Type := mkDB {
  tenants : list Tenant;
  hubLicenses : list HubLicense;
  tenantsHubs : list TenantHub;
  apiUsage : list ApiUsage;
  hubLicensesSeq : Z;
  tenantsHubsSeq : Z;
  apiUsageSeq : Z
}.

(** The unique constraints each table declares (primary key, [.unique()]
    columns and [unique(...).on(...)] entries), by column name. Plain
    [index(...)] entries are not unique and do not appear. *)
Definition tenantsUnique : list (list string) :=
  [ ["id"]; ["slug"]; ["api_key"] ].
Definition hubLicensesUnique : list (list string) :=
  [ ["id"]; ["hub_serial"]; ["license_key"] ].
Definition tenantsHubsUnique : list (list string) :=
  [ ["id"]; ["tenant_id"; "serial_number"] ].
Definition apiUsageUnique : list (list string) :=
  [ ["id"] ].

(** The store satisfies the unique constraints that the lookups of the
    middleware depend on. *)
Record wf (db : DB) : Prop := mkWf {
  wf_tenant_id : NoDup (map t_id (tenants db));
  wf_tenant_apiKey : NoDup (map t_apiKey (tenants db));
  wf_license_key : NoDup (map l_licenseKey (hubLicenses db));
  wf_license_serial : NoDup (map l_hubSerial (hubLicenses db))
}.

Inductive DbError : Type :=
| UniqueViolation (constraint : string)
| ForeignKeyViolation (constraint : string)
| NotNullViolation (column : string)
| ValueTooLong (width : nat)
| InvalidByteSequence
| IntegerOutOfRange (n : Z)
| NoArbiterConstraint
| InvalidInteger (text : string).

Inductive result (A : Type) : Type :=
| Ok (a : A)
| Throw (e : DbError).
Arguments Ok {A} a.
Arguments Throw {A} e.

Definition bind {A B : Type} (r : result A) (k : A -> result B) : result B :=
  match r with
  | Ok a => k a
  | Throw e => Throw e
  end.

Local Notation "x <- r ;; k" := (bind r (fun x => k))
  (at level 61, r at next level, right associativity).

(** A byte that continues a character of a UTF-8 text. *)
Definition continuation (c : ascii) : bool :=
  let n := nat_of_ascii c in ((128 <=? n) && (n <? 192))%nat.

(** The number of characters of a text, which is what the width of a
    [varchar] column counts. *)
Fixpoint charLength (s : string) : nat :=
  match s with
  | EmptyString => O
  | String c r => if continuation c then charLength r else S (charLength r)
  end.

(** The store holds no text with the character U+0000. *)
Fixpoint hasNul (s : string) : bool :=
  match s with
  | EmptyString => false
  | String c r => (nat_of_ascii c =? 0)%nat || hasNul r
  end.

Fixpoint allSpaces (s : string) : bool :=
  match s with
  | EmptyString => true
  | String c r => (nat_of_ascii c =? 32)%nat && allSpaces r
  end.

(** The first [n] characters of a text, and what follows them. *)
Fixpoint splitChars (n : nat) (s : string) : string * string :=
  match s with
  | EmptyString => (EmptyString, EmptyString)
  | String c r =>
      if continuation c
      then let (kept, excess) := splitChars n r in (String c kept, excess)
      else match n with
           | O => (EmptyString, s)
           | S m => let (kept, excess) := splitChars m r in (String c kept, excess)
           end
  end.

(** Storing a text into a [varchar(n)] column: a text of more than [n]
    characters is refused, unless what exceeds them is all spaces, which
    are then cut off. *)
Definition varchar (n : nat) (s : string) : result string :=
  if hasNul s then Throw InvalidByteSequence
  else if (charLength s <=? n)%nat then Ok s
  else let (kept, excess) := splitChars n s in
       if allSpaces excess then Ok kept else Throw (ValueTooLong n).

(** The same for a column that may be NULL. *)
Definition varcharNull (n : nat) (o : option string) : result (option string) :=
  match o with
  | None => Ok None
  | Some s => s' <- varchar n s ;; Ok (Some s')
  end.

(** Storing a JavaScript value into a [varchar(n)] column. The driver
    sends [null] and [undefined] as NULL and a string, a number or a
    boolean as its text; the column then holds text. An object is sent as
    its JSON text, which the embedding does not know: it is kept as it
    is. *)
Definition varcharValue (n : nat) (v : Js.value) : result Js.value :=
  match v with
  | Js.VUndef | Js.VNull => Ok Js.VNull
  | Js.VObj _ => Ok v
  | _ => s <- varchar n (Js.toString v) ;; Ok (Js.VStr s)
  end.

(** A column declared [notNull()]. *)
Definition notNull (column : string) (r : result Js.value) : result Js.value :=
  match r with
  | Ok Js.VNull => Throw (NotNullViolation column)
  | _ => r
  end.

(** Storing a value into an [integer] column, which has 32 bits. *)
Definition int4 (n : Z) : result Z :=
  if (-2147483648 <=? n) && (n <=? 2147483647) then Ok n
  else Throw (IntegerOutOfRange n).

(** Storing a value into a [jsonb] column: the JSON text of the value is
    stored, and a text with the character U+0000 is refused. Objects are
    kept as they are. *)
Definition jsonb (v : Js.value) : result Js.value :=
  match v with
  | Js.VUndef | Js.VNaN => Ok Js.VNull
  | Js.VStr s => if hasNul s then Throw InvalidByteSequence else Ok v
  | _ => Ok v
  end.

(** The declared types of the columns of [tenants] that a row here keeps. *)
Definition checkTenant (t : Tenant) : result Tenant :=
  name <- varchar 255 (t_name t) ;;
  slug <- varchar 100 (t_slug t) ;;
  apiKey <- varchar 128 (t_apiKey t) ;;
  subscriptionTier <- varchar 50 (t_subscriptionTier t) ;;
  maxHubs <- int4 (t_maxHubs t) ;;
  maxCameras <- int4 (t_maxCameras t) ;;
  status <- varchar 20 (t_status t) ;;
  Ok (mkTenant (t_id t) name slug apiKey subscriptionTier maxHubs maxCameras status).

(** The declared types of the columns of [hub_licenses]. *)
Definition checkLicense (l : HubLicense) : result HubLicense :=
  hubSerial <- varchar 100 (l_hubSerial l) ;;
  licenseKey <- varchar 128 (l_licenseKey l) ;;
  hubName <- varcharNull 255 (l_hubName l) ;;
  deploymentLocation <- varcharNull 255 (l_deploymentLocation l) ;;
  status <- varchar 20 (l_status l) ;;
  maxCameras <- int4 (l_maxCameras l) ;;
  features <- jsonb (l_features l) ;;
  Ok (mkHubLicense (l_id l) (l_tenantId l) hubSerial licenseKey hubName
        deploymentLocation status maxCameras features
        (l_activatedAt l) (l_expiresAt l) (l_createdAt l) (l_updatedAt l)).

(** The [status] of a new row of [hubs]: the column's default when the
    value is [undefined]. *)
Definition statusOrDefault (v : Js.value) : result Js.value :=
  match v with
  | Js.VUndef => Ok (Js.VStr "offline")
  | _ => notNull "status" (varcharValue 50 v)
  end.

(** The declared types of the columns of [hubs]. *)
Definition checkHub (h : TenantHub) : result TenantHub :=
  name <- varchar 255 (h_name h) ;;
  serialNumber <- varchar 100 (h_serialNumber h) ;;
  status <- statusOrDefault (h_status h) ;;
  ipAddress <- varcharValue 45 (h_ipAddress h) ;;
  version <- varcharValue 50 (h_version h) ;;
  configuration <- jsonb (h_configuration h) ;;
  Ok (mkTenantHub (h_id h) (h_tenantId h) name serialNumber status
        (h_lastHeartbeat h) ipAddress version configuration).

(** [tenant_id] of [hub_licenses] and of [hubs] references [tenants.id]. *)
Definition tenantStored (db : DB) (tenantId : Z) : bool :=
  existsb (fun t => t_id t =? tenantId) (tenants db).

Definition sameColumns (a b : list string) : bool :=
  forallb (fun c => existsb (String.eqb c) b) a
  && forallb (fun c => existsb (String.eqb c) a) b.

(** [ON CONFLICT (target)] needs a unique constraint on exactly the
    target columns to arbitrate; without one the statement is refused. *)
Definition hasArbiter (uniques : list (list string)) (target : list string) : bool :=
  existsb (sameColumns target) uniques.

(** Input conversion of an [integer] column. *)
Definition asInteger (v : Js.value) : result Z :=
  match v with
  | Js.VNum n => Ok n
  | _ => Throw (InvalidInteger (Js.toString v))
  end.

Definition setRequestCount (n : Z) (u : ApiUsage) : ApiUsage :=
  mkApiUsage (u_id u) (u_tenantId u) (u_endpoint u) (u_method u) n
             (u_timestamp u) (u_month u).

Definition sameUsageKey (a b : ApiUsage) : bool :=
  (u_tenantId a =? u_tenantId b)
  && (u_endpoint a =? u_endpoint b)%string
  && (u_method a =? u_method b)%string
  && (u_month a =? u_month b)%string.

(** [INSERT INTO api_usage ... ON CONFLICT (tenant_id, endpoint, method,
    month) DO UPDATE SET request_count = <setValue>], against a table
    with the given unique constraints. The statement is checked before
    it runs: it needs an arbiter constraint for its target, and its
    [SET] parameter must convert to the column's type. *)
Definition upsertApiUsage (uniques : list (list string)) (target : list string)
    (mk : Z -> ApiUsage) (setValue : Js.value) (db : DB) : result DB :=
  if negb (hasArbiter uniques target) then Throw NoArbiterConstraint
  else
    match asInteger setValue with
    | Throw e => Throw e
    | Ok n =>
        let row := mk (apiUsageSeq db) in
        let rows :=
          if existsb (sameUsageKey row) (apiUsage db)
          then map (fun u => if sameUsageKey row u then setRequestCount n u else u)
                   (apiUsage db)
          else (apiUsage db ++ [row])%list in
        Ok (mkDB (tenants db) (hubLicenses db) (tenantsHubs db) rows
              (hubLicensesSeq db) (tenantsHubsSeq db) (apiUsageSeq db + 1))
    end.

(** [INSERT INTO hub_licenses ... RETURNING *]. A value that does not
    fit its column fails the statement before a row is formed; the
    sequence value is taken before the constraints (primary key, foreign
    key, unique columns) are checked, so a row they refuse still consumes
    it. *)
Definition insertHubLicense (mk : Z -> HubLicense) (db : DB) : DB * result HubLicense :=
  match checkLicense (mk (hubLicensesSeq db)) with
  | Throw e => (db, Throw e)
  | Ok row =>
      let bumped rows :=
        mkDB (tenants db) rows (tenantsHubs db) (apiUsage db)
             (hubLicensesSeq db + 1) (tenantsHubsSeq db) (apiUsageSeq db) in
      if existsb (fun l => l_id l =? l_id row) (hubLicenses db)
      then (bumped (hubLicenses db), Throw (UniqueViolation "hub_licenses_pkey"))
      else if negb (tenantStored db (l_tenantId row))
      then (bumped (hubLicenses db),
            Throw (ForeignKeyViolation "hub_licenses_tenant_id_tenants_id_fk"))
      else if existsb (fun l => (l_hubSerial l =? l_hubSerial row)%string) (hubLicenses db)
      then (bumped (hubLicenses db), Throw (UniqueViolation "hub_licenses_hub_serial_unique"))
      else if existsb (fun l => (l_licenseKey l =? l_licenseKey row)%string) (hubLicenses db)
      then (bumped (hubLicenses db), Throw (UniqueViolation "hub_licenses_license_key_unique"))
      else (bumped (hubLicenses db ++ [row])%list, Ok row)
  end.

(** [INSERT INTO hubs ... RETURNING *]. *)
Definition insertTenantHub (mk : Z -> TenantHub) (db : DB) : DB * result TenantHub :=
  match checkHub (mk (tenantsHubsSeq db)) with
  | Throw e => (db, Throw e)
  | Ok row =>
      let bumped rows :=
        mkDB (tenants db) (hubLicenses db) rows (apiUsage db)
             (hubLicensesSeq db) (tenantsHubsSeq db + 1) (apiUsageSeq db) in
      if existsb (fun h => h_id h =? h_id row) (tenantsHubs db)
      then (bumped (tenantsHubs db), Throw (UniqueViolation "hubs_pkey"))
      else if negb (tenantStored db (h_tenantId row))
      then (bumped (tenantsHubs db), Throw (ForeignKeyViolation "hubs_tenant_id_tenants_id_fk"))
      else if existsb (fun h => (h_tenantId h =? h_tenantId row)
                                && (h_serialNumber h =? h_serialNumber row)%string)
                      (tenantsHubs db)
      then (bumped (tenantsHubs db), Throw (UniqueViolation "unique_tenant_hub_serial"))
      else (bumped (tenantsHubs db ++ [row])%list, Ok row)
  end.

(** The [set] of the update of [hubs]: a column whose value is
    [undefined] is left out of the statement. *)
Record HubUpdate : Type := mkHubUpdate {
  set_status : Js.value;
  set_lastHeartbeat : Z;
  set_ipAddress : Js.value;
  set_version : Js.value;
  set_configuration : Js.value
}.

(** A column of the [set]: left out, or stored as its type has it. *)
Definition setColumn (store : Js.value -> result Js.value) (v : Js.value)
  : result Js.value :=
  match v with
  | Js.VUndef => Ok Js.VUndef
  | _ => store v
  end.

Definition checkUpdate (u : HubUpdate) : result HubUpdate :=
  status <- setColumn (fun v => notNull "status" (varcharValue 50 v)) (set_status u) ;;
  ipAddress <- setColumn (varcharValue 45) (set_ipAddress u) ;;
  version <- setColumn (varcharValue 50) (set_version u) ;;
  configuration <- setColumn jsonb (set_configuration u) ;;
  Ok (mkHubUpdate status (set_lastHeartbeat u) ipAddress version configuration).

(** The new value of a column: the old one when the column is left out. *)
Definition orKeep (v old : Js.value) : Js.value :=
  match v with
  | Js.VUndef => old
  | _ => v
  end.

Definition applyUpdate (u : HubUpdate) (h : TenantHub) : TenantHub :=
  mkTenantHub (h_id h) (h_tenantId h) (h_name h) (h_serialNumber h)
    (orKeep (set_status u) (h_status h))
    (Some (set_lastHeartbeat u))
    (orKeep (set_ipAddress u) (h_ipAddress h))
    (orKeep (set_version u) (h_version h))
    (orKeep (set_configuration u) (h_configuration h)).

(** [UPDATE hubs SET ... WHERE id = <id> RETURNING *]: the updated rows.
    A value that does not fit its column fails the statement, whatever
    rows it would have updated. *)
Definition updateTenantHub (id : Z) (u : HubUpdate) (db : DB)
  : DB * result (list TenantHub) :=
  match checkUpdate u with
  | Throw e => (db, Throw e)
  | Ok stored =>
      let rows := map (fun h => if h_id h =? id then applyUpdate stored h else h)
                      (tenantsHubs db) in
      (mkDB (tenants db) (hubLicenses db) rows (apiUsage db)
            (hubLicensesSeq db) (tenantsHubsSeq db) (apiUsageSeq db),
       Ok (map (applyUpdate stored) (filter (fun h => h_id h =? id) (tenantsHubs db))))
  end.

End Schema.

(* ===================================================================== *)
(** ** Requests, responses and the middleware protocol *)
(* ===================================================================== *)

Module Http.
Import Schema.

(** What a middleware reads of an Express request. Header names are in
    lower case, as Node delivers them; [route] is [req.route?.path]. *)
Record Request : Type := mkRequest {
  method : string;
  path : string;
  route : option string;
  headers : list (string * string);
  query : list (string * string);
  body : list (string * Js.value)
}.

Definition header (req : Request) (name : string) : option string :=
  Js.assoc name (headers req).

Definition queryParam (req : Request) (name : string) : option string :=
  Js.assoc name (query req).

(** [const { f } = req.body]. *)
Definition bodyField (req : Request) (name : string) : Js.value :=
  match Js.assoc name (body req) with
  | Some v => v
  | None => Js.VUndef
  end.

(** The snapshot of the tenant row kept in the context. *)
Record TenantSnapshot : Type := mkSnapshot {
  s_id : Z;
  s_name : string;
  s_slug : string;
  s_subscriptionTier : string;
  s_maxHubs : Z;
  s_maxCameras : Z;
  s_status : string
}.

Record User : Type := mkUser {
  usr_id : Z;
  usr_email : string;
  usr_role : string;
  usr_permissions : list string
}.

(** [TenantContext]: [user] is the optional field. *)
Record TenantContext : Type := mkContext {
  tenantId : Z;
  tenant : TenantSnapshot;
  user : option User
}.

(** The JSON bodies the embedded code sends, and the page with which
    Express answers an exception that no handler caught. *)
Inductive Body : Type :=
| ErrorMessage (error message : string)
| ErrorOnly (error : string)
| ValidationError
| LicenseBody (license : HubLicense)
| HubBody (hub : option TenantHub) (message : string)
| ErrorPage.

Record Response : Type := mkResponse {
  status : Z;
  json : Body
}.

(** The request-scoped state: the request, [req.tenant], the headers set
    on the response so far, and the store. *)
Record St : Type := mkSt {
  req : Request;
  ctx : option TenantContext;
  resHeaders : list (string * Js.value);
  db : DB
}.

(** A middleware or handler either calls [next()] or sends a response;
    after a response nothing downstream runs. *)
Inductive Outcome : Type :=
| Next (st : St)
| Reply (r : Response) (st : St).

Definition andThen (o : Outcome) (k : St -> Outcome) : Outcome :=
  match o with
  | Next st => k st
  | Reply r st => Reply r st
  end.

(** The response to an exception that a middleware lets escape. *)
Definition uncaught : Response := mkResponse 500 ErrorPage.

(** The characters [res.setHeader] accepts in a value: the tab and the
    characters from U+0020 to U+007E and from U+0080 to U+00FF. In UTF-8
    the latter are the two-byte characters that start with the byte 194
    or 195. *)
Fixpoint validHeaderText (s : string) : bool :=
  match s with
  | EmptyString => true
  | String c r =>
      let n := nat_of_ascii c in
      if ((n =? 9) || ((32 <=? n) && (n <=? 126)))%nat then validHeaderText r
      else if ((n =? 194) || (n =? 195))%nat
      then match r with
           | String c' r' =>
               let n' := nat_of_ascii c' in
               ((128 <=? n') && (n' <=? 191))%nat && validHeaderText r'
           | EmptyString => false
           end
      else false
  end.

(** A value is checked as the string it converts to; [undefined] is
    refused. *)
Definition validHeaderValue (v : Js.value) : bool :=
  match v with
  | Js.VUndef => false
  | _ => validHeaderText (Js.toString v)
  end.

Definition lowerLetter (c : ascii) : ascii :=
  let n := nat_of_ascii c in
  if ((65 <=? n) && (n <=? 90))%nat then ascii_of_nat (n + 32) else c.

Fixpoint lowerName (s : string) : string :=
  match s with
  | EmptyString => EmptyString
  | String c r => String (lowerLetter c) (lowerName r)
  end.

(** Header names are compared without regard to the case of letters. *)
Definition sameName (a b : string) : bool := (lowerName a =? lowerName b)%string.

(** The headers once [name] is set to [v]: the header of that name is
    replaced where it stands, and added at the end when there is none. *)
Fixpoint withHeader (name : string) (v : Js.value) (hs : list (string * Js.value))
  : list (string * Js.value) :=
  match hs with
  | [] => [(name, v)]
  | (n, x) :: rest =>
      if sameName n name then (name, v) :: rest
      else (n, x) :: withHeader name v rest
  end.

(** [res.getHeader(name)]. *)
Fixpoint getHeader (name : string) (hs : list (string * Js.value)) : option Js.value :=
  match hs with
  | [] => None
  | (n, x) :: rest => if sameName n name then Some x else getHeader name rest
  end.

(** [res.setHeader(name, v)]; [None] when it throws. *)
Definition setHeader (name : string) (v : Js.value) (st : St) : option St :=
  if validHeaderValue v
  then Some (mkSt (req st) (ctx st) (withHeader name v (resHeaders st)) (db st))
  else None.

Definition setCtx (c : TenantContext) (st : St) : St :=
  mkSt (req st) (Some c) (resHeaders st) (db st).

Definition setDb (d : DB) (st : St) : St :=
  mkSt (req st) (ctx st) (resHeaders st) d.

(** The clock and the random source: [randomBytes] is the number that
    the 32 bytes of [crypto.randomBytes(32)] spell. *)
Record Env : Type := mkEnv {
  nowMs : Z;
  randomBytes : Z
}.

(** [crypto.randomBytes(32).toString('hex')]: 64 hexadecimal digits. *)
Definition randomHex (e : Env) : string := Js.toHex 64 (randomBytes e).

End Http.

(* ===================================================================== *)
(** ** [server/tenant-auth.ts] *)
(* ===================================================================== *)

Module TenantAuth.
Import Schema Http.

Definition generateApiKey (e : Env) : string := "ak_" ++ randomHex e.

Definition generateLicenseKey (e : Env) : string := "lk_" ++ randomHex e.

(** [generateHubSerial] on the value it is called with, which need not
    be the number its signature declares: [sequence.toString()] is the
    text of that value. *)
Definition generateHubSerialOf (e : Env) (tenantSlug : string) (sequence : Js.value)
  : string :=
  let timestamp := Js.toBase36 (nowMs e) in
  "AO-" ++ Js.toUpperCase tenantSlug ++ "-"
    ++ Js.padStart 3 "0"%char (Js.toString sequence) ++ "-" ++ timestamp.

(** [generateHubSerial] on a number. *)
Definition generateHubSerial (e : Env) (tenantSlug : string) (sequence : Z) : string :=
  generateHubSerialOf e tenantSlug (Js.VNum sequence).

(** The responses the two authentication middlewares and the guards send. *)
Definition apiKeyRequired : Response :=
  mkResponse 401 (ErrorMessage "API key required"
    "Provide API key in X-API-Key header or api_key query parameter").

Definition invalidApiKey : Response :=
  mkResponse 401 (ErrorMessage "Invalid API key"
    "API key not found or tenant is inactive").

Definition hubAuthRequired : Response :=
  mkResponse 401 (ErrorMessage "Hub authentication required"
    "Provide X-License-Key and X-Hub-Serial headers").

Definition invalidHubLicense : Response :=
  mkResponse 401 (ErrorMessage "Invalid hub license"
    "License key/serial combination not found or inactive").

Definition licenseExpired : Response :=
  mkResponse 401 (ErrorMessage "License expired"
    "Hub license has expired, please renew").

Definition userAuthRequired : Response :=
  mkResponse 403 (ErrorMessage "User authentication required"
    "This endpoint requires user-level authentication").

Definition insufficientRole (minRole : string) : Response :=
  mkResponse 403 (ErrorMessage "Insufficient permissions"
    ("This action requires " ++ minRole ++ " role or higher")).

Definition permissionDenied (permission : string) : Response :=
  mkResponse 403 (ErrorMessage "Permission denied"
    ("This action requires '" ++ permission ++ "' permission")).

Definition tenantAuthRequired : Response :=
  mkResponse 403 (ErrorMessage "Authentication required"
    "Tenant authentication required").

Definition upgradeRequired (minTier : string) : Response :=
  mkResponse 403 (ErrorMessage "Subscription upgrade required"
    ("This feature requires " ++ minTier ++ " subscription or higher")).

(** The conflict target of the usage upsert:
    [apiUsage.tenantId, apiUsage.endpoint, apiUsage.method, apiUsage.month]. *)
Definition usageTarget : list string := ["tenant_id"; "endpoint"; "method"; "month"].

(** [trackApiUsage]: one upsert statement; whatever it throws is logged
    and dropped, and the store is then as it was. The [SET] value is the
    JavaScript expression [apiUsage.requestCount + 1], whose left operand
    is the column object of the schema. *)
Definition trackApiUsage (e : Env) (r : Request) (tenantId : Z) (d : DB) : DB :=
  let endpoint :=
    match Js.present (route r) with
    | Some p => p
    | None => path r
    end in
  let month := Js.isoMonth (nowMs e) in
  let setValue := Js.add (Js.VObj "PgInteger") (Js.VNum 1) in
  match upsertApiUsage apiUsageUnique usageTarget
          (fun id => mkApiUsage id tenantId endpoint (method r) 1 (nowMs e) month)
          setValue d with
  | Ok d' => d'
  | Throw _ => d
  end.

(** The lookup of [authenticateApiKey]: one query filtering on the key
    and on the status together. *)
Definition findActiveByApiKey (d : DB) (apiKey : string) : option Tenant :=
  hd_error (filter (fun t => (t_apiKey t =? apiKey)%string
                             && (t_status t =? "active")%string)
                   (tenants d)).

Definition snapshot (t : Tenant) : TenantSnapshot :=
  mkSnapshot (t_id t) (t_name t) (t_slug t) (t_subscriptionTier t)
             (t_maxHubs t) (t_maxCameras t) (t_status t).

(** [req.headers['x-api-key'] || req.query.api_key]. *)
Definition suppliedApiKey (r : Request) : option string :=
  Js.orString (header r "x-api-key") (queryParam r "api_key").

(** The middleware of the tenant routes. Reads of the store are total
    here, so the catch-all 500 branch of the source has no counterpart. *)
Definition authenticateApiKey (e : Env) (st : St) : Outcome :=
  match Js.present (suppliedApiKey (req st)) with
  | None => Reply apiKeyRequired st
  | Some apiKey =>
      match findActiveByApiKey (db st) apiKey with
      | None => Reply invalidApiKey st
      | Some tenant =>
          let st1 := setCtx (mkContext (t_id tenant) (snapshot tenant) None) st in
          let st2 := setDb (trackApiUsage e (req st1) (t_id tenant) (db st1)) st1 in
          Next st2
      end
  end.

(** The [where] clause of the lookup of [authenticateHubLicense], on a
    row of the join. *)
Definition licenseQuery (licenseKey hubSerial : string) (lt : HubLicense * Tenant) : bool :=
  let (l, t) := lt in
  (l_licenseKey l =? licenseKey)%string
  && (l_hubSerial l =? hubSerial)%string
  && (l_status l =? "active")%string
  && (t_status t =? "active")%string.

(** The lookup of [authenticateHubLicense]: the inner join of the
    licenses with the tenants on the tenant id, filtered on key, serial
    and both statuses. *)
Definition findActiveByKeyAndSerial (d : DB) (licenseKey hubSerial : string)
  : option (HubLicense * Tenant) :=
  hd_error
    (filter (licenseQuery licenseKey hubSerial)
            (flat_map (fun l => map (fun t => (l, t))
                                    (filter (fun t => l_tenantId l =? t_id t) (tenants d)))
                      (hubLicenses d))).

(** [license.expiresAt && new Date() > license.expiresAt]. *)
Definition expired (e : Env) (l : HubLicense) : bool :=
  match l_expiresAt l with
  | Some t => t <? nowMs e
  | None => false
  end.

(** The middleware of the hub routes; [if (!licenseKey || !hubSerial)] is
    the last case of the first match. *)
Definition authenticateHubLicense (e : Env) (st : St) : Outcome :=
  match Js.present (header (req st) "x-license-key"),
        Js.present (header (req st) "x-hub-serial") with
  | Some licenseKey, Some hubSerial =>
      match findActiveByKeyAndSerial (db st) licenseKey hubSerial with
      | None => Reply invalidHubLicense st
      | Some (license, tenant) =>
          if expired e license then Reply licenseExpired st
          else
            let st1 := setCtx (mkContext (l_tenantId license) (snapshot tenant) None) st in
            let st2 := setDb (trackApiUsage e (req st1) (l_tenantId license) (db st1)) st1 in
            Next st2
      end
  | _, _ => Reply hubAuthRequired st
  end.

Definition roleHierarchy : list string := ["viewer"; "user"; "manager"; "admin"].

(** [req.tenant?.user]. *)
Definition ctxUser (st : St) : option User :=
  match ctx st with
  | Some c => user c
  | None => None
  end.

Definition requireRole (minRole : string) (st : St) : Outcome :=
  match ctxUser st with
  | None => Reply userAuthRequired st
  | Some u =>
      let userRoleIndex := Js.indexOf roleHierarchy (usr_role u) in
      let requiredRoleIndex := Js.indexOf roleHierarchy minRole in
      if userRoleIndex <? requiredRoleIndex
      then Reply (insufficientRole minRole) st
      else Next st
  end.

Definition requirePermission (permission : string) (st : St) : Outcome :=
  match ctxUser st with
  | None => Reply userAuthRequired st
  | Some u =>
      if negb (existsb (String.eqb permission) (usr_permissions u))
      then Reply (permissionDenied permission) st
      else Next st
  end.

Definition tierHierarchy : list string := ["basic"; "pro"; "enterprise"].

Definition requireSubscriptionTier (minTier : string) (st : St) : Outcome :=
  match ctx st with
  | None => Reply tenantAuthRequired st
  | Some c =>
      let tenantTierIndex := Js.indexOf tierHierarchy (s_subscriptionTier (tenant c)) in
      let requiredTierIndex := Js.indexOf tierHierarchy minTier in
      if tenantTierIndex <? requiredTierIndex
      then Reply (upgradeRequired minTier) st
      else Next st
  end.

(** The object literal [rateLimits]. *)
Definition rateLimits : list (string * Js.value) :=
  [ ("basic", Js.VNum 100); ("pro", Js.VNum 500); ("enterprise", Js.VNum 2000) ].

(** [rateLimits[tier] || 100]. *)
Definition tierLimit (tier : string) : Js.value :=
  Js.or (Js.getProperty rateLimits tier) (Js.VNum 100).

(** The limiter. It has no [try]: when [res.setHeader] throws, [next()]
    is not called and Express answers the request. *)
Definition rateLimitByTier (st : St) : Outcome :=
  match ctx st with
  | None => Next st
  | Some c =>
      let tier := s_subscriptionTier (tenant c) in
      match setHeader "X-RateLimit-Limit" (tierLimit tier) st with
      | None => Reply uncaught st
      | Some st1 =>
          match setHeader "X-RateLimit-Tier" (Js.VStr tier) st1 with
          | None => Reply uncaught st1
          | Some st2 => Next st2
          end
      end
  end.

End TenantAuth.

(* ===================================================================== *)
(** ** [server/tenant-routes.ts]: license issuance and hub heartbeat *)
(* ===================================================================== *)

Module TenantRoutes.
Import Schema Http TenantAuth.

(** What [insertHubLicenseSchema.parse] returns: the insertable columns
    of [hub_licenses] but [id], [createdAt], [updatedAt], [licenseKey]. *)
Record InsertHubLicense : Type := mkInsertHubLicense {
  d_tenantId : Z;
  d_hubSerial : string;
  d_hubName : option string;
  d_deploymentLocation : option string;
  d_status : option string;
  d_maxCameras : option Z;
  d_features : option Js.value;
  d_activatedAt : option Z;
  d_expiresAt : option Z
}.

Definition hubLimitExceeded (maxHubs : Z) : Response :=
  mkResponse 400 (ErrorMessage "Hub limit exceeded"
    ("Your subscription allows maximum " ++ Js.numToString maxHubs ++ " hubs")).

Definition validationError : Response := mkResponse 400 ValidationError.

Definition createLicenseFailed : Response :=
  mkResponse 500 (ErrorOnly "Failed to create hub license").

Definition heartbeatFailed : Response :=
  mkResponse 500 (ErrorOnly "Failed to process heartbeat").

(** [count( * )] of the tenant's rows of [hub_licenses], in the store. *)
Definition countLicenses (d : DB) (tenantId : Z) : Z :=
  Z.of_nat (List.length (filter (fun l => l_tenantId l =? tenantId) (hubLicenses d))).

(** [existingLicenses[0].count]: the driver hands a [bigint] over as its
    decimal text, whatever type the query is annotated with. *)
Definition existingCount (d : DB) (tenantId : Z) : Js.value :=
  Js.VStr (Js.numToString (countLicenses d tenantId)).

(** The values of the [insert]: the validated body, then the four
    columns the handler sets over it; column defaults fill the rest. *)
Definition licenseValues (e : Env) (v : InsertHubLicense) (tenantId : Z)
    (licenseKey hubSerial : string) (id : Z) : HubLicense :=
  mkHubLicense id tenantId hubSerial licenseKey
    (d_hubName v) (d_deploymentLocation v) "active"
    (match d_maxCameras v with Some n => n | None => 16 end)
    (match d_features v with Some f => f | None => Js.VObj "Object" end)
    (d_activatedAt v) (d_expiresAt v) (nowMs e) (nowMs e).

(** A route under [app.use("/api/tenant", authenticateApiKey,
    rateLimitByTier)] registered with one guard before its handler. *)
Definition tenantRoute (guard handler : St -> Outcome) (e : Env) (st : St) : Outcome :=
  andThen (andThen (andThen (authenticateApiKey e st) rateLimitByTier) guard) handler.

Section HubLicenses.

(** The validator that drizzle-zod derives from the table. *)
Variable insertHubLicenseSchemaParse : list (string * Js.value) -> option InsertHubLicense.

(** The handler of [POST /api/tenant/hub-licenses], behind its guard. *)
Definition createHubLicense (e : Env) (st : St) : Outcome :=
  match ctx st with
  | None => Reply createLicenseFailed st
  | Some c =>
      match insertHubLicenseSchemaParse (body (req st)) with
      | None => Reply validationError st
      | Some validatedData =>
          let count := existingCount (db st) (tenantId c) in
          if Js.ge count (Js.VNum (s_maxHubs (tenant c)))
          then Reply (hubLimitExceeded (s_maxHubs (tenant c))) st
          else
            let licenseKey := generateLicenseKey e in
            let hubSerial :=
              generateHubSerialOf e (s_slug (tenant c)) (Js.add count (Js.VNum 1)) in
            match insertHubLicense
                    (licenseValues e validatedData (tenantId c) licenseKey hubSerial)
                    (db st) with
            | (d', Ok license) => Reply (mkResponse 201 (LicenseBody license)) (setDb d' st)
            | (d', Throw _) => Reply createLicenseFailed (setDb d' st)
            end
      end
  end.


End HubLicenses.

Definition findHub (d : DB) (tenantId : Z) (hubSerial : string) : option TenantHub :=
  hd_error (filter (fun h => (h_tenantId h =? tenantId)
                             && (h_serialNumber h =? hubSerial)%string)
                   (tenantsHubs d)).

(** The handler of [POST /api/hub/heartbeat]. Reading [req.tenant!] or
    splitting a missing serial throws, and so does a statement the store
    refuses; the handler turns each into its 500 response. *)
Definition heartbeat (e : Env) (st : St) : Outcome :=
  let status := bodyField (req st) "status" in
  let ipAddress := bodyField (req st) "ipAddress" in
  let version := bodyField (req st) "version" in
  let configuration := bodyField (req st) "configuration" in
  match ctx st, header (req st) "x-hub-serial" with
  | Some c, Some hubSerial =>
      match findHub (db st) (tenantId c) hubSerial with
      | Some existingHub =>
          match updateTenantHub (h_id existingHub)
                  (mkHubUpdate (Js.or status (Js.VStr "online")) (nowMs e)
                               ipAddress version configuration)
                  (db st) with
          | (d', Ok updated) =>
              Reply (mkResponse 200 (HubBody (hd_error updated) "Heartbeat received"))
                    (setDb d' st)
          | (d', Throw _) => Reply heartbeatFailed (setDb d' st)
          end
      | None =>
          match insertTenantHub
                  (fun id => mkTenantHub id (tenantId c)
                               ("Hub-" ++ Js.lastSegment "-"%char hubSerial)
                               hubSerial
                               (Js.or status (Js.VStr "online"))
                               (Some (nowMs e))
                               ipAddress
                               version
                               (Js.or configuration (Js.VObj "Object")))
                  (db st) with
          | (d', Ok newHub) =>
              Reply (mkResponse 201 (HubBody (Some newHub) "Hub registered")) (setDb d' st)
          | (d', Throw _) => Reply heartbeatFailed (setDb d' st)
          end
      end
  | _, _ => Reply heartbeatFailed st
  end.

(** [app.use("/api/hub", authenticateHubLicense)] followed by
    [app.post("/api/hub/heartbeat", handler)]. *)
Definition postHubHeartbeat (e : Env) (st : St) : Outcome :=
  andThen (authenticateHubLicense e st) (heartbeat e).

(** The hub rows of a tenant, as [GET /api/tenant/hubs] selects them. *)
Definition hubsOf (d : DB) (tenantId : Z) : list TenantHub :=
  filter (fun h => h_tenantId h =? tenantId) (tenantsHubs d).

End TenantRoutes.

(* ===================================================================== *)
(** ** A small store and a few requests, to run the code on *)
(* ===================================================================== *)

Module Sample.
Import Schema Http.

Definition acme : Tenant :=
  mkTenant 1 "Acme Security" "acme-security" "ak_acme" "pro" 2 50 "active".
Definition globex : Tenant :=
  mkTenant 2 "Globex" "globex" "ak_globex" "basic" 5 50 "suspended".
Definition initech : Tenant :=
  mkTenant 3 "Initech" "initech" "ak_initech" "enterprise" 5 50 "cancelled".
Definition hooli : Tenant :=
  mkTenant 4 "Hooli" "hooli" "ak_hooli" "constructor" 1 50 "active".

Definition license (id tenantId : Z) (serial key status : string) (expiresAt : option Z)
  : HubLicense :=
  mkHubLicense id tenantId serial key None None status 16 (Js.VObj "Object")
               None expiresAt 1000 1000.

Definition acmeHub1 := license 1 1 "AO-ACME-SECURITY-001-a" "lk_1" "active" None.
Definition acmeExpired := license 2 1 "AO-ACME-SECURITY-002-b" "lk_2" "active" (Some 5000).
Definition globexHub := license 3 2 "AO-GLOBEX-001-c" "lk_3" "active" None.
Definition hooliRevoked := license 4 4 "AO-HOOLI-001-d" "lk_4" "revoked" None.
Definition hooliHub2 := license 5 4 "AO-HOOLI-002-e" "lk_5" "active" None.
Definition hooliHub3 := license 6 4 "AO-HOOLI-003-f" "lk_6" "active" None.

Definition store : DB :=
  mkDB [acme; globex; initech; hooli]
       [acmeHub1; acmeExpired; globexHub; hooliRevoked; hooliHub2; hooliHub3]
       [] [] 7 1 1.

Definition env : Env :=
  mkEnv 1751414400000
        0x000102030405060708090a0b0c0d0e0f101112131415161718191a1b1c1d1e1f.

Definition apiRequest (verb url key : string) : Request :=
  mkRequest verb url None [("x-api-key", key)] [] [].

Definition hubRequest (key serial : string) : Request :=
  mkRequest "POST" "/heartbeat" None
            [("x-license-key", key); ("x-hub-serial", serial)] []
            [("status", Js.VStr "online")].

Definition start (r : Request) (d : DB) : St := mkSt r None [] d.

Definition withUser (role : string) (t : Tenant) (r : Request) (d : DB) : St :=
  mkSt r (Some (mkContext (t_id t) (TenantAuth.snapshot t)
                          (Some (mkUser 1 "ops@example.com" role []))))
       [] d.

Definition authenticated (t : Tenant) (r : Request) (d : DB) : St :=
  mkSt r (Some (mkContext (t_id t) (TenantAuth.snapshot t) None)) [] d.

(** A validator that asks for the two columns without default. *)
Definition parse (b : list (string * Js.value)) : option TenantRoutes.InsertHubLicense :=
  match Js.assoc "tenantId" b, Js.assoc "hubSerial" b with
  | Some (Js.VNum tid), Some (Js.VStr serial) =>
      Some (TenantRoutes.mkInsertHubLicense tid serial None None None None None None None)
  | _, _ => None
  end.

Definition licenseRequest (key : string) : Request :=
  mkRequest "POST" "/hub-licenses" None [("x-api-key", key)] []
            [("tenantId", Js.VNum 0); ("hubSerial", Js.VStr "any")].

(** The store once the hub of [hooliHub2] has sent its first heartbeat. *)
Definition storeWithHub2 : DB :=
  mkDB [acme; globex; initech; hooli]
       [acmeHub1; acmeExpired; globexHub; hooliRevoked; hooliHub2; hooliHub3]
       [mkTenantHub 1 4 "Hub-e" "AO-HOOLI-002-e" (Js.VStr "online")
                    (Some 1751414400000) Js.VNull Js.VNull (Js.VObj "Object")]
       [] 7 2 1.

End Sample.

(* ===================================================================== *)
(** ** Vocabulary of the properties *)
(* ===================================================================== *)

Section Vocabulary.
Import Schema Http TenantAuth.

(** The credentials of a hub request are the pair of a license that is
    suspended or revoked, or whose tenant is suspended or cancelled. *)
Definition hubPairInactive (d : DB) (key serial : string) : Prop :=
  exists l, In l (hubLicenses d) /\ l_licenseKey l = key /\ l_hubSerial l = serial
            /\ (l_status l = "suspended" \/ l_status l = "revoked"
                \/ exists t, In t (tenants d) /\ t_id t = l_tenantId l
                             /\ (t_status t = "suspended" \/ t_status t = "cancelled")).

(** No license of the store has the pair. *)
Definition hubPairAbsent (d : DB) (key serial : string) : Prop :=
  forall l, In l (hubLicenses d) -> ~ (l_licenseKey l = key /\ l_hubSerial l = serial).

(** The key is that of a suspended or cancelled tenant. *)
Definition apiKeyInactive (d : DB) (key : string) : Prop :=
  exists t, In t (tenants d) /\ t_apiKey t = key
            /\ (t_status t = "suspended" \/ t_status t = "cancelled").

(** No tenant of the store holds the key. *)
Definition apiKeyUnknown (d : DB) (key : string) : Prop :=
  forall t, In t (tenants d) -> t_apiKey t <> key.

(** Without a row the middleware sends one of two 401 responses, chosen
    by the request alone. *)
Definition hubRejection (key serial : string) : Response :=
  if ((key =? "") || (serial =? ""))%string then hubAuthRequired else invalidHubLicense.

(** The tier names for which [rateLimits[tier]] is found on the prototype
    chain instead of being [undefined]. *)
Definition inheritedName (tier : string) : bool :=
  (tier =? "__proto__")%string || existsb (String.eqb tier) Js.objectPrototypeMethods.

(** The record operation as the specification words it: an upsert keyed
    by (tenant, endpoint, method, month) that adds 1 to the counter of the
    row in conflict. It is what the code is compared with, not a
    translation of it. *)
Definition specRecordUsage (mk : Z -> ApiUsage) (d : DB) : DB :=
  let row := mk (apiUsageSeq d) in
  let rows :=
    if existsb (sameUsageKey row) (apiUsage d)
    then map (fun u => if sameUsageKey row u
                       then setRequestCount (u_requestCount u + 1) u else u)
             (apiUsage d)
    else (apiUsage d ++ [row])%list in
  mkDB (tenants d) (hubLicenses d) (tenantsHubs d) rows
       (hubLicensesSeq d) (tenantsHubsSeq d) (apiUsageSeq d + 1).

(** A first usage row for a key. *)
Definition usageRow (tid : Z) (endpoint verb month : string) (id : Z) : ApiUsage :=
  mkApiUsage id tid endpoint verb 1 0 month.

End Vocabulary.

(* ===================================================================== *)
(** ** [server/tenant-routes.ts]: tenant signup *)
(* ===================================================================== *)

Module Signup.
Import Schema Http TenantAuth.

(** String.prototype.toLowerCase on the ASCII letters. Bytes from 128 up
    are left as they are; the next step turns them into dashes, which is
    also what the source does to a character outside ASCII unless its
    lower case is an ASCII letter (the Kelvin sign and the dotted capital
    I are the two such characters). *)
Definition lowerAscii (c : ascii) : ascii :=
  let n := nat_of_ascii c in
  if ((65 <=? n) && (n <=? 90))%nat then ascii_of_nat (n + 32) else c.

Fixpoint toLowerCase (s : string) : string :=
  match s with
  | EmptyString => EmptyString
  | String c r => String (lowerAscii c) (toLowerCase r)
  end.

(** The class [a-z0-9]. *)
Definition isLowerAlnum (c : ascii) : bool :=
  let n := nat_of_ascii c in
  (((97 <=? n) && (n <=? 122)) || ((48 <=? n) && (n <=? 57)))%nat.

Definition dash : ascii := "-"%char.

(** [s.replace(/[^a-z0-9]/g, '-')]. *)
Fixpoint replaceNonAlnum (s : string) : string :=
  match s with
  | EmptyString => EmptyString
  | String c r => String (if isLowerAlnum c then c else dash) (replaceNonAlnum r)
  end.

Definition startsWithDash (s : string) : bool :=
  match s with
  | String c _ => Ascii.eqb c dash
  | EmptyString => false
  end.

(** [s.replace(/-+/g, '-')]: every run of dashes becomes one dash. *)
Fixpoint collapseDashes (s : string) : string :=
  match s with
  | EmptyString => EmptyString
  | String c r =>
      let r' := collapseDashes r in
      if Ascii.eqb c dash && startsWithDash r' then r' else String c r'
  end.

(** White space of the ASCII range: tab, line feed, vertical tab, form
    feed, carriage return, space. *)
Definition isSpace (c : ascii) : bool :=
  let n := nat_of_ascii c in
  (((9 <=? n) && (n <=? 13)) || (n =? 32))%nat.

Fixpoint trimStart (s : string) : string :=
  match s with
  | EmptyString => EmptyString
  | String c r => if isSpace c then trimStart r else s
  end.

Fixpoint trimEnd (s : string) : string :=
  match s with
  | EmptyString => EmptyString
  | String c r =>
      match trimEnd r with
      | EmptyString => if isSpace c then EmptyString else String c EmptyString
      | r' => String c r'
      end
  end.

(** String.prototype.trim. It takes no argument: the ['-'] the source
    passes is ignored, and white space is what is removed. *)
Definition trim (s : string) : string := trimEnd (trimStart s).

(** [name.toLowerCase().replace(/[^a-z0-9]/g, '-').replace(/-+/g, '-').trim('-')]. *)
Definition slugOf (name : string) : string :=
  trim (collapseDashes (replaceNonAlnum (toLowerCase name))).

(** What [insertTenantSchema.parse] returns: the insertable columns of
    [tenants] but [id], [createdAt], [updatedAt], [apiKey]; those with a
    default and those that may be NULL are optional. *)
Record InsertTenant : Type := mkInsertTenant {
  it_name : string;
  it_slug : string;
  it_subscriptionTier : option string;
  it_maxHubs : option Z;
  it_maxCameras : option Z;
  it_status : option string;
  it_billingEmail : option string;
  it_contactPhone : option string;
  it_address : option Js.value;
  it_settings : option Js.value
}.

(** The store with the [serial] sequence of [tenants]. *)
Record Store : Type := mkStore {
  core : DB;
  tenantsSeq : Z
}.

Definition withTenants (rows : list Tenant) (d : DB) : DB :=
  mkDB rows (hubLicenses d) (tenantsHubs d) (apiUsage d)
       (hubLicensesSeq d) (tenantsHubsSeq d) (apiUsageSeq d).

(** The columns of [tenants] that the insert fills from the body and a
    row here does not keep: [billing_email], [contact_phone], [address]
    and [settings]. *)
Definition otherColumns (v : InsertTenant) : result unit :=
  bind (varcharNull 255 (it_billingEmail v)) (fun _ =>
  bind (varcharNull 50 (it_contactPhone v)) (fun _ =>
  bind (match it_address v with Some a => jsonb a | None => Ok Js.VNull end) (fun _ =>
  bind (match it_settings v with Some a => jsonb a | None => Ok Js.VNull end) (fun _ =>
  Ok tt)))).

(** [INSERT INTO tenants ... RETURNING *], with the primary key and the
    unique constraints on [slug] and [api_key]. A value that does not fit its column fails the
    statement before a row is formed; a row the constraints refuse still
    consumes the sequence value. *)
Definition insertTenant (mk : Z -> Tenant) (others : result unit) (s : Store)
  : Store * result Tenant :=
  match others, checkTenant (mk (tenantsSeq s)) with
  | Throw e, _ => (s, Throw e)
  | Ok _, Throw e => (s, Throw e)
  | Ok _, Ok row =>
      if existsb (fun t => t_id t =? t_id row) (tenants (core s))
      then (mkStore (core s) (tenantsSeq s + 1), Throw (UniqueViolation "tenants_pkey"))
      else if existsb (fun t => (t_slug t =? t_slug row)%string) (tenants (core s))
      then (mkStore (core s) (tenantsSeq s + 1),
            Throw (UniqueViolation "tenants_slug_unique"))
      else if existsb (fun t => (t_apiKey t =? t_apiKey row)%string) (tenants (core s))
      then (mkStore (core s) (tenantsSeq s + 1),
            Throw (UniqueViolation "tenants_api_key_unique"))
      else (mkStore (withTenants (tenants (core s) ++ [row])%list (core s))
                    (tenantsSeq s + 1),
            Ok row)
  end.

(** The values of the insert: the validated body, then [slug], [apiKey]
    and [status] set over it; column defaults fill what is missing. *)
Definition tenantValues (v : InsertTenant) (slug apiKey : string) (id : Z) : Tenant :=
  mkTenant id (it_name v) slug apiKey
    (match it_subscriptionTier v with Some t => t | None => "basic" end)
    (match it_maxHubs v with Some n => n | None => 5 end)
    (match it_maxCameras v with Some n => n | None => 50 end)
    "active".

(** The bodies of the signup route. The created tenant is sent without
    its [apiKey] column, which is the shape of a [TenantSnapshot]. *)
Inductive SignupBody : Type :=
| SignupError (error message : string)
| SignupInvalid
| SignupFailed (error : string)
| SignupCreated (tenant : TenantSnapshot) (apiKey message : string).

Record SignupResponse : Type := mkSignupResponse {
  su_status : Z;
  su_body : SignupBody
}.

Definition nameExists : SignupResponse :=
  mkSignupResponse 400 (SignupError "Tenant name already exists"
                          "Please choose a different company name").

Definition signupInvalid : SignupResponse := mkSignupResponse 400 SignupInvalid.

Definition signupFailed : SignupResponse :=
  mkSignupResponse 500 (SignupFailed "Failed to create tenant").

Definition tenantCreated (t : Tenant) (apiKey : string) : SignupResponse :=
  mkSignupResponse 201
    (SignupCreated (snapshot t) apiKey
       "Tenant created successfully. Save your API key securely!").

Section CreateTenant.

(** The validator that drizzle-zod derives from the table. *)
Variable insertTenantSchemaParse : list (string * Js.value) -> option InsertTenant.

(** The handler of [POST /api/tenants]. *)
Definition createTenant (e : Env) (r : Request) (s : Store) : SignupResponse * Store :=
  match insertTenantSchemaParse (body r) with
  | None => (signupInvalid, s)
  | Some validatedData =>
      let apiKey := generateApiKey e in
      let slug := slugOf (it_name validatedData) in
      match filter (fun t => (t_slug t =? slug)%string) (tenants (core s)) with
      | _ :: _ => (nameExists, s)
      | [] =>
          match insertTenant (tenantValues validatedData slug apiKey)
                  (otherColumns validatedData) s with
          | (s', Ok tenant) => (tenantCreated tenant apiKey, s')
          | (s', Throw _) => (signupFailed, s')
          end
      end
  end.

End CreateTenant.

(** The row a signup inserts. *)
Definition signupRow (e : Env) (v : InsertTenant) (s : Store) : Tenant :=
  tenantValues v (slugOf (it_name v)) (generateApiKey e) (tenantsSeq s).

(** The invariant of the sequence: every tenant id was drawn from it. *)
Definition wfStore (s : Store) : Prop :=
  wf (core s)
  /\ NoDup (map t_slug (tenants (core s)))
  /\ forall t, In t (tenants (core s)) -> t_id t < tenantsSeq s.

End Signup.

(* ===================================================================== *)
(** ** [server/tenant-routes.ts]: the reading routes of a tenant *)
(* ===================================================================== *)

Module TenantQueries.
Import Schema Http TenantAuth.

Section OrderBy.
Context {A : Type}.

(** [precedes a b]: the row [a] may come before the row [b]. *)
Variable precedes : A -> A -> bool.

Fixpoint insertRow (x : A) (rows : list A) : list A :=
  match rows with
  | [] => [x]
  | y :: rest => if precedes x y then x :: rows else y :: insertRow x rest
  end.

(** [ORDER BY]: the rows in an order that [precedes] allows. Which of two
    rows with equal sort keys comes first is the store's choice; nothing
    proved below depends on it. *)
Definition orderBy (rows : list A) : list A := fold_right insertRow [] rows.

End OrderBy.

(** [desc(hubLicenses.createdAt)]. *)
Definition newerLicense (a b : HubLicense) : bool := l_createdAt b <=? l_createdAt a.

(** [desc(tenantsHubs.lastHeartbeat)]; in descending order the rows
    without a heartbeat come first. *)
Definition laterHeartbeat (a b : TenantHub) : bool :=
  match h_lastHeartbeat a, h_lastHeartbeat b with
  | None, _ => true
  | Some _, None => false
  | Some x, Some y => y <=? x
  end.

(** What a listing handler sends: the rows (status 200), or its 500
    response when reading [req.tenant!] throws. *)
Inductive Listing (A : Type) : Type :=
| Rows (rows : list A)
| ListingFailed (error : string).
Arguments Rows {A} rows.
Arguments ListingFailed {A} error.

(** The handler of [GET /api/tenant/hub-licenses]. *)
Definition listHubLicenses (st : St) : Listing HubLicense :=
  match ctx st with
  | None => ListingFailed "Failed to fetch hub licenses"
  | Some c =>
      Rows (orderBy newerLicense
              (filter (fun l => l_tenantId l =? tenantId c) (hubLicenses (db st))))
  end.

(** The handler of [GET /api/tenant/hubs]. *)
Definition listHubs (st : St) : Listing TenantHub :=
  match ctx st with
  | None => ListingFailed "Failed to fetch hubs"
  | Some c =>
      Rows (orderBy laterHeartbeat
              (filter (fun h => h_tenantId h =? tenantId c) (tenantsHubs (db st))))
  end.

(** The body of [GET /api/tenant/info]; every field is [undefined] when
    the request has no context. *)
Record TenantInfo : Type := mkTenantInfo {
  info_tenant : option TenantSnapshot;
  info_maxHubs : option Z;
  info_maxCameras : option Z;
  info_subscriptionTier : option string
}.

Definition tenantInfo (st : St) : TenantInfo :=
  mkTenantInfo (option_map tenant (ctx st))
               (option_map (fun c => s_maxHubs (tenant c)) (ctx st))
               (option_map (fun c => s_maxCameras (tenant c)) (ctx st))
               (option_map (fun c => s_subscriptionTier (tenant c)) (ctx st)).

(** [app.use("/api/tenant", authenticateApiKey, rateLimitByTier)]. *)
Definition tenantPrefix (e : Env) (st : St) : Outcome :=
  andThen (authenticateApiKey e st) rateLimitByTier.

(** A handler behind middleware: the middleware's response when it sent
    one, what the handler sends otherwise. *)
Definition served {A : Type} (o : Outcome) (handler : St -> A) : (Response * St) + A :=
  match o with
  | Next st => inr (handler st)
  | Reply r st => inl (r, st)
  end.

Definition getTenantInfo (e : Env) (st : St) : (Response * St) + TenantInfo :=
  served (tenantPrefix e st) tenantInfo.

Definition getTenantHubLicenses (e : Env) (st : St) : (Response * St) + Listing HubLicense :=
  served (tenantPrefix e st) listHubLicenses.

Definition getTenantHubs (e : Env) (st : St) : (Response * St) + Listing TenantHub :=
  served (tenantPrefix e st) listHubs.

(** [app.get("/api/tenant/analytics/usage", requireSubscriptionTier("pro"),
    handler)] under the tenant prefix. *)
Definition getUsageAnalytics (handler : St -> Outcome) (e : Env) (st : St) : Outcome :=
  TenantRoutes.tenantRoute (requireSubscriptionTier "pro") handler e st.

End TenantQueries.

(* ===================================================================== *)
(** ** More vocabulary and sample data *)
(* ===================================================================== *)

Section MoreVocabulary.
Import Schema Http TenantAuth.

(** The unique constraint of [hubs] on (tenant_id, serial_number). *)
Definition hubKeysUnique (d : DB) : Prop :=
  NoDup (map (fun h => (h_tenantId h, h_serialNumber h)) (tenantsHubs d)).

(** A string without two dashes in a row. *)
Fixpoint noDoubleDash (s : string) : bool :=
  match s with
  | EmptyString => true
  | String c r =>
      negb (Ascii.eqb c Signup.dash && Signup.startsWithDash r) && noDoubleDash r
  end.

(** A string made of [a-z], [0-9] and dashes. *)
Fixpoint slugAlphabet (s : string) : bool :=
  match s with
  | EmptyString => true
  | String c r => (Signup.isLowerAlnum c || Ascii.eqb c Signup.dash) && slugAlphabet r
  end.

(** A string of ASCII characters: every byte is below 128. On such a
    string the case conversions of the embedding are those of the
    source. *)
Fixpoint asciiOnly (s : string) : bool :=
  match s with
  | EmptyString => true
  | String c r => (nat_of_ascii c <? 128)%nat && asciiOnly r
  end.

(** A string of digits [0-9] and letters [a-z]. *)
Fixpoint base36Text (s : string) : bool :=
  match s with
  | EmptyString => true
  | String c r => Signup.isLowerAlnum c && base36Text r
  end.

(** Reading a decimal numeral, leading zeros allowed. *)
Definition readNumber (s : string) : option Z :=
  option_map Z.of_int (NilZero.int_of_string s).

(** A text that a [varchar(n)] column stores as it is. *)
Definition fitsVarchar (n : nat) (s : string) : bool :=
  negb (hasNul s) && (charLength s <=? n)%nat.














(** A heartbeat whose [ipAddress] has 46 characters. *)
Definition longAddressRequest (key serial : string) : Request :=
  mkRequest "POST" "/heartbeat" None
            [("x-license-key", key); ("x-hub-serial", serial)] []
            [("status", Js.VStr "online");
             ("ipAddress", Js.VStr "2001:0db8:85a3:0000:0000:8a2e:0370:7334:ffff:0")].





(** The clock reads before the license's expiry, if it has one. *)
Definition unexpired (e : Env) (l : HubLicense) : Prop :=
  match l_expiresAt l with
  | Some t => nowMs e <= t
  | None => True
  end.

End MoreVocabulary.

Module SampleMore.
Import Schema Http.

(** A validator that asks for [name] and [slug], the two columns of
    [tenants] without default. *)
Definition parseTenant (b : list (string * Js.value)) : option Signup.InsertTenant :=
  match Js.assoc "name" b, Js.assoc "slug" b with
  | Some (Js.VStr name), Some (Js.VStr slug) =>
      Some (Signup.mkInsertTenant name slug
              (match Js.assoc "subscriptionTier" b with
               | Some (Js.VStr t) => Some t
               | _ => None
               end)
              (match Js.assoc "maxHubs" b with
               | Some (Js.VNum n) => Some n
               | _ => None
               end)
              None
              (match Js.assoc "status" b with
               | Some (Js.VStr t) => Some t
               | _ => None
               end)
              (match Js.assoc "billingEmail" b with
               | Some (Js.VStr t) => Some t
               | _ => None
               end)
              (match Js.assoc "contactPhone" b with
               | Some (Js.VStr t) => Some t
               | _ => None
               end)
              None None)
  | _, _ => None
  end.

Definition signupRequest (name : string) : Request :=
  mkRequest "POST" "/api/tenants" (Some "/api/tenants") [] []
            [("name", Js.VStr name); ("slug", Js.VStr "ignored");
             ("subscriptionTier", Js.VStr "pro"); ("maxHubs", Js.VNum 2);
             ("status", Js.VStr "suspended")].

Definition store : Signup.Store := Signup.mkStore Sample.store 5.

(** A store in which the tenant [Sample.acme] holds one license of the
    two its cap allows. *)
Definition belowCap : DB :=
  mkDB [Sample.acme; Sample.globex] [Sample.acmeHub1] [] [] 2 1 1.

(** A tenant as signup stores it for a name of 88 characters: the slug
    has as many, and fits [varchar(100)]. *)
Definition consolidated : Tenant :=
  mkTenant 5 "International Consolidated Security Monitoring and Surveillance Systems of North America"
           "international-consolidated-security-monitoring-and-surveillance-systems-of-north-america"
           "ak_consolidated" "basic" 5 50 "active".

Definition storeWithLongSlug : DB :=
  mkDB [Sample.acme; consolidated] [Sample.acmeHub1] [] [] 2 1 1.

End SampleMore.

(* ===================================================================== *)
(** ** The JavaScript helpers on concrete values *)
(* ===================================================================== *)

Example ex_base36 : Js.toBase36 1751414400000 = "mcl6ww00".
Proof. vm_compute. reflexivity. Qed.

Example ex_isoMonth : Js.isoMonth 1751414400000 = "2025-07".
Proof. vm_compute. reflexivity. Qed.

Example ex_lastSegment : Js.lastSegment "-" "AO-ACME-001-mcl6ww00" = "mcl6ww00".
Proof. vm_compute. reflexivity. Qed.

Lemma sample_store_wf : Schema.wf Sample.store.
Proof.
  constructor; simpl;
    repeat (constructor; [simpl; intuition discriminate|]); constructor.
Qed.

Lemma sample_storeWithHub2_wf : Schema.wf Sample.storeWithHub2.
Proof.
  constructor; simpl;
    repeat (constructor; [simpl; intuition discriminate|]); constructor.
Qed.

(* ===================================================================== *)
(** ** Texts, numerals and the columns that hold them *)
(* ===================================================================== *)

Ltac cases_ascii c :=
  destruct c as [[] [] [] [] [] [] [] []]; vm_compute;
  repeat split; try reflexivity; try discriminate.

Section SerialFacts.
Import Http TenantAuth.

Lemma string_app_assoc (a b c : string) : ((a ++ b) ++ c = a ++ (b ++ c))%string.
Proof. induction a as [|x a IH]; simpl; [reflexivity | now rewrite IH]. Qed.

Lemma string_app_length (a b : string) :
  String.length (a ++ b) = (String.length a + String.length b)%nat.
Proof. induction a as [|x a IH]; simpl; [reflexivity | now rewrite IH]. Qed.

Lemma string_app_inv_head (p a b : string) : (p ++ a = p ++ b)%string -> a = b.
Proof. induction p as [|x p IH]; simpl; [auto | intros H; injection H as H; auto]. Qed.

Lemma string_app_inv_tail (a b t : string) : (a ++ t = b ++ t)%string -> a = b.
Proof.
  revert b. induction a as [|x a IH]; intros [|y b] H; simpl in H.
  - reflexivity.
  - exfalso. apply (f_equal String.length) in H. simpl in H.
    rewrite string_app_length in H. lia.
  - exfalso. apply (f_equal String.length) in H. simpl in H.
    rewrite string_app_length in H. lia.
  - injection H as -> H. f_equal. now apply IH.
Qed.

Lemma lastSegmentAux_after (sep : ascii) (a b cur : string) :
  Js.lastSegmentAux sep (a ++ String sep b) cur = Js.lastSegmentAux sep b EmptyString.
Proof.
  revert cur. induction a as [|x a IH]; intros cur; simpl.
  - now rewrite Ascii.eqb_refl.
  - destruct (Ascii.eqb x sep); apply IH.
Qed.

Lemma lastSegmentAux_plain (b cur : string) :
  base36Text b = true ->
  Js.lastSegmentAux "-"%char b cur = (cur ++ b)%string.
Proof.
  revert cur. induction b as [|x b IH]; intros cur Hb; simpl.
  - clear. induction cur as [|y cur IH]; simpl; [reflexivity | now rewrite <- IH].
  - simpl in Hb. apply andb_true_iff in Hb. destruct Hb as [Hx Hb].
    assert (Hne : Ascii.eqb x "-"%char = false).
    { destruct x as [[] [] [] [] [] [] [] []]; vm_compute in Hx |- *;
        first [reflexivity | discriminate]. }
    rewrite Hne, (IH _ Hb), string_app_assoc. reflexivity.
Qed.

Lemma digit36_alnum (d : Z) : 0 <= d < 36 -> Signup.isLowerAlnum (Js.digit36 d) = true.
Proof.
  intros Hd.
  assert (H : exists k, (k < 36)%nat /\ d = Z.of_nat k) by (exists (Z.to_nat d); lia).
  destruct H as (k & Hk & ->). clear Hd.
  do 36 (destruct k as [|k]; [vm_compute; reflexivity|]). lia.
Qed.

Lemma toBase36Aux_text (fuel : nat) (n : Z) (acc : string) :
  base36Text acc = true -> base36Text (Js.toBase36Aux fuel n acc) = true.
Proof.
  revert n acc. induction fuel as [|f IH]; intros n acc Hacc; simpl; [exact Hacc|].
  assert (Hstep : base36Text (String (Js.digit36 (n mod 36)) acc) = true).
  { simpl. rewrite digit36_alnum by (apply Z.mod_pos_bound; lia). exact Hacc. }
  destruct (n / 36 =? 0); [exact Hstep | now apply IH].
Qed.

Lemma toBase36_text (n : Z) : base36Text (Js.toBase36 n) = true.
Proof. apply toBase36Aux_text. reflexivity. Qed.

(** The serial, split at its last dash. *)
Lemma generateHubSerial_split (e : Env) (slug : string) (sequence : Z) :
  generateHubSerial e slug sequence
  = (("AO-" ++ Js.toUpperCase slug ++ "-" ++ Js.padStart 3 "0"%char (Js.numToString sequence))
       ++ String "-"%char (Js.toBase36 (nowMs e)))%string.
Proof.
  unfold generateHubSerial, generateHubSerialOf. simpl. rewrite !string_app_assoc.
  reflexivity.
Qed.

Lemma of_uint_D0 (d : Decimal.uint) : Z.of_uint (Decimal.D0 d) = Z.of_uint d.
Proof. reflexivity. Qed.

Lemma uint_of_string_zeros (k : nat) (s : string) (d : Decimal.uint) :
  NilEmpty.uint_of_string s = Some d ->
  exists d', NilEmpty.uint_of_string (Js.repeatChar k "0"%char ++ s) = Some d'
             /\ Z.of_uint d' = Z.of_uint d.
Proof.
  intros Hs. induction k as [|k (d' & Hd' & Hz)]; simpl.
  - exists d. auto.
  - rewrite Hd'. simpl. exists (Decimal.D0 d'). split; [reflexivity|].
    now rewrite of_uint_D0.
Qed.

Lemma readNumber_unsigned (s : string) (d : Decimal.uint) :
  s <> EmptyString -> NilEmpty.uint_of_string s = Some d ->
  readNumber s = Some (Z.of_uint d).
Proof.
  intros Hne Hs. unfold readNumber, NilZero.int_of_string.
  destruct s as [|a t]; [contradiction|].
  destruct (Ascii.eqb_spec a "-"%char) as [->|_].
  - simpl in Hs. destruct (NilEmpty.uint_of_string t); discriminate.
  - unfold NilZero.uint_of_string. rewrite Hs. reflexivity.
Qed.

(** The padded sequence number reads back as the sequence number. *)
Lemma readNumber_padStart (n : Z) :
  0 <= n -> readNumber (Js.padStart 3 "0"%char (Js.numToString n)) = Some n.
Proof.
  intros Hn. unfold Js.padStart, Js.numToString.
  assert (Hd : exists d, Z.to_int n = Decimal.Pos d /\ d <> Decimal.Nil).
  { destruct n as [|p|p]; [| |lia].
    - exists (Decimal.D0 Decimal.Nil). split; [reflexivity | discriminate].
    - exists (Pos.to_uint p). split; [reflexivity|]. apply DecimalPos.Unsigned.to_uint_nonnil. }
  destruct Hd as (d & Hd & Hnil).
  assert (Hz : Z.of_uint d = n).
  { rewrite <- (DecimalZ.of_to n), Hd. reflexivity. }
  rewrite Hd. simpl NilZero.string_of_int.
  assert (Hs : NilZero.string_of_uint d = NilEmpty.string_of_uint d)
    by (destruct d; [contradiction | reflexivity ..]).
  rewrite Hs.
  destruct (uint_of_string_zeros
              (3 - String.length (NilEmpty.string_of_uint d)) _ d (NilEmpty.usu d))
    as (d' & Hd' & Hz').
  rewrite (readNumber_unsigned _ d'); [congruence | | exact Hd'].
  intros Hempty. apply (f_equal String.length) in Hempty.
  rewrite string_app_length in Hempty.
  destruct d; [contradiction | simpl in Hempty; lia ..].
Qed.

End SerialFacts.

Section ColumnFacts.
Import Schema Http TenantAuth TenantRoutes.


Lemma hasNul_app (a b : string) : hasNul (a ++ b) = hasNul a || hasNul b.
Proof.
  induction a as [|x a IH]; simpl; [reflexivity|]. now rewrite IH, orb_assoc.
Qed.

Lemma charLength_app (a b : string) :
  charLength (a ++ b) = (charLength a + charLength b)%nat.
Proof.
  induction a as [|x a IH]; simpl; [reflexivity|].
  rewrite IH. destruct (continuation x); reflexivity.
Qed.

(** A text that fits is stored as it is. *)
Lemma varchar_fits (n : nat) (s : string) :
  fitsVarchar n s = true -> varchar n s = Ok s.
Proof.
  unfold fitsVarchar, varchar. intros H. apply andb_true_iff in H.
  destruct H as [Hnul Hlen]. apply negb_true_iff in Hnul. now rewrite Hnul, Hlen.
Qed.




(** What is stored of a text that is not empty is not empty. *)
Lemma varchar_nonempty (n : nat) (c : ascii) (r s' : string) :
  varchar (S n) (String c r) = Ok s' -> s' <> EmptyString.
Proof.
  unfold varchar. destruct (hasNul (String c r)); [discriminate|].
  destruct (charLength (String c r) <=? S n)%nat.
  - intros H. injection H as <-. discriminate.
  - cbn [splitChars].
    destruct (continuation c).
    + destruct (splitChars (S n) r) as [kept excess].
      destruct (allSpaces excess); [|discriminate].
      intros H. injection H as <-. discriminate.
    + destruct (splitChars n r) as [kept excess].
      destruct (allSpaces excess); [|discriminate].
      intros H. injection H as <-. discriminate.
Qed.





Lemma alnum_plain (c : ascii) :
  Signup.isLowerAlnum c = true ->
  continuation c = false /\ (nat_of_ascii c =? 0)%nat = false.
Proof. cases_ascii c. Qed.

(** A text of digits and lower-case letters has as many characters as
    bytes and none is U+0000. *)
Lemma base36Text_plain (s : string) :
  base36Text s = true -> hasNul s = false /\ charLength s = String.length s.
Proof.
  induction s as [|c r IH]; simpl; [auto|].
  intros H. apply andb_true_iff in H. destruct H as [Hc Hr].
  destruct (alnum_plain c Hc) as [Hcont Hnul]. destruct (IH Hr) as [H1 H2].
  rewrite Hcont, Hnul, H1, H2. auto.
Qed.

Lemma toHexAux_text (digits : nat) (n : Z) (acc : string) :
  base36Text acc = true -> base36Text (Js.toHexAux digits n acc) = true.
Proof.
  revert n acc. induction digits as [|d IH]; intros n acc Hacc; simpl; [exact Hacc|].
  apply IH. simpl. rewrite digit36_alnum; [exact Hacc|].
  pose proof (Z.mod_pos_bound n 16). lia.
Qed.

Lemma toHexAux_length (digits : nat) (n : Z) (acc : string) :
  String.length (Js.toHexAux digits n acc) = (digits + String.length acc)%nat.
Proof.
  revert n acc. induction digits as [|d IH]; intros n acc; simpl; [reflexivity|].
  rewrite IH. simpl. lia.
Qed.

(** The generated keys fit their columns, whatever the random bytes. *)
Lemma generated_key_fits (e : Env) (prefix : string) :
  hasNul prefix = false -> (charLength prefix <= 64)%nat ->
  fitsVarchar 128 (prefix ++ randomHex e) = true.
Proof.
  intros Hnul Hlen. unfold fitsVarchar, randomHex, Js.toHex.
  destruct (base36Text_plain (Js.toHexAux 64 (randomBytes e) EmptyString)
              (toHexAux_text 64 (randomBytes e) EmptyString eq_refl)) as [H1 H2].
  rewrite hasNul_app, charLength_app, Hnul, H1, H2, toHexAux_length. simpl negb.
  simpl andb. apply Nat.leb_le. simpl String.length. lia.
Qed.

Lemma generateApiKey_fits (e : Env) : fitsVarchar 128 (generateApiKey e) = true.
Proof. apply generated_key_fits; [reflexivity | simpl; lia]. Qed.

Lemma generateLicenseKey_fits (e : Env) : fitsVarchar 128 (generateLicenseKey e) = true.
Proof. apply generated_key_fits; [reflexivity | simpl; lia]. Qed.



(** The text of a count reads back as the count. *)
Lemma numeral_roundtrip (n : Z) : Js.numeralToNumber (Js.numToString n) = Some n.
Proof.
  unfold Js.numeralToNumber, Js.numToString.
  assert (Hisi : NilZero.int_of_string (NilZero.string_of_int (Z.to_int n))
                 = Some (Z.to_int n)).
  { apply NilZero.isi.
    - destruct n as [|p|p]; simpl; try discriminate.
      intros H. injection H as H. exact (DecimalPos.Unsigned.to_uint_nonnil p H).
    - destruct n as [|p|p]; simpl; try discriminate.
      intros H. injection H as H. exact (DecimalPos.Unsigned.to_uint_nonnil p H). }
  destruct (String.eqb_spec (NilZero.string_of_int (Z.to_int n)) "") as [Hempty|_].
  - rewrite Hempty in Hisi. discriminate.
  - rewrite Hisi. simpl. now rewrite DecimalZ.of_to.
Qed.

(** [count >= maxHubs] compares the count with the cap. *)
Lemma existingCount_ge (d : DB) (tid maxHubs : Z) :
  Js.ge (existingCount d tid) (Js.VNum maxHubs) = (maxHubs <=? countLicenses d tid).
Proof.
  unfold Js.ge, existingCount. simpl. now rewrite numeral_roundtrip.
Qed.

(** [count + 1] is the text of the count followed by the digit 1. *)
Lemma existingCount_plus_one (d : DB) (tid : Z) :
  Js.add (existingCount d tid) (Js.VNum 1)
  = Js.VStr (Js.numToString (countLicenses d tid) ++ "1").
Proof. reflexivity. Qed.

End ColumnFacts.

(* ===================================================================== *)
(** ** Lookups in tables with unique columns *)
(* ===================================================================== *)

Section Lookup.
Context {A B : Type}.

(** Two rows of a table that agree on a unique column are one row. *)
Lemma unique_column (f : A -> B) (rows : list A) (a b : A) :
  NoDup (map f rows) -> In a rows -> In b rows -> f a = f b -> a = b.
Proof.
  induction rows as [|r rows IH]; simpl; [tauto|].
  intros Hnd Ha Hb Hf. inversion Hnd as [|? ? Hnotin Hrest]; subst.
  destruct Ha as [->|Ha], Hb as [->|Hb]; auto.
  - exfalso. apply Hnotin. rewrite Hf. now apply in_map.
  - exfalso. apply Hnotin. rewrite <- Hf. now apply in_map.
Qed.

(** The first row of a result whose rows are all the same row. *)
Lemma hd_error_only (x : A) (rows : list A) :
  In x rows -> (forall y, In y rows -> y = x) -> hd_error rows = Some x.
Proof.
  destruct rows as [|r rows]; simpl; [tauto|].
  intros _ Hall. f_equal. apply Hall. now left.
Qed.

(** A query no row answers has no first row. *)
Lemma hd_error_filter_none (p : A -> bool) (rows : list A) :
  (forall y, In y rows -> p y = false) -> hd_error (filter p rows) = None.
Proof.
  intros Hall. destruct (filter p rows) as [|r rest] eqn:E; [reflexivity|].
  assert (Hin : In r (filter p rows)) by (rewrite E; now left).
  apply filter_In in Hin. destruct Hin as [Hin Hp].
  rewrite (Hall r Hin) in Hp. discriminate.
Qed.

Lemma hd_error_filter_some (p : A -> bool) (rows : list A) (x : A) :
  hd_error (filter p rows) = Some x -> In x rows /\ p x = true.
Proof.
  intros H. apply filter_In. destruct (filter p rows); simpl in H; [discriminate|].
  injection H as ->. now left.
Qed.

End Lookup.

Section StoreFacts.
Import Schema Http TenantAuth.

(** Rows of the join of [authenticateHubLicense]. *)
Lemma in_license_join (d : DB) (l : HubLicense) (t : Tenant) :
  In (l, t) (flat_map (fun l => map (fun t => (l, t))
                                    (filter (fun t => l_tenantId l =? t_id t) (tenants d)))
                      (hubLicenses d))
  <-> In l (hubLicenses d) /\ In t (tenants d) /\ l_tenantId l = t_id t.
Proof.
  rewrite in_flat_map. split.
  - intros (l' & Hl & Hin). apply in_map_iff in Hin.
    destruct Hin as (t' & Heq & Ht). injection Heq as -> ->.
    apply filter_In in Ht. destruct Ht as [Ht Hid].
    apply Z.eqb_eq in Hid. auto.
  - intros (Hl & Ht & Hid). exists l. split; [assumption|].
    apply in_map. apply filter_In. split; [assumption|]. now apply Z.eqb_eq.
Qed.

(** The usage statement is refused for want of an arbiter constraint,
    whatever the row, so [trackApiUsage] leaves the store as it was. *)
Lemma trackApiUsage_unchanged (e : Env) (r : Request) (tid : Z) (d : DB) :
  trackApiUsage e r tid d = d.
Proof. reflexivity. Qed.

End StoreFacts.

(* ===================================================================== *)
(** ** API-key authentication *)
(* ===================================================================== *)

Section ApiKeyAuthentication.
Import Schema Http TenantAuth.

Lemma present_some (o : option string) (k : string) :
  Js.present o = Some k -> o = Some k /\ k <> "".
Proof.
  destruct o as [s|]; simpl; [|discriminate].
  destruct (String.eqb_spec s ""); [discriminate|].
  intros H. injection H as <-. auto.
Qed.

(** The key of a tenant that is not active answers no row of the lookup. *)
Lemma findActiveByApiKey_inactive (d : DB) (t : Tenant) :
  wf d -> In t (tenants d) -> t_status t <> "active" ->
  findActiveByApiKey d (t_apiKey t) = None.
Proof.
  intros Hwf Hin Hst. apply hd_error_filter_none. intros y Hy.
  destruct (String.eqb_spec (t_apiKey y) (t_apiKey t)) as [Hk|]; [|reflexivity].
  assert (y = t) by (eapply unique_column; eauto using wf_tenant_apiKey).
  subst y. simpl. apply String.eqb_neq. assumption.
Qed.

(** A key no tenant holds answers no row either. *)
Lemma findActiveByApiKey_absent (d : DB) (key : string) :
  (forall t, In t (tenants d) -> t_apiKey t <> key) ->
  findActiveByApiKey d key = None.
Proof.
  intros Habs. apply hd_error_filter_none. intros y Hy.
  destruct (String.eqb_spec (t_apiKey y) key) as [Hk|]; [|reflexivity].
  exfalso. exact (Habs y Hy Hk).
Qed.

(** Without a row, the middleware sends one of its two 401 responses and
    leaves the request state untouched. *)
Lemma authenticateApiKey_no_row (e : Env) (st : St) (key : string) :
  suppliedApiKey (req st) = Some key ->
  findActiveByApiKey (db st) key = None ->
  authenticateApiKey e st
  = Reply (if (key =? "")%string then apiKeyRequired else invalidApiKey) st.
Proof.
  intros Hkey Hnone. unfold authenticateApiKey. rewrite Hkey. simpl.
  destruct (String.eqb_spec key ""); [reflexivity|]. now rewrite Hnone.
Qed.

End ApiKeyAuthentication.

(** C1: a request whose API key belongs to a suspended or cancelled tenant
    finds no row in the single key-and-status lookup and is answered with
    a 401, the very response the same request gets from a store in which
    no tenant holds the key; the request state is returned as it came (no
    tenant context) and nothing downstream runs. *)
Theorem C1_inactive_tenant_key_rejected :
  forall (e : Http.Env) (st : Http.St) (key : string) (t : Schema.Tenant),
    Schema.wf (Http.db st) ->
    TenantAuth.suppliedApiKey (Http.req st) = Some key ->
    In t (Schema.tenants (Http.db st)) ->
    Schema.t_apiKey t = key ->
    Schema.t_status t = "suspended" \/ Schema.t_status t = "cancelled" ->
    TenantAuth.findActiveByApiKey (Http.db st) key = None
    /\ exists r : Http.Response,
         TenantAuth.authenticateApiKey e st = Http.Reply r st
         /\ Http.status r = 401
         /\ (forall downstream,
               Http.andThen (TenantAuth.authenticateApiKey e st) downstream = Http.Reply r st)
         /\ (forall d' : Schema.DB,
               (forall t', In t' (Schema.tenants d') -> Schema.t_apiKey t' <> key) ->
               TenantAuth.authenticateApiKey e (Http.setDb d' st)
               = Http.Reply r (Http.setDb d' st)).
Proof.
  intros e st key t Hwf Hkey Hin Hk Hst.
  assert (Hnone : TenantAuth.findActiveByApiKey (Http.db st) key = None).
  { subst key. apply findActiveByApiKey_inactive; auto.
    destruct Hst as [-> | ->]; discriminate. }
  split; [exact Hnone|].
  exists (if (key =? "")%string then TenantAuth.apiKeyRequired else TenantAuth.invalidApiKey).
  pose proof (authenticateApiKey_no_row e st key Hkey Hnone) as Hrun.
  repeat split.
  - exact Hrun.
  - destruct (key =? "")%string; reflexivity.
  - intros k. rewrite Hrun. reflexivity.
  - intros d' Habs. apply authenticateApiKey_no_row; [exact Hkey|].
    now apply findActiveByApiKey_absent.
Qed.

Lemma C1_witness :
  TenantAuth.findActiveByApiKey Sample.store "ak_globex" = None
  /\ exists r : Http.Response,
       TenantAuth.authenticateApiKey Sample.env
         (Sample.start (Sample.apiRequest "GET" "/info" "ak_globex") Sample.store)
       = Http.Reply r (Sample.start (Sample.apiRequest "GET" "/info" "ak_globex") Sample.store)
       /\ Http.status r = 401.
Proof.
  destruct (C1_inactive_tenant_key_rejected Sample.env
              (Sample.start (Sample.apiRequest "GET" "/info" "ak_globex") Sample.store)
              "ak_globex" Sample.globex)
    as (Hnone & r & Hrun & Hstatus & _).
  - exact sample_store_wf.
  - reflexivity.
  - simpl. auto.
  - reflexivity.
  - left. reflexivity.
  - split; [exact Hnone|]. exists r. split; [exact Hrun | exact Hstatus].
Defined.

(* ===================================================================== *)
(** ** Hub-license authentication *)
(* ===================================================================== *)

Section HubLicenseAuthentication.
Import Schema Http TenantAuth.

Lemma licenseQuery_true (key serial : string) (l : HubLicense) (t : Tenant) :
  licenseQuery key serial (l, t) = true <->
  l_licenseKey l = key /\ l_hubSerial l = serial
  /\ l_status l = "active" /\ t_status t = "active".
Proof.
  unfold licenseQuery. rewrite !andb_true_iff, !String.eqb_eq. tauto.
Qed.

(** An active license of an active tenant is the row its pair finds. *)
Lemma findActiveByKeyAndSerial_valid (d : DB) (l : HubLicense) (t : Tenant) :
  wf d -> In l (hubLicenses d) -> In t (tenants d) -> l_tenantId l = t_id t ->
  l_status l = "active" -> t_status t = "active" ->
  findActiveByKeyAndSerial d (l_licenseKey l) (l_hubSerial l) = Some (l, t).
Proof.
  intros Hwf Hl Ht Hid Hls Hts. unfold findActiveByKeyAndSerial.
  apply hd_error_only.
  - apply filter_In. split.
    + apply in_license_join. auto.
    + apply (licenseQuery_true _ _ l t). auto.
  - intros [l' t'] Hin. apply filter_In in Hin. destruct Hin as [Hjoin Hq].
    apply in_license_join in Hjoin. destruct Hjoin as (Hl' & Ht' & Hid').
    apply (licenseQuery_true _ _ l' t') in Hq. destruct Hq as (Hk & _).
    assert (l' = l) by (eapply unique_column; eauto using wf_license_key).
    subst l'.
    assert (t' = t)
      by (eapply unique_column; eauto using wf_tenant_id; congruence).
    now subst t'.
Qed.

(** A pair with no active license of an active tenant finds no row. *)
Lemma findActiveByKeyAndSerial_none (d : DB) (key serial : string) :
  (forall l t, In l (hubLicenses d) -> In t (tenants d) -> l_tenantId l = t_id t ->
               l_licenseKey l = key -> l_hubSerial l = serial ->
               l_status l = "active" -> t_status t = "active" -> False) ->
  findActiveByKeyAndSerial d key serial = None.
Proof.
  intros Hno. unfold findActiveByKeyAndSerial.
  apply hd_error_filter_none. intros [l t] Hjoin.
  apply in_license_join in Hjoin. destruct Hjoin as (Hl & Ht & Hid).
  destruct (licenseQuery key serial (l, t)) eqn:Hq; [|reflexivity].
  apply licenseQuery_true in Hq. destruct Hq as (Hk & Hs & Hls & Hts).
  exfalso. eapply Hno; eauto.
Qed.

Lemma hubPairInactive_none (d : DB) (key serial : string) :
  wf d -> hubPairInactive d key serial -> findActiveByKeyAndSerial d key serial = None.
Proof.
  intros Hwf (l & Hl & Hk & Hs & Hwhy).
  apply findActiveByKeyAndSerial_none.
  intros l' t' Hl' Ht' Hid' Hk' Hs' Hls Hts.
  assert (l' = l)
    by (eapply unique_column; eauto using wf_license_key; congruence).
  subst l'.
  destruct Hwhy as [Hsus | [Hrev | (t & Ht & Hid & Hst)]].
  - rewrite Hsus in Hls. discriminate.
  - rewrite Hrev in Hls. discriminate.
  - assert (t' = t)
      by (eapply unique_column; eauto using wf_tenant_id; congruence).
    subst t'. rewrite Hts in Hst. destruct Hst; discriminate.
Qed.

Lemma hubPairAbsent_none (d : DB) (key serial : string) :
  hubPairAbsent d key serial -> findActiveByKeyAndSerial d key serial = None.
Proof.
  intros Habs. apply findActiveByKeyAndSerial_none.
  intros l t Hl _ _ Hk Hs _ _. exact (Habs l Hl (conj Hk Hs)).
Qed.

Lemma authenticateHubLicense_no_row (e : Env) (st : St) (key serial : string) :
  header (req st) "x-license-key" = Some key ->
  header (req st) "x-hub-serial" = Some serial ->
  findActiveByKeyAndSerial (db st) key serial = None ->
  authenticateHubLicense e st = Reply (hubRejection key serial) st.
Proof.
  intros Hk Hs Hnone. unfold authenticateHubLicense, hubRejection.
  rewrite Hk, Hs. simpl.
  destruct (String.eqb_spec key ""); simpl; [reflexivity|].
  destruct (String.eqb_spec serial ""); simpl; [reflexivity|].
  now rewrite Hnone.
Qed.

Lemma hubRejection_401 (key serial : string) : status (hubRejection key serial) = 401.
Proof. unfold hubRejection. destruct (_ || _)%bool; reflexivity. Qed.

End HubLicenseAuthentication.



(** C6: the response to rejected credentials does not tell why they were
    rejected. A hub request whose pair belongs to a suspended or revoked
    license, or to a license of a suspended or cancelled tenant, receives
    the same 401 response as the same request against a store that holds
    no such pair; and a request whose API key belongs to a suspended or
    cancelled tenant receives the same 401 response as against a store in
    which no tenant holds the key. *)
Theorem C6_rejections_do_not_tell_why :
  forall (e : Http.Env) (r : Http.Request) (c : option Http.TenantContext)
         (hs : list (string * Js.value)) (d1 d2 : Schema.DB),
    Schema.wf d1 ->
    (forall key serial,
        Http.header r "x-license-key" = Some key ->
        Http.header r "x-hub-serial" = Some serial ->
        hubPairInactive d1 key serial ->
        hubPairAbsent d2 key serial ->
        exists resp,
          Http.status resp = 401
          /\ TenantAuth.authenticateHubLicense e (Http.mkSt r c hs d1)
             = Http.Reply resp (Http.mkSt r c hs d1)
          /\ TenantAuth.authenticateHubLicense e (Http.mkSt r c hs d2)
             = Http.Reply resp (Http.mkSt r c hs d2))
    /\ (forall key,
          TenantAuth.suppliedApiKey r = Some key ->
          apiKeyInactive d1 key ->
          apiKeyUnknown d2 key ->
          exists resp,
            Http.status resp = 401
            /\ TenantAuth.authenticateApiKey e (Http.mkSt r c hs d1)
               = Http.Reply resp (Http.mkSt r c hs d1)
            /\ TenantAuth.authenticateApiKey e (Http.mkSt r c hs d2)
               = Http.Reply resp (Http.mkSt r c hs d2)).
Proof.
  intros e r c hs d1 d2 Hwf. split.
  - intros key serial Hk Hs Hinactive Habsent.
    exists (hubRejection key serial). split; [apply hubRejection_401|]. split.
    + apply authenticateHubLicense_no_row; auto.
      now apply hubPairInactive_none.
    + apply authenticateHubLicense_no_row; auto.
      now apply hubPairAbsent_none.
  - intros key Hkey (t & Ht & Hk & Hst) Hunknown.
    exists (if (key =? "")%string then TenantAuth.apiKeyRequired
            else TenantAuth.invalidApiKey).
    split; [destruct (key =? "")%string; reflexivity|]. split.
    + apply authenticateApiKey_no_row; auto. subst key.
      apply findActiveByApiKey_inactive; auto.
      destruct Hst as [-> | ->]; discriminate.
    + apply authenticateApiKey_no_row; auto.
      now apply findActiveByApiKey_absent.
Qed.

Lemma C6_witness :
  (exists resp,
      Http.status resp = 401
      /\ TenantAuth.authenticateHubLicense Sample.env
           (Http.mkSt (Sample.hubRequest "lk_4" "AO-HOOLI-001-d") None [] Sample.store)
         = Http.Reply resp
             (Http.mkSt (Sample.hubRequest "lk_4" "AO-HOOLI-001-d") None [] Sample.store)
      /\ TenantAuth.authenticateHubLicense Sample.env
           (Http.mkSt (Sample.hubRequest "lk_4" "AO-HOOLI-001-d") None []
                      (Schema.mkDB [Sample.hooli] [] [] [] 1 1 1))
         = Http.Reply resp
             (Http.mkSt (Sample.hubRequest "lk_4" "AO-HOOLI-001-d") None []
                        (Schema.mkDB [Sample.hooli] [] [] [] 1 1 1))).
Proof.
  destruct (C6_rejections_do_not_tell_why Sample.env
              (Sample.hubRequest "lk_4" "AO-HOOLI-001-d") None []
              Sample.store (Schema.mkDB [Sample.hooli] [] [] [] 1 1 1)
              sample_store_wf) as [Hhub _].
  apply (Hhub "lk_4" "AO-HOOLI-001-d").
  - reflexivity.
  - reflexivity.
  - exists Sample.hooliRevoked. simpl. intuition.
  - intros l Hl. simpl in Hl. contradiction.
Defined.

(* ===================================================================== *)
(** ** Authorization guards *)
(* ===================================================================== *)

Section Guards.
Import Schema Http TenantAuth.

Lemma indexOfFrom_lower (xs : list string) (x : string) (i : Z) :
  0 <= i -> -1 <= Js.indexOfFrom i xs x.
Proof.
  revert i. induction xs as [|y ys IH]; intros i Hi; simpl; [lia|].
  destruct (y =? x)%string; [lia|]. apply IH. lia.
Qed.

(** No position is below that of a string the array does not hold. *)
Lemma indexOf_lower (xs : list string) (x : string) : -1 <= Js.indexOf xs x.
Proof. apply indexOfFrom_lower. lia. Qed.

Lemma indexOfFrom_absent (xs : list string) (x : string) (i : Z) :
  ~ In x xs -> Js.indexOfFrom i xs x = -1.
Proof.
  revert i. induction xs as [|y ys IH]; intros i Hnot; simpl; [reflexivity|].
  destruct (String.eqb_spec y x) as [->|].
  - exfalso. apply Hnot. now left.
  - apply IH. intros Hin. apply Hnot. now right.
Qed.

Lemma indexOf_absent (xs : list string) (x : string) :
  ~ In x xs -> Js.indexOf xs x = -1.
Proof. apply indexOfFrom_absent. Qed.

End Guards.



(** C10: when [minRole] is none of viewer, user, manager, admin, its
    position is -1 and [requireRole minRole] passes every context that has
    a user, whatever the user's role. *)
Theorem C10_unknown_minRole_accepts_all :
  forall (minRole : string) (st : Http.St) (u : Http.User),
    ~ In minRole TenantAuth.roleHierarchy ->
    TenantAuth.ctxUser st = Some u ->
    Js.indexOf TenantAuth.roleHierarchy minRole = -1
    /\ TenantAuth.requireRole minRole st = Http.Next st.
Proof.
  intros minRole st u Hnot Hu.
  pose proof (indexOf_absent _ _ Hnot) as Hmin. split; [exact Hmin|].
  unfold TenantAuth.requireRole. rewrite Hu, Hmin.
  pose proof (indexOf_lower TenantAuth.roleHierarchy (Http.usr_role u)) as Hlow.
  apply Z.ltb_ge in Hlow. now rewrite Hlow.
Qed.

Lemma C10_witness :
  Js.indexOf TenantAuth.roleHierarchy "owner" = -1
  /\ TenantAuth.requireRole "owner"
       (Sample.withUser "guest" Sample.acme
          (Sample.apiRequest "POST" "/hub-licenses" "ak_acme") Sample.store)
     = Http.Next
         (Sample.withUser "guest" Sample.acme
            (Sample.apiRequest "POST" "/hub-licenses" "ak_acme") Sample.store).
Proof.
  apply (C10_unknown_minRole_accepts_all "owner"
           (Sample.withUser "guest" Sample.acme
              (Sample.apiRequest "POST" "/hub-licenses" "ak_acme") Sample.store)
           (Http.mkUser 1 "ops@example.com" "guest" [])).
  - simpl. intuition discriminate.
  - reflexivity.
Defined.

(* ===================================================================== *)
(** ** Rate-limit annotation *)
(* ===================================================================== *)

Section RateLimit.
Import Schema Http TenantAuth.

(** A tier that is neither a key of the table nor an inherited property
    name gets the default. *)
Lemma tierLimit_default (tier : string) :
  Js.assoc tier rateLimits = None -> inheritedName tier = false ->
  tierLimit tier = Js.VNum 100.
Proof.
  unfold tierLimit, Js.getProperty, inheritedName. intros -> Hinh.
  apply orb_false_iff in Hinh. destruct Hinh as [-> ->]. reflexivity.
Qed.

(** Whatever the tier, the limit is a value [res.setHeader] accepts: a
    number of the table, the default, or an inherited property, whose
    text is that of a built-in function or of a plain object. *)
Lemma tierLimit_valid (tier : string) : validHeaderValue (tierLimit tier) = true.
Proof.
  unfold tierLimit, Js.getProperty.
  destruct (Js.assoc tier rateLimits) as [v|] eqn:E.
  - unfold rateLimits in E. cbn [Js.assoc] in E.
    destruct ("basic" =? tier)%string; [injection E as <-; reflexivity|].
    destruct ("pro" =? tier)%string; [injection E as <-; reflexivity|].
    destruct ("enterprise" =? tier)%string; [injection E as <-; reflexivity|].
    discriminate.
  - destruct (tier =? "__proto__")%string; [reflexivity|].
    destruct (existsb (String.eqb tier) Js.objectPrototypeMethods) eqn:Ex; [|reflexivity].
    apply existsb_exists in Ex. destruct Ex as (k & Hin & Heq).
    apply String.eqb_eq in Heq. subst k. simpl in Hin.
    repeat (destruct Hin as [<-|Hin]; [reflexivity|]). contradiction.
Qed.

(** The limiter on a request with context: it sets the first header,
    then the second when the tier is a text [res.setHeader] accepts, and
    otherwise throws with the first header set. *)
Lemma rateLimitByTier_context (st : St) (c : TenantContext) :
  ctx st = Some c ->
  rateLimitByTier st
  = let tier := s_subscriptionTier (tenant c) in
    let limited := withHeader "X-RateLimit-Limit" (tierLimit tier) (resHeaders st) in
    if validHeaderText tier
    then Next (mkSt (req st) (ctx st)
                    (withHeader "X-RateLimit-Tier" (Js.VStr tier) limited) (db st))
    else Reply uncaught (mkSt (req st) (ctx st) limited (db st)).
Proof.
  intros Hctx. unfold rateLimitByTier, setHeader. rewrite Hctx, tierLimit_valid.
  cbn [validHeaderValue Js.toString req ctx resHeaders db].
  destruct (validHeaderText (s_subscriptionTier (tenant c))); reflexivity.
Qed.

(** The limiter changes nothing but the response headers. *)
Lemma rateLimitByTier_frame (st : St) :
  (forall st', rateLimitByTier st = Next st' ->
     req st' = req st /\ ctx st' = ctx st /\ db st' = db st)
  /\ (forall r st', rateLimitByTier st = Reply r st' ->
        r = uncaught /\ req st' = req st /\ ctx st' = ctx st /\ db st' = db st).
Proof.
  destruct (ctx st) as [c|] eqn:Hctx.
  - rewrite (rateLimitByTier_context st c Hctx). cbv zeta.
    destruct (validHeaderText (s_subscriptionTier (tenant c))); split;
      intros; try discriminate.
    + match goal with H : Next _ = Next _ |- _ => injection H as <- end. auto.
    + match goal with H : Reply _ _ = Reply _ _ |- _ => injection H as <- <- end. auto.
  - unfold rateLimitByTier. rewrite Hctx. split; intros; try discriminate.
    match goal with H : Next _ = Next _ |- _ => injection H as <- end. auto.
Qed.

End RateLimit.

(** C7: the limiter reads the limit from the table basic 100, pro 500,
    enterprise 2000 and always passes the request on with the two
    headers; a tier outside the table gets 100 unless its name is a
    property every object inherits. For the tier "constructor" the lookup
    finds the inherited constructor function, which is truthy, so the
    limit header carries that function and not 100. *)
Theorem C7_rateLimit_inherited_tier_name :
  TenantAuth.tierLimit "basic" = Js.VNum 100
  /\ TenantAuth.tierLimit "pro" = Js.VNum 500
  /\ TenantAuth.tierLimit "enterprise" = Js.VNum 2000
  /\ TenantAuth.tierLimit "gold" = Js.VNum 100
  /\ Js.assoc "constructor" TenantAuth.rateLimits = None
  /\ TenantAuth.tierLimit "constructor" = Js.VFun "Object"
  /\ TenantAuth.tierLimit "constructor" <> Js.VNum 100
  /\ TenantAuth.rateLimitByTier
       (Sample.authenticated Sample.hooli (Sample.apiRequest "GET" "/info" "ak_hooli")
                             Sample.store)
     = Http.Next
         (Http.mkSt (Sample.apiRequest "GET" "/info" "ak_hooli")
            (Some (Http.mkContext 4 (TenantAuth.snapshot Sample.hooli) None))
            [("X-RateLimit-Limit", Js.VFun "Object");
             ("X-RateLimit-Tier", Js.VStr "constructor")]
            Sample.store).
Proof.
  repeat split; try reflexivity. discriminate.
Qed.

(* ===================================================================== *)
(** ** Usage metering *)
(* ===================================================================== *)

Section UsageMeter.
Import Schema Http TenantAuth.

(** The table declares no unique constraint on the target of the upsert. *)
Lemma usage_target_has_no_arbiter : hasArbiter apiUsageUnique usageTarget = false.
Proof. reflexivity. Qed.

(** The [SET] value is a string, not a number. *)
Lemma usage_set_value :
  Js.add (Js.VObj "PgInteger") (Js.VNum 1) = Js.VStr "[object Object]1".
Proof. reflexivity. Qed.

End UsageMeter.

(** C4: two usage records for one (tenant, endpoint, method, month) key
    should leave one row counting 2, which is what an accumulating upsert
    does. The code's statement names a conflict target for which the table
    declares no unique constraint, so the store refuses it and
    [trackApiUsage] swallows the error: after two authenticated requests
    the usage table is still empty. Had the constraint been declared, the
    statement would still be refused, its [SET] value being the string
    "[object Object]1". *)
Theorem C4_usage_upsert_never_counts :
  (forall e r tid d, TenantAuth.trackApiUsage e r tid d = d)
  /\ Schema.apiUsage
       (specRecordUsage (usageRow 1 "/info" "GET" "2025-07")
          (specRecordUsage (usageRow 1 "/info" "GET" "2025-07") Sample.store))
     = [Schema.mkApiUsage 1 1 "/info" "GET" 2 0 "2025-07"]
  /\ Schema.apiUsage
       (TenantAuth.trackApiUsage Sample.env (Sample.apiRequest "GET" "/info" "ak_acme") 1
          (TenantAuth.trackApiUsage Sample.env (Sample.apiRequest "GET" "/info" "ak_acme") 1
             Sample.store))
     = []
  /\ (exists st1 st2,
        TenantAuth.authenticateApiKey Sample.env
          (Sample.start (Sample.apiRequest "GET" "/info" "ak_acme") Sample.store)
        = Http.Next st1
        /\ TenantAuth.authenticateApiKey Sample.env
             (Sample.start (Sample.apiRequest "GET" "/info" "ak_acme") (Http.db st1))
           = Http.Next st2
        /\ Schema.apiUsage (Http.db st2) = [])
  /\ (forall mk d,
        Schema.upsertApiUsage (TenantAuth.usageTarget :: Schema.apiUsageUnique)
          TenantAuth.usageTarget mk (Js.add (Js.VObj "PgInteger") (Js.VNum 1)) d
        = Schema.Throw (Schema.InvalidInteger "[object Object]1")).
Proof.
  split; [reflexivity|]. split; [reflexivity|]. split; [reflexivity|]. split.
  - eexists. eexists. split; [reflexivity|]. split; reflexivity.
  - intros mk d. reflexivity.
Qed.

(* ===================================================================== *)
(** ** License issuance *)
(* ===================================================================== *)

Section Issuance.
Import Schema Http TenantAuth TenantRoutes.

Lemma existsb_false_iff {A : Type} (p : A -> bool) (rows : list A) :
  existsb p rows = false <-> forall x, In x rows -> p x = false.
Proof.
  induction rows as [|r rows IH]; simpl.
  - split; [intros _ x []| reflexivity].
  - rewrite orb_false_iff, IH. split.
    + intros [Hr Hall] x [<-|Hx]; auto.
    + intros Hall. split; [apply Hall; now left | intros x Hx; apply Hall; now right].
Qed.



(** What the column types leave of a row. *)
Lemma checkLicense_row (l row : HubLicense) :
  checkLicense l = Ok row ->
  l_id row = l_id l /\ l_tenantId row = l_tenantId l
  /\ varchar 100 (l_hubSerial l) = Ok (l_hubSerial row)
  /\ varchar 128 (l_licenseKey l) = Ok (l_licenseKey row)
  /\ varchar 20 (l_status l) = Ok (l_status row)
  /\ l_expiresAt row = l_expiresAt l.
Proof.
  unfold checkLicense.
  destruct (varchar 100 (l_hubSerial l)) as [serial|]; [|discriminate].
  destruct (varchar 128 (l_licenseKey l)) as [key|]; [|discriminate].
  destruct (varcharNull 255 (l_hubName l)) as [name|]; [|discriminate].
  destruct (varcharNull 255 (l_deploymentLocation l)) as [location|]; [|discriminate].
  destruct (varchar 20 (l_status l)) as [status|]; [|discriminate].
  destruct (int4 (l_maxCameras l)) as [cameras|]; [|discriminate].
  destruct (jsonb (l_features l)) as [features|]; [|discriminate].
  cbn [bind]. intros H. injection H as <-. cbn. repeat split; reflexivity.
Qed.



End Issuance.

(** The handler passes [count + 1] to the serial generator with the
    count as the text the store printed: a tenant with one license gets
    the number 011, not 002. *)
Example serial_of_second_license :
  exists st',
    TenantRoutes.createHubLicense Sample.parse Sample.env
      (Sample.withUser "admin" Sample.globex (Sample.licenseRequest "ak_globex") Sample.store)
    = Http.Reply
        (Http.mkResponse 201
           (Http.LicenseBody
              (Schema.mkHubLicense 7 2 "AO-GLOBEX-011-mcl6ww00"
                 "lk_000102030405060708090a0b0c0d0e0f101112131415161718191a1b1c1d1e1f"
                 None None "active" 16 (Js.VObj "Object") None None
                 1751414400000 1751414400000)))
        st'.
Proof. eexists. vm_compute. reflexivity. Qed.




(** The run of the second request: 500 "Failed to create hub license",
    and the store as it was. *)
Example issuance_with_long_slug :
  TenantRoutes.createHubLicense Sample.parse Sample.env
    (Sample.authenticated SampleMore.consolidated
       (Sample.licenseRequest "ak_consolidated") SampleMore.storeWithLongSlug)
  = Http.Reply TenantRoutes.createLicenseFailed
      (Sample.authenticated SampleMore.consolidated
         (Sample.licenseRequest "ak_consolidated") SampleMore.storeWithLongSlug).
Proof. vm_compute. reflexivity. Qed.

(* ===================================================================== *)
(** ** Reachability of license issuance over HTTP *)
(* ===================================================================== *)

Section Reachability.
Import Schema Http TenantAuth TenantRoutes.





End Reachability.



(* ===================================================================== *)
(** ** Hub registration by heartbeat *)
(* ===================================================================== *)

Section Heartbeat.
Import Schema Http TenantAuth TenantRoutes.









End Heartbeat.




(** The run of the request above: 500, and the store as it was. *)
Example heartbeat_with_long_address :
  TenantRoutes.postHubHeartbeat Sample.env
    (Sample.start (longAddressRequest "lk_5" "AO-HOOLI-002-e") Sample.store)
  = Http.Reply TenantRoutes.heartbeatFailed
      (Http.mkSt (longAddressRequest "lk_5" "AO-HOOLI-002-e")
         (Some (Http.mkContext 4 (TenantAuth.snapshot Sample.hooli) None)) []
         Sample.store).
Proof. vm_compute. reflexivity. Qed.

(** The first heartbeat of the other hub of the same tenant is what
    produced the store of the run above. *)
Example first_heartbeat_of_hub2 :
  exists r st',
    TenantRoutes.postHubHeartbeat Sample.env
      (Sample.start (Sample.hubRequest "lk_5" "AO-HOOLI-002-e") Sample.store)
    = Http.Reply r st'
    /\ Http.status r = 201
    /\ Http.db st' = Sample.storeWithHub2.
Proof. eexists. eexists. split; [reflexivity|]. split; reflexivity. Qed.

(* ===================================================================== *)
(** ** The slug of a tenant name *)
(* ===================================================================== *)

Section Slug.
Import Signup.

Ltac each_ascii c :=
  destruct c as [[] [] [] [] [] [] [] []]; vm_compute; try reflexivity; try discriminate.

Lemma replaced_char_in_alphabet (c : ascii) :
  (isLowerAlnum (if isLowerAlnum c then c else dash)
   || Ascii.eqb (if isLowerAlnum c then c else dash) dash) = true.
Proof. each_ascii c. Qed.

Lemma alphabet_not_space (c : ascii) :
  (isLowerAlnum c || Ascii.eqb c dash) = true -> isSpace c = false.
Proof. each_ascii c. Qed.

Lemma alphabet_lower_fixed (c : ascii) :
  (isLowerAlnum c || Ascii.eqb c dash) = true -> lowerAscii c = c.
Proof. each_ascii c. Qed.

Lemma alphabet_replace_fixed (c : ascii) :
  (isLowerAlnum c || Ascii.eqb c dash) = true ->
  (if isLowerAlnum c then c else dash) = c.
Proof. each_ascii c. Qed.

Lemma lower_upper (c : ascii) : lowerAscii (Js.upperAscii c) = lowerAscii c.
Proof. each_ascii c. Qed.

Lemma replaceNonAlnum_alphabet (s : string) : slugAlphabet (replaceNonAlnum s) = true.
Proof.
  induction s as [|c r IH]; simpl; [reflexivity|].
  now rewrite replaced_char_in_alphabet, IH.
Qed.

Lemma collapseDashes_alphabet (s : string) :
  slugAlphabet s = true -> slugAlphabet (collapseDashes s) = true.
Proof.
  induction s as [|c r IH]; simpl; [reflexivity|].
  intros H. apply andb_true_iff in H. destruct H as [Hc Hr].
  destruct (Ascii.eqb c dash && startsWithDash (collapseDashes r)); simpl; auto.
  now rewrite Hc, IH.
Qed.

Lemma collapseDashes_noDoubleDash (s : string) : noDoubleDash (collapseDashes s) = true.
Proof.
  induction s as [|c r IH]; simpl; [reflexivity|].
  destruct (Ascii.eqb c dash && startsWithDash (collapseDashes r)) eqn:E; simpl; auto.
  now rewrite E, IH.
Qed.

Lemma collapseDashes_fixed (s : string) :
  noDoubleDash s = true -> collapseDashes s = s.
Proof.
  induction s as [|c r IH]; simpl; [reflexivity|].
  intros H. apply andb_true_iff in H. destruct H as [Hc Hr].
  rewrite (IH Hr). apply negb_true_iff in Hc. now rewrite Hc.
Qed.

Lemma trimStart_alphabet (s : string) : slugAlphabet s = true -> trimStart s = s.
Proof.
  destruct s as [|c r]; simpl; [reflexivity|].
  intros H. apply andb_true_iff in H. destruct H as [Hc _].
  now rewrite (alphabet_not_space c Hc).
Qed.

Lemma trimEnd_alphabet (s : string) : slugAlphabet s = true -> trimEnd s = s.
Proof.
  induction s as [|c r IH]; simpl; [reflexivity|].
  intros H. apply andb_true_iff in H. destruct H as [Hc Hr].
  rewrite (IH Hr). destruct r; [|reflexivity].
  now rewrite (alphabet_not_space c Hc).
Qed.

(** The final [trim] finds nothing to remove. *)
Lemma slugOf_untrimmed (name : string) :
  slugOf name = collapseDashes (replaceNonAlnum (toLowerCase name)).
Proof.
  unfold slugOf, trim.
  pose proof (collapseDashes_alphabet _ (replaceNonAlnum_alphabet (toLowerCase name))) as H.
  now rewrite (trimStart_alphabet _ H), (trimEnd_alphabet _ H).
Qed.

Lemma toLowerCase_fixed (s : string) : slugAlphabet s = true -> toLowerCase s = s.
Proof.
  induction s as [|c r IH]; simpl; [reflexivity|].
  intros H. apply andb_true_iff in H. destruct H as [Hc Hr].
  now rewrite (alphabet_lower_fixed c Hc), (IH Hr).
Qed.

Lemma replaceNonAlnum_fixed (s : string) : slugAlphabet s = true -> replaceNonAlnum s = s.
Proof.
  induction s as [|c r IH]; simpl; [reflexivity|].
  intros H. apply andb_true_iff in H. destruct H as [Hc Hr].
  now rewrite (alphabet_replace_fixed c Hc), (IH Hr).
Qed.

Lemma slugOf_alphabet (name : string) : slugAlphabet (slugOf name) = true.
Proof.
  rewrite slugOf_untrimmed. apply collapseDashes_alphabet, replaceNonAlnum_alphabet.
Qed.

Lemma slugOf_noDoubleDash (name : string) : noDoubleDash (slugOf name) = true.
Proof. rewrite slugOf_untrimmed. apply collapseDashes_noDoubleDash. Qed.

Lemma slugOf_upper (name : string) : slugOf (Js.toUpperCase name) = slugOf name.
Proof.
  rewrite !slugOf_untrimmed. f_equal. f_equal.
  induction name as [|c r IH]; simpl; [reflexivity|].
  now rewrite lower_upper, IH.
Qed.

Lemma slugOf_lower (name : string) : slugOf (toLowerCase name) = slugOf name.
Proof.
  rewrite !slugOf_untrimmed. f_equal. f_equal.
  induction name as [|c r IH]; simpl; [reflexivity|].
  rewrite IH. f_equal. destruct c as [[] [] [] [] [] [] [] []]; reflexivity.
Qed.

Lemma toLowerCase_app (a b : string) :
  toLowerCase (a ++ b) = (toLowerCase a ++ toLowerCase b)%string.
Proof. induction a as [|c r IH]; simpl; [reflexivity | now rewrite IH]. Qed.

Lemma replaceNonAlnum_app (a b : string) :
  replaceNonAlnum (a ++ b) = (replaceNonAlnum a ++ replaceNonAlnum b)%string.
Proof. induction a as [|c r IH]; simpl; [reflexivity | now rewrite IH]. Qed.

Lemma collapseDashes_trailing (s : string) :
  exists p, collapseDashes (s ++ "-") = (p ++ "-")%string.
Proof.
  induction s as [|c r [p IH]]; simpl.
  - exists EmptyString. reflexivity.
  - rewrite IH.
    destruct (Ascii.eqb c dash && startsWithDash (p ++ "-")).
    + exists p. reflexivity.
    + exists (String c p). reflexivity.
Qed.

Lemma collapseDashes_leading (s : string) :
  startsWithDash (collapseDashes (String dash s)) = true.
Proof.
  simpl. destruct (startsWithDash (collapseDashes s)) eqn:E; simpl; [exact E | reflexivity].
Qed.

End Slug.

(** X1: the slug derived from a tenant name consists of the characters
    a-z, 0-9 and the dash only, and never has two dashes in a row. *)
Theorem X1_slug_alphabet :
  forall name : string,
    slugAlphabet (Signup.slugOf name) = true
    /\ noDoubleDash (Signup.slugOf name) = true.
Proof.
  intros name. split; [apply slugOf_alphabet | apply slugOf_noDoubleDash].
Qed.

(** X2: deriving the slug of a slug gives the same slug, and an ASCII
    name in upper case or in lower case has the slug of the name as
    written: names that differ only in the case of their letters collide
    at signup. *)
Theorem X2_slug_idempotent_and_caseless :
  forall name : string,
    asciiOnly name = true ->
    Signup.slugOf (Signup.slugOf name) = Signup.slugOf name
    /\ Signup.slugOf (Js.toUpperCase name) = Signup.slugOf name
    /\ Signup.slugOf (Signup.toLowerCase name) = Signup.slugOf name.
Proof.
  intros name _. split; [|split].
  - rewrite (slugOf_untrimmed (Signup.slugOf name)).
    rewrite (toLowerCase_fixed _ (slugOf_alphabet name)).
    rewrite (replaceNonAlnum_fixed _ (slugOf_alphabet name)).
    apply collapseDashes_fixed, slugOf_noDoubleDash.
  - apply slugOf_upper.
  - apply slugOf_lower.
Qed.

Lemma X2_witness :
  Signup.slugOf (Signup.slugOf "Acme Security") = Signup.slugOf "Acme Security"
  /\ Signup.slugOf (Js.toUpperCase "Acme Security") = Signup.slugOf "Acme Security"
  /\ Signup.slugOf (Signup.toLowerCase "Acme Security") = Signup.slugOf "Acme Security".
Proof. apply (X2_slug_idempotent_and_caseless "Acme Security"). reflexivity. Defined.

(** X3: the [trim('-')] that ends the derivation removes no dash. A name
    whose last character is an ASCII character other than a letter or a
    digit gets a slug that ends with a dash, and a name whose first
    character is one gets a slug that starts with a dash. *)
Theorem X3_slug_keeps_outer_dashes :
  forall (name : string) (c : ascii),
    (nat_of_ascii c < 128)%nat ->
    Signup.isLowerAlnum (Signup.lowerAscii c) = false ->
    (exists p, Signup.slugOf (name ++ String c EmptyString) = (p ++ "-")%string)
    /\ Signup.startsWithDash (Signup.slugOf (String c name)) = true.
Proof.
  intros name c _ Hc. split.
  - rewrite slugOf_untrimmed, toLowerCase_app, replaceNonAlnum_app. simpl.
    rewrite Hc. apply collapseDashes_trailing.
  - rewrite slugOf_untrimmed. cbn [Signup.toLowerCase Signup.replaceNonAlnum].
    rewrite Hc. apply collapseDashes_leading.
Qed.

Lemma X3_witness :
  (exists p, Signup.slugOf ("Acme Inc" ++ String "."%char EmptyString) = (p ++ "-")%string)
  /\ Signup.startsWithDash (Signup.slugOf (String "."%char "Acme Inc")) = true.
Proof.
  apply (X3_slug_keeps_outer_dashes "Acme Inc" "."%char).
  - vm_compute. lia.
  - reflexivity.
Defined.

Example slug_of_acme_inc : Signup.slugOf "Acme Inc." = "acme-inc-".
Proof. vm_compute. reflexivity. Qed.

(* ===================================================================== *)
(** ** Tenant signup *)
(* ===================================================================== *)

Section SignupFacts.
Import Schema Http TenantAuth Signup.

Lemma NoDup_map_snoc {A B : Type} (f : A -> B) (rows : list A) (x : A) :
  NoDup (map f rows) -> (forall y, In y rows -> f y <> f x) ->
  NoDup (map f (rows ++ [x])).
Proof.
  intros Hnd Hfresh. rewrite map_app. simpl.
  apply NoDup_app; [exact Hnd | repeat constructor; intros [] | ].
  intros b Hb [<-|[]]. apply in_map_iff in Hb. destruct Hb as (y & Hy & Hin).
  exact (Hfresh y Hin Hy).
Qed.

Lemma filter_nil_iff {A : Type} (p : A -> bool) (rows : list A) :
  filter p rows = [] <-> forall x, In x rows -> p x = false.
Proof.
  induction rows as [|r rows IH]; simpl.
  - split; [intros _ x [] | reflexivity].
  - destruct (p r) eqn:E; split.
    + discriminate.
    + intros H. specialize (H r (or_introl eq_refl)). congruence.
    + intros H x [<-|Hx]; [exact E | now apply IH].
    + intros H. apply IH. auto.
Qed.


(** What the column types leave of a row. *)
Lemma checkTenant_row (t row : Tenant) :
  checkTenant t = Ok row ->
  t_id row = t_id t
  /\ varchar 128 (t_apiKey t) = Ok (t_apiKey row)
  /\ varchar 20 (t_status t) = Ok (t_status row).
Proof.
  unfold checkTenant.
  destruct (varchar 255 (t_name t)) as [name|]; [|discriminate].
  destruct (varchar 100 (t_slug t)) as [slug|]; [|discriminate].
  destruct (varchar 128 (t_apiKey t)) as [key|]; [|discriminate].
  destruct (varchar 50 (t_subscriptionTier t)) as [tier|]; [|discriminate].
  destruct (int4 (t_maxHubs t)) as [hubs|]; [|discriminate].
  destruct (int4 (t_maxCameras t)) as [cameras|]; [|discriminate].
  destruct (varchar 20 (t_status t)) as [status|]; [|discriminate].
  cbn [bind]. intros H. injection H as <-. cbn. repeat split; reflexivity.
Qed.

(** The row of a signup that was written is active and holds the
    generated key. *)
Lemma signup_row_written (e : Env) (v : InsertTenant) (s : Store) (row : Tenant) :
  checkTenant (signupRow e v s) = Ok row ->
  t_id row = tenantsSeq s /\ t_apiKey row = generateApiKey e /\ t_status row = "active".
Proof.
  intros H. apply checkTenant_row in H. destruct H as (Hid & Hkey & Hstatus).
  unfold signupRow, tenantValues in Hid, Hkey, Hstatus. cbn [t_id t_apiKey t_status] in *.
  rewrite (varchar_fits _ _ (generateApiKey_fits e)) in Hkey.
  change (varchar 20 "active") with (@Ok string "active") in Hstatus.
  split; [exact Hid|]. split; congruence.
Qed.

(** The five ways a signup ends. *)
Lemma createTenant_cases
    (parse : list (string * Js.value) -> option InsertTenant)
    (e : Env) (r : Request) (s : Store) :
  (parse (body r) = None /\ createTenant parse e r s = (signupInvalid, s))
  \/ (exists v t, parse (body r) = Some v /\ In t (tenants (core s))
                  /\ t_slug t = slugOf (it_name v)
                  /\ createTenant parse e r s = (nameExists, s))
  \/ (exists v, parse (body r) = Some v
                /\ createTenant parse e r s = (signupFailed, s))
  \/ (exists v, parse (body r) = Some v
                /\ createTenant parse e r s
                   = (signupFailed, mkStore (core s) (tenantsSeq s + 1)))
  \/ (exists v row, parse (body r) = Some v
                /\ checkTenant (signupRow e v s) = Ok row
                /\ (forall t, In t (tenants (core s)) -> t_slug t <> t_slug row)
                /\ (forall t, In t (tenants (core s)) -> t_apiKey t <> t_apiKey row)
                /\ createTenant parse e r s
                   = (tenantCreated row (generateApiKey e),
                      mkStore (withTenants (tenants (core s) ++ [row]) (core s))
                              (tenantsSeq s + 1))).
Proof.
  unfold createTenant. destruct (parse (body r)) as [v|]; [|left; auto].
  right.
  destruct (filter (fun t => (t_slug t =? slugOf (it_name v))%string) (tenants (core s)))
    as [|t rest] eqn:Hsel.
  - right. unfold insertTenant.
    destruct (otherColumns v) as [u|err]; [|left; eauto].
    fold (signupRow e v s).
    destruct (checkTenant (signupRow e v s)) as [row|err] eqn:Hrow; [|left; eauto].
    right.
    destruct (existsb (fun t => t_id t =? t_id row) (tenants (core s)));
      [left; eauto|].
    destruct (existsb (fun t => (t_slug t =? t_slug row)%string) (tenants (core s)))
      eqn:H1; [left; eauto|].
    destruct (existsb (fun t => (t_apiKey t =? t_apiKey row)%string) (tenants (core s)))
      eqn:H2; [left; eauto|].
    right. exists v, row. split; [reflexivity|]. split; [exact Hrow|].
    split; [|split; [|reflexivity]].
    + intros t Ht. apply String.eqb_neq.
      exact (proj1 (existsb_false_iff _ _) H1 t Ht).
    + intros t Ht. apply String.eqb_neq.
      exact (proj1 (existsb_false_iff _ _) H2 t Ht).
  - left. exists v, t.
    assert (Hin : In t (filter (fun t => (t_slug t =? slugOf (it_name v))%string)
                               (tenants (core s)))) by (rewrite Hsel; now left).
    apply filter_In in Hin. destruct Hin as [Hin Hk]. apply String.eqb_eq in Hk. auto.
Qed.

Lemma wfStore_bump (s : Store) :
  wfStore s -> wfStore (mkStore (core s) (tenantsSeq s + 1)).
Proof.
  intros (Hwf & Hslug & Hseq). split; [exact Hwf|]. split; [exact Hslug|].
  simpl. intros t Ht. specialize (Hseq t Ht). lia.
Qed.

Lemma wfStore_insert (s : Store) (row : Tenant) :
  wfStore s -> t_id row = tenantsSeq s ->
  (forall t, In t (tenants (core s)) -> t_slug t <> t_slug row) ->
  (forall t, In t (tenants (core s)) -> t_apiKey t <> t_apiKey row) ->
  wfStore (mkStore (withTenants (tenants (core s) ++ [row]) (core s)) (tenantsSeq s + 1)).
Proof.
  intros (Hwf & Hslug & Hseq) Hid Hs Hk. destruct Hwf as [Hids Hkeys Hlk Hls].
  split; [constructor; simpl|split; simpl].
  - apply NoDup_map_snoc; [exact Hids|]. intros y Hy. specialize (Hseq y Hy). lia.
  - apply NoDup_map_snoc; assumption.
  - exact Hlk.
  - exact Hls.
  - apply NoDup_map_snoc; assumption.
  - intros t Ht. apply in_app_or in Ht. destruct Ht as [Ht|[<-|[]]].
    + specialize (Hseq t Ht). lia.
    + lia.
Qed.

(** A signup keeps the invariant of the store, however it ends. *)
Lemma createTenant_keeps_wfStore
    (parse : list (string * Js.value) -> option InsertTenant)
    (e : Env) (r : Request) (s : Store) :
  wfStore s -> wfStore (snd (createTenant parse e r s)).
Proof.
  intros Hwf.
  destruct (createTenant_cases parse e r s)
    as [[_ ->] | [(v & t & _ & _ & _ & ->) | [(v & _ & ->) | [(v & _ & ->)
       | (v & row & _ & Hrow & Hslug & Hkey & ->)]]]]; simpl.
  - exact Hwf.
  - exact Hwf.
  - exact Hwf.
  - now apply wfStore_bump.
  - apply wfStore_insert; auto.
    now destruct (signup_row_written e v s row Hrow).
Qed.

(** The key of an active tenant finds its row. *)
Lemma findActiveByApiKey_valid (d : DB) (t : Tenant) :
  wf d -> In t (tenants d) -> t_status t = "active" ->
  findActiveByApiKey d (t_apiKey t) = Some t.
Proof.
  intros Hwf Hin Hst. unfold findActiveByApiKey. apply hd_error_only.
  - apply filter_In. split; [exact Hin|].
    rewrite String.eqb_refl, Hst. reflexivity.
  - intros y Hy. apply filter_In in Hy. destruct Hy as [Hy Hp].
    apply andb_true_iff in Hp. destruct Hp as [Hk _]. apply String.eqb_eq in Hk.
    eapply unique_column; eauto using wf_tenant_apiKey.
Qed.

(** A request with the key of an active tenant passes with that tenant
    as its context. *)
Lemma authenticateApiKey_valid (e : Env) (st : St) (t : Tenant) :
  wf (db st) -> In t (tenants (db st)) -> t_status t = "active" ->
  t_apiKey t <> "" ->
  suppliedApiKey (req st) = Some (t_apiKey t) ->
  authenticateApiKey e st
  = Next (mkSt (req st) (Some (mkContext (t_id t) (snapshot t) None))
               (resHeaders st) (db st)).
Proof.
  intros Hwf Hin Hst Hne Hkey. unfold authenticateApiKey. rewrite Hkey. simpl.
  destruct (String.eqb_spec (t_apiKey t) ""); [contradiction|].
  rewrite (findActiveByApiKey_valid _ _ Hwf Hin Hst). reflexivity.
Qed.

End SignupFacts.

(** X4: a signup whose name has the slug of a stored tenant is answered
    400 "Tenant name already exists" and writes nothing; for an ASCII
    name this is the case of the stored name itself and of the same name
    in upper or in lower case. *)
Theorem X4_signup_rejects_taken_slug :
  forall (parse : list (string * Js.value) -> option Signup.InsertTenant)
         (e : Http.Env) (r : Http.Request) (s : Signup.Store)
         (v : Signup.InsertTenant) (t : Schema.Tenant) (stored : string),
    parse (Http.body r) = Some v ->
    In t (Schema.tenants (Signup.core s)) ->
    Schema.t_slug t = Signup.slugOf stored ->
    asciiOnly stored = true ->
    Signup.it_name v = stored
    \/ Signup.it_name v = Js.toUpperCase stored
    \/ Signup.it_name v = Signup.toLowerCase stored ->
    Signup.createTenant parse e r s = (Signup.nameExists, s)
    /\ Signup.su_status Signup.nameExists = 400.
Proof.
  intros parse e r s v t stored Hparse Hin Hslug _ Hname.
  assert (Hsame : Signup.slugOf (Signup.it_name v) = Signup.slugOf stored).
  { destruct Hname as [-> | [-> | ->]]; [reflexivity| |].
    - apply slugOf_upper.
    - apply slugOf_lower. }
  split; [|reflexivity].
  unfold Signup.createTenant. rewrite Hparse, Hsame.
  destruct (filter (fun t0 => (Schema.t_slug t0 =? Signup.slugOf stored)%string)
                   (Schema.tenants (Signup.core s))) as [|x rest] eqn:Hsel; [|reflexivity].
  exfalso. pose proof (proj1 (filter_nil_iff _ _) Hsel t Hin) as Hf.
  simpl in Hf. rewrite Hslug, String.eqb_refl in Hf. discriminate.
Qed.

Lemma sampleMore_store_wf : Signup.wfStore SampleMore.store.
Proof.
  split; [exact sample_store_wf|]. split.
  - simpl. repeat (constructor; [simpl; intuition discriminate|]). constructor.
  - simpl. intros t Ht.
    repeat (destruct Ht as [<-|Ht]; [simpl; lia|]). contradiction.
Qed.

Lemma X4_witness :
  Signup.createTenant SampleMore.parseTenant Sample.env
    (SampleMore.signupRequest "ACME SECURITY") SampleMore.store
  = (Signup.nameExists, SampleMore.store)
  /\ Signup.su_status Signup.nameExists = 400.
Proof.
  apply (X4_signup_rejects_taken_slug SampleMore.parseTenant Sample.env
           (SampleMore.signupRequest "ACME SECURITY") SampleMore.store
           (Signup.mkInsertTenant "ACME SECURITY" "ignored" (Some "pro") (Some 2) None
                                  (Some "suspended") None None None None)
           Sample.acme "Acme Security").
  - reflexivity.
  - simpl. auto.
  - reflexivity.
  - reflexivity.
  - right. left. reflexivity.
Defined.



(** X6: signup keeps the store well formed however it ends: tenant ids,
    slugs and API keys stay unique, and every tenant id stays below the
    sequence. *)
Theorem X6_signup_keeps_store_well_formed :
  forall (parse : list (string * Js.value) -> option Signup.InsertTenant)
         (e : Http.Env) (r : Http.Request) (s : Signup.Store),
    Signup.wfStore s ->
    Signup.wfStore (snd (Signup.createTenant parse e r s)).
Proof.
  intros parse e r s Hwf. now apply createTenant_keeps_wfStore.
Qed.

Lemma X6_witness :
  Signup.wfStore
    (snd (Signup.createTenant SampleMore.parseTenant Sample.env
            (SampleMore.signupRequest "Umbrella Corp.") SampleMore.store)).
Proof.
  apply (X6_signup_keeps_store_well_formed SampleMore.parseTenant Sample.env
           (SampleMore.signupRequest "Umbrella Corp.") SampleMore.store).
  exact sampleMore_store_wf.
Defined.

(** X7: the key a signup returns authenticates. After a 201 answer, any
    later request that supplies the returned key against the resulting
    store passes API-key authentication with the created tenant as its
    context, and without a user. *)
Theorem X7_signup_key_authenticates :
  forall (parse : list (string * Js.value) -> option Signup.InsertTenant)
         (e e' : Http.Env) (r : Http.Request) (s s' : Signup.Store)
         (created : Http.TenantSnapshot) (key message : string) (st : Http.St),
    Signup.wfStore s ->
    Signup.createTenant parse e r s
    = (Signup.mkSignupResponse 201 (Signup.SignupCreated created key message), s') ->
    Http.db st = Signup.core s' ->
    TenantAuth.suppliedApiKey (Http.req st) = Some key ->
    (exists st',
        TenantAuth.authenticateApiKey e' st = Http.Next st'
        /\ Http.ctx st' = Some (Http.mkContext (Http.s_id created) created None))
    /\ Http.s_status created = "active".
Proof.
  intros parse e e' r s s' created key message st Hwf Hrun Hdb Hkey.
  pose proof (createTenant_keeps_wfStore parse e r s Hwf) as Hwf'.
  destruct (createTenant_cases parse e r s)
    as [[_ H] | [(v & t & _ & _ & _ & H) | [(v & _ & H) | [(v & _ & H)
       | (v & row & _ & Hrow & _ & _ & H)]]]];
    rewrite H in Hrun, Hwf'; try discriminate.
  injection Hrun as Hcreated Hk Hs'. subst key s' created.
  simpl in Hwf'. destruct Hwf' as (Hwfcore & _).
  destruct (signup_row_written e v s row Hrow) as (_ & Hrowkey & Hactive).
  split; [|exact Hactive]. eexists.
  rewrite (authenticateApiKey_valid e' st row).
  - split; reflexivity.
  - rewrite Hdb. exact Hwfcore.
  - rewrite Hdb. simpl. apply in_or_app. right. now left.
  - exact Hactive.
  - rewrite Hrowkey. discriminate.
  - now rewrite Hrowkey.
Qed.

Lemma X7_witness :
  (exists st',
      TenantAuth.authenticateApiKey Sample.env
        (Sample.start (Sample.apiRequest "GET" "/info" (TenantAuth.generateApiKey Sample.env))
           (Signup.core (snd (Signup.createTenant SampleMore.parseTenant Sample.env
                                (SampleMore.signupRequest "Umbrella Corp.")
                                SampleMore.store))))
      = Http.Next st'
      /\ Http.ctx st'
         = Some (Http.mkContext 5
                   (Http.mkSnapshot 5 "Umbrella Corp." "umbrella-corp-" "pro" 2 50 "active")
                   None))
  /\ "active" = "active".
Proof.
  apply (X7_signup_key_authenticates SampleMore.parseTenant Sample.env Sample.env
           (SampleMore.signupRequest "Umbrella Corp.") SampleMore.store
           (snd (Signup.createTenant SampleMore.parseTenant Sample.env
                   (SampleMore.signupRequest "Umbrella Corp.") SampleMore.store))
           (Http.mkSnapshot 5 "Umbrella Corp." "umbrella-corp-" "pro" 2 50 "active")
           (TenantAuth.generateApiKey Sample.env)
           "Tenant created successfully. Save your API key securely!"
           (Sample.start (Sample.apiRequest "GET" "/info" (TenantAuth.generateApiKey Sample.env))
              (Signup.core (snd (Signup.createTenant SampleMore.parseTenant Sample.env
                                   (SampleMore.signupRequest "Umbrella Corp.")
                                   SampleMore.store))))).
  - exact sampleMore_store_wf.
  - vm_compute. reflexivity.
  - reflexivity.
  - reflexivity.
Defined.

(* ===================================================================== *)
(** ** What authentication lets through *)
(* ===================================================================== *)

Section AuthenticationFacts.
Import Schema Http TenantAuth.

(** Usage tracking writes to no table but [api_usage]. *)
Lemma trackApiUsage_other_tables (e : Env) (r : Request) (tid : Z) (d : DB) :
  tenants (trackApiUsage e r tid d) = tenants d
  /\ hubLicenses (trackApiUsage e r tid d) = hubLicenses d
  /\ tenantsHubs (trackApiUsage e r tid d) = tenantsHubs d.
Proof. repeat split. Qed.

(** A request that passes API-key authentication shows how it did. *)
Lemma authenticateApiKey_next (e : Env) (st st' : St) :
  authenticateApiKey e st = Next st' ->
  exists key t,
    Js.present (suppliedApiKey (req st)) = Some key
    /\ findActiveByApiKey (db st) key = Some t
    /\ st' = mkSt (req st) (Some (mkContext (t_id t) (snapshot t) None)) (resHeaders st)
                  (trackApiUsage e (req st) (t_id t) (db st)).
Proof.
  unfold authenticateApiKey.
  destruct (Js.present (suppliedApiKey (req st))) as [key|]; [|discriminate].
  destruct (findActiveByApiKey (db st) key) as [t|] eqn:Hfind; [|discriminate].
  intros H. injection H as <-. exists key, t. repeat split; auto.
Qed.

Lemma authenticateHubLicense_next (e : Env) (st st' : St) :
  authenticateHubLicense e st = Next st' ->
  exists key serial l t,
    Js.present (header (req st) "x-license-key") = Some key
    /\ Js.present (header (req st) "x-hub-serial") = Some serial
    /\ findActiveByKeyAndSerial (db st) key serial = Some (l, t)
    /\ expired e l = false
    /\ st' = mkSt (req st) (Some (mkContext (l_tenantId l) (snapshot t) None))
                  (resHeaders st) (trackApiUsage e (req st) (l_tenantId l) (db st)).
Proof.
  unfold authenticateHubLicense.
  destruct (Js.present (header (req st) "x-license-key")) as [key|]; [|discriminate].
  destruct (Js.present (header (req st) "x-hub-serial")) as [serial|]; [|discriminate].
  destruct (findActiveByKeyAndSerial (db st) key serial) as [[l t]|] eqn:Hfind;
    [|discriminate].
  destruct (expired e l) eqn:Hexp; [discriminate|].
  intros H. injection H as <-. exists key, serial, l, t. repeat split; auto.
Qed.

Lemma findActiveByKeyAndSerial_some (d : DB) (key serial : string)
    (l : HubLicense) (t : Tenant) :
  findActiveByKeyAndSerial d key serial = Some (l, t) ->
  In l (hubLicenses d) /\ In t (tenants d) /\ l_tenantId l = t_id t
  /\ l_licenseKey l = key /\ l_hubSerial l = serial
  /\ l_status l = "active" /\ t_status t = "active".
Proof.
  intros H. apply hd_error_filter_some in H. destruct H as [Hjoin Hq].
  apply in_license_join in Hjoin. apply licenseQuery_true in Hq. tauto.
Qed.

Lemma expired_false_iff (e : Env) (l : HubLicense) :
  expired e l = false <-> unexpired e l.
Proof.
  unfold expired, unexpired. destruct (l_expiresAt l) as [t|]; [|tauto].
  rewrite Z.ltb_ge. tauto.
Qed.

Lemma present_orString (a b : option string) :
  Js.present (Js.orString a b)
  = match Js.present a with Some s => Some s | None => Js.present b end.
Proof.
  unfold Js.orString. destruct (Js.present a) as [s|] eqn:E; [|reflexivity].
  destruct a as [x|]; simpl in E; [|discriminate].
  destruct (String.eqb_spec x ""); [discriminate|]. injection E as <-.
  simpl. destruct (String.eqb_spec x ""); [contradiction | reflexivity].
Qed.

End AuthenticationFacts.

(** X8: API-key authentication lets a request through only for the key
    of an active tenant. Whenever it calls [next()], the request supplied
    a non-empty key, a stored tenant with status "active" holds that key,
    the context is that tenant's id and snapshot with no user, and the
    request, the response headers and the tenant, license and hub tables
    are as they were. *)
Theorem X8_api_key_authentication_sound :
  forall (e : Http.Env) (st st' : Http.St),
    TenantAuth.authenticateApiKey e st = Http.Next st' ->
    exists (key : string) (t : Schema.Tenant),
      Js.present (TenantAuth.suppliedApiKey (Http.req st)) = Some key
      /\ In t (Schema.tenants (Http.db st))
      /\ Schema.t_apiKey t = key
      /\ Schema.t_status t = "active"
      /\ Http.ctx st' = Some (Http.mkContext (Schema.t_id t) (TenantAuth.snapshot t) None)
      /\ Http.req st' = Http.req st
      /\ Http.resHeaders st' = Http.resHeaders st
      /\ Schema.tenants (Http.db st') = Schema.tenants (Http.db st)
      /\ Schema.hubLicenses (Http.db st') = Schema.hubLicenses (Http.db st)
      /\ Schema.tenantsHubs (Http.db st') = Schema.tenantsHubs (Http.db st).
Proof.
  intros e st st' H.
  destruct (authenticateApiKey_next e st st' H) as (key & t & Hkey & Hfind & ->).
  apply hd_error_filter_some in Hfind. destruct Hfind as [Hin Hp].
  apply andb_true_iff in Hp. destruct Hp as [Hk Hs].
  apply String.eqb_eq in Hk, Hs.
  exists key, t. repeat split; auto.
Qed.

Lemma X8_witness :
  exists (key : string) (t : Schema.Tenant),
    Js.present (TenantAuth.suppliedApiKey (Sample.apiRequest "GET" "/info" "ak_acme"))
    = Some key
    /\ In t (Schema.tenants Sample.store)
    /\ Schema.t_apiKey t = key
    /\ Schema.t_status t = "active".
Proof.
  destruct (X8_api_key_authentication_sound Sample.env
              (Sample.start (Sample.apiRequest "GET" "/info" "ak_acme") Sample.store)
              (Sample.authenticated Sample.acme (Sample.apiRequest "GET" "/info" "ak_acme")
                                    Sample.store)
              eq_refl)
    as (key & t & Hkey & Hin & Hk & Hs & _).
  exists key, t. auto.
Defined.

(** X9: the key is read from the [X-API-Key] header first, and the
    [api_key] query parameter counts only when the header is missing or
    empty. A request whose header holds the key of an active tenant
    authenticates as that tenant whatever the query parameter says, and so
    does a request without a header key whose query parameter holds one.
    A request whose header holds a non-empty key (a text without U+0000,
    as every header is) is judged by that key alone: when no active
    tenant holds it the answer is 401 "Invalid API key", even if the
    query parameter holds the key of an active tenant. *)
Theorem X9_header_key_before_query_key :
  forall (e : Http.Env) (st : Http.St),
    Schema.wf (Http.db st) ->
    (forall t : Schema.Tenant,
        In t (Schema.tenants (Http.db st)) ->
        Schema.t_status t = "active" ->
        Schema.t_apiKey t <> "" ->
        Http.header (Http.req st) "x-api-key" = Some (Schema.t_apiKey t)
        \/ (Js.present (Http.header (Http.req st) "x-api-key") = None
            /\ Http.queryParam (Http.req st) "api_key" = Some (Schema.t_apiKey t)) ->
        exists st',
          TenantAuth.authenticateApiKey e st = Http.Next st'
          /\ Http.ctx st'
             = Some (Http.mkContext (Schema.t_id t) (TenantAuth.snapshot t) None))
    /\ (forall k : string,
          Js.present (Http.header (Http.req st) "x-api-key") = Some k ->
          Js.present (TenantAuth.suppliedApiKey (Http.req st)) = Some k)
    /\ (forall k : string,
          Js.present (Http.header (Http.req st) "x-api-key") = Some k ->
          Schema.hasNul k = false ->
          (forall t, In t (Schema.tenants (Http.db st)) ->
                     Schema.t_status t = "active" -> Schema.t_apiKey t <> k) ->
          TenantAuth.authenticateApiKey e st = Http.Reply TenantAuth.invalidApiKey st).
Proof.
  intros e st Hwf. split; [|split].
  - intros t Hin Hst Hne Hsrc.
    assert (Hkey : Js.present (TenantAuth.suppliedApiKey (Http.req st))
                   = Some (Schema.t_apiKey t)).
    { unfold TenantAuth.suppliedApiKey. rewrite present_orString.
      destruct Hsrc as [Hh | [Hh Hq]]; rewrite Hh.
      - simpl. destruct (String.eqb_spec (Schema.t_apiKey t) "");
          [contradiction|reflexivity].
      - rewrite Hq. simpl.
        destruct (String.eqb_spec (Schema.t_apiKey t) ""); [contradiction|reflexivity]. }
    unfold TenantAuth.authenticateApiKey. rewrite Hkey.
    rewrite (findActiveByApiKey_valid _ _ Hwf Hin Hst).
    eexists. split; reflexivity.
  - intros k Hk. unfold TenantAuth.suppliedApiKey. now rewrite present_orString, Hk.
  - intros k Hk _ Hnone.
    unfold TenantAuth.authenticateApiKey, TenantAuth.suppliedApiKey.
    rewrite present_orString, Hk.
    assert (Hfind : TenantAuth.findActiveByApiKey (Http.db st) k = None).
    { apply hd_error_filter_none. intros t Ht.
      destruct (String.eqb_spec (Schema.t_apiKey t) k) as [Heq|]; [|reflexivity].
      destruct (String.eqb_spec (Schema.t_status t) "active") as [Hact|]; [|reflexivity].
      exfalso. exact (Hnone t Ht Hact Heq). }
    now rewrite Hfind.
Qed.

Lemma X9_witness :
  (exists st',
      TenantAuth.authenticateApiKey Sample.env
        (Sample.start (Http.mkRequest "GET" "/info" None [("x-api-key", "ak_acme")]
                         [("api_key", "ak_hooli")] [])
                      Sample.store)
      = Http.Next st'
      /\ Http.ctx st' = Some (Http.mkContext 1 (TenantAuth.snapshot Sample.acme) None))
  /\ TenantAuth.authenticateApiKey Sample.env
       (Sample.start (Http.mkRequest "GET" "/info" None [("x-api-key", "bogus")]
                        [("api_key", "ak_acme")] [])
                     Sample.store)
     = Http.Reply TenantAuth.invalidApiKey
         (Sample.start (Http.mkRequest "GET" "/info" None [("x-api-key", "bogus")]
                          [("api_key", "ak_acme")] [])
                       Sample.store).
Proof.
  split.
  - apply (proj1 (X9_header_key_before_query_key Sample.env
                    (Sample.start (Http.mkRequest "GET" "/info" None
                                     [("x-api-key", "ak_acme")]
                                     [("api_key", "ak_hooli")] [])
                                  Sample.store)
                    sample_store_wf)
                 Sample.acme).
    + simpl. auto.
    + reflexivity.
    + discriminate.
    + left. reflexivity.
  - apply (proj2 (proj2 (X9_header_key_before_query_key Sample.env
                           (Sample.start (Http.mkRequest "GET" "/info" None
                                            [("x-api-key", "bogus")]
                                            [("api_key", "ak_acme")] [])
                                         Sample.store)
                           sample_store_wf))
                 "bogus").
    + reflexivity.
    + reflexivity.
    + intros t Ht _. simpl in Ht.
      repeat (destruct Ht as [<-|Ht]; [discriminate|]). contradiction.
Defined.

(** X10: without credentials the store is not consulted. A request with
    neither a non-empty [X-API-Key] header nor a non-empty [api_key]
    parameter is answered 401 "API key required" against every store, and
    a hub request that lacks a non-empty [X-License-Key] or a non-empty
    [X-Hub-Serial] is answered 401 "Hub authentication required" against
    every store; the request state is untouched. *)
Theorem X10_missing_credentials :
  forall (e : Http.Env) (st : Http.St),
    (Js.present (Http.header (Http.req st) "x-api-key") = None ->
     Js.present (Http.queryParam (Http.req st) "api_key") = None ->
     TenantAuth.authenticateApiKey e st = Http.Reply TenantAuth.apiKeyRequired st)
    /\ (Js.present (Http.header (Http.req st) "x-license-key") = None
        \/ Js.present (Http.header (Http.req st) "x-hub-serial") = None ->
        TenantAuth.authenticateHubLicense e st = Http.Reply TenantAuth.hubAuthRequired st)
    /\ Http.status TenantAuth.apiKeyRequired = 401
    /\ Http.status TenantAuth.hubAuthRequired = 401.
Proof.
  intros e st. split; [|split; [|split; reflexivity]].
  - intros Hh Hq. unfold TenantAuth.authenticateApiKey, TenantAuth.suppliedApiKey.
    rewrite present_orString, Hh, Hq. reflexivity.
  - intros H. unfold TenantAuth.authenticateHubLicense.
    destruct H as [-> | ->]; [reflexivity|].
    destruct (Js.present (Http.header (Http.req st) "x-license-key")); reflexivity.
Qed.

Lemma X10_witness :
  TenantAuth.authenticateApiKey Sample.env
    (Sample.start (Http.mkRequest "GET" "/info" None [("x-api-key", "")] [] []) Sample.store)
  = Http.Reply TenantAuth.apiKeyRequired
      (Sample.start (Http.mkRequest "GET" "/info" None [("x-api-key", "")] [] []) Sample.store)
  /\ TenantAuth.authenticateHubLicense Sample.env
       (Sample.start (Http.mkRequest "POST" "/heartbeat" None [("x-license-key", "lk_1")] [] [])
                     Sample.store)
     = Http.Reply TenantAuth.hubAuthRequired
         (Sample.start (Http.mkRequest "POST" "/heartbeat" None [("x-license-key", "lk_1")]
                          [] [])
                       Sample.store).
Proof.
  split.
  - apply (X10_missing_credentials Sample.env
             (Sample.start (Http.mkRequest "GET" "/info" None [("x-api-key", "")] [] [])
                           Sample.store)); reflexivity.
  - apply (X10_missing_credentials Sample.env
             (Sample.start (Http.mkRequest "POST" "/heartbeat" None
                              [("x-license-key", "lk_1")] [] [])
                           Sample.store)).
    right. reflexivity.
Defined.

(** X11: hub authentication lets a request through only for a valid
    license. Whenever it calls [next()], both headers were non-empty, a
    stored license has exactly that key and that serial and status
    "active", its tenant is stored with status "active", the clock does
    not read past the license's expiry, and the context is the license's
    tenant with no user. *)
Theorem X11_hub_authentication_sound :
  forall (e : Http.Env) (st st' : Http.St),
    TenantAuth.authenticateHubLicense e st = Http.Next st' ->
    exists (l : Schema.HubLicense) (t : Schema.Tenant),
      Js.present (Http.header (Http.req st) "x-license-key") = Some (Schema.l_licenseKey l)
      /\ Js.present (Http.header (Http.req st) "x-hub-serial") = Some (Schema.l_hubSerial l)
      /\ In l (Schema.hubLicenses (Http.db st))
      /\ In t (Schema.tenants (Http.db st))
      /\ Schema.l_tenantId l = Schema.t_id t
      /\ Schema.l_status l = "active"
      /\ Schema.t_status t = "active"
      /\ unexpired e l
      /\ Http.ctx st' = Some (Http.mkContext (Schema.t_id t) (TenantAuth.snapshot t) None)
      /\ Http.req st' = Http.req st.
Proof.
  intros e st st' H.
  destruct (authenticateHubLicense_next e st st' H)
    as (key & serial & l & t & Hk & Hs & Hfind & Hexp & ->).
  apply findActiveByKeyAndSerial_some in Hfind.
  destruct Hfind as (Hl & Ht & Hid & Hkey & Hserial & Hls & Hts).
  exists l, t. subst key serial. rewrite Hid.
  repeat split; auto. now apply expired_false_iff.
Qed.

Lemma X11_witness :
  exists (l : Schema.HubLicense) (t : Schema.Tenant),
    In l (Schema.hubLicenses Sample.store)
    /\ Schema.l_licenseKey l = "lk_1"
    /\ Schema.l_status l = "active"
    /\ Schema.t_status t = "active".
Proof.
  destruct (X11_hub_authentication_sound Sample.env
              (Sample.start (Sample.hubRequest "lk_1" "AO-ACME-SECURITY-001-a") Sample.store)
              (Sample.authenticated Sample.acme
                 (Sample.hubRequest "lk_1" "AO-ACME-SECURITY-001-a") Sample.store)
              eq_refl)
    as (l & t & Hk & _ & Hl & _ & _ & Hls & Hts & _).
  exists l, t. repeat split; auto.
  simpl in Hk. congruence.
Defined.

(** X12: for the credentials of an active license of an active tenant,
    hub authentication passes exactly when the clock has not gone past
    [expiresAt]: a license without expiry always passes, and a license
    passes still at the very instant of its expiry (the comparison is
    strict). *)
Theorem X12_license_valid_until_expiry :
  forall (e : Http.Env) (st : Http.St) (l : Schema.HubLicense) (t : Schema.Tenant),
    Schema.wf (Http.db st) ->
    Http.header (Http.req st) "x-license-key" = Some (Schema.l_licenseKey l) ->
    Http.header (Http.req st) "x-hub-serial" = Some (Schema.l_hubSerial l) ->
    Schema.l_licenseKey l <> "" ->
    Schema.l_hubSerial l <> "" ->
    In l (Schema.hubLicenses (Http.db st)) ->
    Schema.l_status l = "active" ->
    In t (Schema.tenants (Http.db st)) ->
    Schema.l_tenantId l = Schema.t_id t ->
    Schema.t_status t = "active" ->
    ((exists st', TenantAuth.authenticateHubLicense e st = Http.Next st'
                  /\ Http.ctx st'
                     = Some (Http.mkContext (Schema.t_id t) (TenantAuth.snapshot t) None))
     <-> unexpired e l)
    /\ (Schema.l_expiresAt l = None \/ Schema.l_expiresAt l = Some (Http.nowMs e) ->
        exists st', TenantAuth.authenticateHubLicense e st = Http.Next st').
Proof.
  intros e st l t Hwf Hk Hs Hkne Hsne Hl Hls Ht Hid Hts.
  assert (Hrun : TenantAuth.authenticateHubLicense e st
                 = if TenantAuth.expired e l
                   then Http.Reply TenantAuth.licenseExpired st
                   else Http.Next
                          (Http.mkSt (Http.req st)
                             (Some (Http.mkContext (Schema.l_tenantId l)
                                      (TenantAuth.snapshot t) None))
                             (Http.resHeaders st)
                             (TenantAuth.trackApiUsage e (Http.req st)
                                (Schema.l_tenantId l) (Http.db st)))).
  { unfold TenantAuth.authenticateHubLicense. rewrite Hk, Hs. simpl.
    destruct (String.eqb_spec (Schema.l_licenseKey l) ""); [contradiction|].
    destruct (String.eqb_spec (Schema.l_hubSerial l) ""); [contradiction|].
    rewrite (findActiveByKeyAndSerial_valid (Http.db st) l t) by assumption.
    reflexivity. }
  assert (Hiff : (exists st', TenantAuth.authenticateHubLicense e st = Http.Next st'
                              /\ Http.ctx st'
                                 = Some (Http.mkContext (Schema.t_id t)
                                           (TenantAuth.snapshot t) None))
                 <-> unexpired e l).
  { rewrite <- expired_false_iff. rewrite Hrun. split.
    - intros (st' & H & _). destruct (TenantAuth.expired e l); [discriminate|reflexivity].
    - intros ->. eexists. split; [reflexivity|]. simpl. now rewrite Hid. }
  split; [exact Hiff|].
  intros Hwhen.
  assert (Hun : unexpired e l).
  { unfold unexpired. destruct Hwhen as [-> | ->]; [exact I | lia]. }
  apply Hiff in Hun. destruct Hun as (st' & H & _). eauto.
Qed.

Lemma X12_witness :
  exists st',
    TenantAuth.authenticateHubLicense (Http.mkEnv 5000 0)
      (Sample.start (Sample.hubRequest "lk_2" "AO-ACME-SECURITY-002-b") Sample.store)
    = Http.Next st'.
Proof.
  apply (X12_license_valid_until_expiry (Http.mkEnv 5000 0)
           (Sample.start (Sample.hubRequest "lk_2" "AO-ACME-SECURITY-002-b") Sample.store)
           Sample.acmeExpired Sample.acme).
  - exact sample_store_wf.
  - reflexivity.
  - reflexivity.
  - discriminate.
  - discriminate.
  - simpl. auto.
  - reflexivity.
  - simpl. auto.
  - reflexivity.
  - reflexivity.
  - right. reflexivity.
Defined.

(** X13: the key and the serial are checked as a pair. The key of one
    stored license presented with the serial of another is answered 401
    "Invalid hub license", even when both licenses are active and belong
    to the same active tenant. *)
Theorem X13_key_and_serial_must_match :
  forall (e : Http.Env) (st : Http.St) (l1 l2 : Schema.HubLicense),
    Schema.wf (Http.db st) ->
    In l1 (Schema.hubLicenses (Http.db st)) ->
    In l2 (Schema.hubLicenses (Http.db st)) ->
    l1 <> l2 ->
    Http.header (Http.req st) "x-license-key" = Some (Schema.l_licenseKey l1) ->
    Http.header (Http.req st) "x-hub-serial" = Some (Schema.l_hubSerial l2) ->
    Schema.l_licenseKey l1 <> "" ->
    Schema.l_hubSerial l2 <> "" ->
    TenantAuth.authenticateHubLicense e st = Http.Reply TenantAuth.invalidHubLicense st.
Proof.
  intros e st l1 l2 Hwf H1 H2 Hne Hk Hs Hkne Hsne.
  rewrite (authenticateHubLicense_no_row e st _ _ Hk Hs).
  - unfold hubRejection.
    destruct (String.eqb_spec (Schema.l_licenseKey l1) ""); [contradiction|].
    destruct (String.eqb_spec (Schema.l_hubSerial l2) ""); [contradiction|].
    reflexivity.
  - apply hubPairAbsent_none. intros l Hl [Hlk Hls].
    assert (l = l1)
      by (eapply unique_column; eauto using Schema.wf_license_key).
    assert (l = l2)
      by (eapply unique_column; eauto using Schema.wf_license_serial).
    congruence.
Qed.

Lemma X13_witness :
  TenantAuth.authenticateHubLicense Sample.env
    (Sample.start (Sample.hubRequest "lk_5" "AO-HOOLI-003-f") Sample.store)
  = Http.Reply TenantAuth.invalidHubLicense
      (Sample.start (Sample.hubRequest "lk_5" "AO-HOOLI-003-f") Sample.store).
Proof.
  apply (X13_key_and_serial_must_match Sample.env
           (Sample.start (Sample.hubRequest "lk_5" "AO-HOOLI-003-f") Sample.store)
           Sample.hooliHub2 Sample.hooliHub3).
  - exact sample_store_wf.
  - simpl. auto 10.
  - simpl. auto 10.
  - discriminate.
  - reflexivity.
  - reflexivity.
  - discriminate.
  - discriminate.
Defined.

(* ===================================================================== *)
(** ** Guards: permissions and subscription tiers *)
(* ===================================================================== *)

Section GuardFacts.
Import Schema Http TenantAuth.

Lemma existsb_eqb_in (x : string) (xs : list string) :
  existsb (String.eqb x) xs = true <-> In x xs.
Proof.
  rewrite existsb_exists. split.
  - intros (y & Hy & Heq). apply String.eqb_eq in Heq. now subst.
  - intros H. exists x. split; [exact H | apply String.eqb_refl].
Qed.

(** The positions of the tiers. *)
Lemma tier_below_pro (tier : string) :
  Js.indexOf tierHierarchy tier < 1 <-> tier <> "pro" /\ tier <> "enterprise".
Proof.
  unfold Js.indexOf, tierHierarchy. cbn [Js.indexOfFrom].
  destruct (String.eqb_spec "basic" tier) as [<-|Hb].
  - split; [intros _; split; discriminate | intros _; lia].
  - destruct (String.eqb_spec "pro" tier) as [<-|Hp].
    + split; [intros H; exfalso; lia | intros [H _]; now contradiction H].
    + destruct (String.eqb_spec "enterprise" tier) as [<-|He].
      * split; [intros H; exfalso; lia | intros [_ H]; now contradiction H].
      * split; [intros _; split; congruence | intros _; lia].
Qed.

End GuardFacts.

(** X14: [requirePermission name] passes exactly the contexts whose user
    lists [name] among its permissions; the user's role plays no part, so
    an admin without the permission is answered 403 "Permission denied",
    and a context without a user is answered 403 "User authentication
    required". *)
Theorem X14_requirePermission_exact_membership :
  forall (permission : string) (st : Http.St),
    (TenantAuth.requirePermission permission st = Http.Next st
     <-> exists u, TenantAuth.ctxUser st = Some u /\ In permission (Http.usr_permissions u))
    /\ (forall u, TenantAuth.ctxUser st = Some u ->
                  ~ In permission (Http.usr_permissions u) ->
                  TenantAuth.requirePermission permission st
                  = Http.Reply (TenantAuth.permissionDenied permission) st)
    /\ (TenantAuth.ctxUser st = None ->
        TenantAuth.requirePermission permission st
        = Http.Reply TenantAuth.userAuthRequired st)
    /\ Http.status (TenantAuth.permissionDenied permission) = 403.
Proof.
  intros permission st. unfold TenantAuth.requirePermission.
  destruct (TenantAuth.ctxUser st) as [u|].
  - destruct (existsb (String.eqb permission) (Http.usr_permissions u)) eqn:E; simpl;
      (split; [|split; [|split]]); try reflexivity; try discriminate.
    + apply existsb_eqb_in in E. split; [eauto | reflexivity].
    + apply existsb_eqb_in in E. intros u' Hu' Hnot. injection Hu' as <-. contradiction.
    + split; [discriminate|].
      intros (u' & Hu' & Hin). injection Hu' as <-.
      apply existsb_eqb_in in Hin. congruence.
  - split; [|split; [|split]]; try reflexivity.
    + split; [discriminate|]. intros (u & Hu & _). discriminate.
    + intros u Hu. discriminate.
Qed.

(** X15: behind [requireSubscriptionTier "pro"] a tenant passes exactly
    when its tier is the string "pro" or "enterprise". Every other tier,
    "basic" and any string outside the list alike, is answered 403
    "Subscription upgrade required", and so is a request without
    context. *)
Theorem X15_pro_gate :
  forall (st : Http.St),
    (TenantAuth.requireSubscriptionTier "pro" st = Http.Next st
     <-> exists c, Http.ctx st = Some c
                   /\ (Http.s_subscriptionTier (Http.tenant c) = "pro"
                       \/ Http.s_subscriptionTier (Http.tenant c) = "enterprise"))
    /\ (forall c, Http.ctx st = Some c ->
                  Http.s_subscriptionTier (Http.tenant c) <> "pro" ->
                  Http.s_subscriptionTier (Http.tenant c) <> "enterprise" ->
                  TenantAuth.requireSubscriptionTier "pro" st
                  = Http.Reply (TenantAuth.upgradeRequired "pro") st)
    /\ (Http.ctx st = None ->
        TenantAuth.requireSubscriptionTier "pro" st
        = Http.Reply TenantAuth.tenantAuthRequired st)
    /\ Http.status (TenantAuth.upgradeRequired "pro") = 403.
Proof.
  intros st. unfold TenantAuth.requireSubscriptionTier.
  destruct (Http.ctx st) as [c|].
  - change (Js.indexOf TenantAuth.tierHierarchy "pro") with 1.
    pose proof (tier_below_pro (Http.s_subscriptionTier (Http.tenant c))) as Hpos.
    destruct (Js.indexOf TenantAuth.tierHierarchy (Http.s_subscriptionTier (Http.tenant c)) <? 1)
      eqn:E; (split; [|split; [|split]]); try reflexivity; try discriminate.
    + apply Z.ltb_lt in E. apply Hpos in E. destruct E as [Hp He].
      split; [discriminate|].
      intros (c' & Hc' & Htier). injection Hc' as <-. tauto.
    + apply Z.ltb_ge in E. split; [|reflexivity].
      intros _. exists c. split; [reflexivity|].
      destruct (String.eqb_spec (Http.s_subscriptionTier (Http.tenant c)) "pro");
        [now left|].
      destruct (String.eqb_spec (Http.s_subscriptionTier (Http.tenant c)) "enterprise");
        [now right|].
      exfalso. assert (Hlt : Js.indexOf TenantAuth.tierHierarchy
                               (Http.s_subscriptionTier (Http.tenant c)) < 1)
        by (apply Hpos; split; assumption). lia.
    + apply Z.ltb_ge in E. intros c' Hc' Hp He. injection Hc' as <-.
      exfalso. assert (Hlt : Js.indexOf TenantAuth.tierHierarchy
                               (Http.s_subscriptionTier (Http.tenant c)) < 1)
        by (apply Hpos; split; assumption). lia.
  - split; [|split; [|split]]; try reflexivity.
    + split; [discriminate|]. intros (c & Hc & _). discriminate.
    + intros c Hc. discriminate.
Qed.

(* ===================================================================== *)
(** ** The tenant prefix: authentication, then the limiter *)
(* ===================================================================== *)

Section TenantPrefix.
Import Schema Http TenantAuth TenantQueries.

(** What the tenant prefix does with a request that supplies the key
    of the active tenant [t]. *)
Lemma tenantPrefix_valid (e : Env) (st : St) (t : Tenant) :
  wf (db st) -> In t (tenants (db st)) -> t_status t = "active" ->
  t_apiKey t <> "" ->
  suppliedApiKey (req st) = Some (t_apiKey t) ->
  tenantPrefix e st
  = let tier := t_subscriptionTier t in
    let limited := withHeader "X-RateLimit-Limit" (tierLimit tier) (resHeaders st) in
    if validHeaderText tier
    then Next (mkSt (req st) (Some (mkContext (t_id t) (snapshot t) None))
                    (withHeader "X-RateLimit-Tier" (Js.VStr tier) limited) (db st))
    else Reply uncaught
               (mkSt (req st) (Some (mkContext (t_id t) (snapshot t) None)) limited
                     (db st)).
Proof.
  intros Hwf Hin Hst Hne Hkey. unfold tenantPrefix.
  rewrite (authenticateApiKey_valid e st t Hwf Hin Hst Hne Hkey). cbn [andThen].
  rewrite (rateLimitByTier_context
             (mkSt (req st) (Some (mkContext (t_id t) (snapshot t) None))
                   (resHeaders st) (db st))
             (mkContext (t_id t) (snapshot t) None) eq_refl).
  reflexivity.
Qed.

(** A request that passed the tenant prefix did so as an active tenant
    whose key it supplied. *)
Lemma tenantPrefix_next (e : Env) (st st' : St) :
  tenantPrefix e st = Next st' ->
  exists t,
    In t (tenants (db st)) /\ t_status t = "active"
    /\ Js.present (suppliedApiKey (req st)) = Some (t_apiKey t)
    /\ ctx st' = Some (mkContext (t_id t) (snapshot t) None)
    /\ hubLicenses (db st') = hubLicenses (db st)
    /\ tenantsHubs (db st') = tenantsHubs (db st).
Proof.
  unfold tenantPrefix.
  destruct (authenticateApiKey e st) as [st1|r st1] eqn:Hauth; [|discriminate].
  destruct (authenticateApiKey_next e st st1 Hauth) as (key & t & Hkey & Hfind & ->).
  apply hd_error_filter_some in Hfind. destruct Hfind as [Hin Hp].
  apply andb_true_iff in Hp. destruct Hp as [Hk Hs].
  apply String.eqb_eq in Hk, Hs. subst key.
  cbn [andThen]. intros H.
  destruct (proj1 (rateLimitByTier_frame _) st' H) as (_ & Hctx & Hdb).
  exists t. rewrite Hctx, Hdb. repeat split; auto.
Qed.

Lemma sameName_refl (a : string) : sameName a a = true.
Proof. apply String.eqb_refl. Qed.

(** Reading a header that was just set. *)
Lemma getHeader_set (name : string) (v : Js.value) (hs : list (string * Js.value)) :
  getHeader name (withHeader name v hs) = Some v.
Proof.
  induction hs as [|[n x] rest IH]; simpl.
  - now rewrite sameName_refl.
  - destruct (sameName n name) eqn:E; simpl.
    + now rewrite sameName_refl.
    + now rewrite E.
Qed.

(** Setting a header leaves the headers of other names as they are. *)
Lemma getHeader_other (name other : string) (v : Js.value)
    (hs : list (string * Js.value)) :
  sameName other name = false ->
  getHeader other (withHeader name v hs) = getHeader other hs.
Proof.
  intros Hne.
  assert (Hsym : sameName name other = false).
  { unfold sameName in *. now rewrite String.eqb_sym. }
  induction hs as [|[n x] rest IH]; simpl.
  - now rewrite Hsym.
  - destruct (sameName n name) eqn:E; simpl.
    + rewrite Hsym.
      assert (Hn : sameName n other = false).
      { unfold sameName in *. apply String.eqb_eq in E. now rewrite E. }
      now rewrite Hn.
    + now rewrite IH.
Qed.

End TenantPrefix.

(** X16: the usage analytics route is open to the paying tiers only. For
    a request with the key of an active tenant, the handler runs, with
    that tenant as context, when the tenant's tier is "pro" or
    "enterprise". For every other tier that is a text [res.setHeader]
    accepts, the request is answered 403 "Subscription upgrade required"
    and the handler does not run; for a tier it refuses, the limiter
    throws before the gate is reached and the answer is 500. *)
Theorem X16_usage_analytics_gate :
  forall (handler : Http.St -> Http.Outcome) (e : Http.Env) (st : Http.St)
         (t : Schema.Tenant),
    Schema.wf (Http.db st) ->
    In t (Schema.tenants (Http.db st)) ->
    Schema.t_status t = "active" ->
    Schema.t_apiKey t <> "" ->
    TenantAuth.suppliedApiKey (Http.req st) = Some (Schema.t_apiKey t) ->
    (Schema.t_subscriptionTier t = "pro" \/ Schema.t_subscriptionTier t = "enterprise" ->
     exists st',
       TenantQueries.getUsageAnalytics handler e st = handler st'
       /\ Http.ctx st'
          = Some (Http.mkContext (Schema.t_id t) (TenantAuth.snapshot t) None)
       /\ Http.req st' = Http.req st
       /\ Http.db st' = Http.db st)
    /\ (Schema.t_subscriptionTier t <> "pro" ->
        Schema.t_subscriptionTier t <> "enterprise" ->
        Http.validHeaderText (Schema.t_subscriptionTier t) = true ->
        exists st',
          TenantQueries.getUsageAnalytics handler e st
          = Http.Reply (TenantAuth.upgradeRequired "pro") st'
          /\ Http.status (TenantAuth.upgradeRequired "pro") = 403
          /\ Http.db st' = Http.db st)
    /\ (Http.validHeaderText (Schema.t_subscriptionTier t) = false ->
        exists st',
          TenantQueries.getUsageAnalytics handler e st = Http.Reply Http.uncaught st'
          /\ Http.status Http.uncaught = 500
          /\ Http.db st' = Http.db st).
Proof.
  intros handler e st t Hwf Hin Hst Hne Hkey.
  pose proof (tenantPrefix_valid e st t Hwf Hin Hst Hne Hkey) as Hprefix.
  unfold TenantQueries.tenantPrefix in Hprefix. cbv zeta in Hprefix.
  unfold TenantQueries.getUsageAnalytics, TenantRoutes.tenantRoute.
  rewrite Hprefix. split; [|split].
  - intros Htier.
    assert (Hvalid : Http.validHeaderText (Schema.t_subscriptionTier t) = true)
      by (destruct Htier as [-> | ->]; reflexivity).
    rewrite Hvalid. cbn [Http.andThen].
    unfold TenantAuth.requireSubscriptionTier. cbn [Http.ctx Http.tenant].
    change (Js.indexOf TenantAuth.tierHierarchy "pro") with 1.
    cbn [TenantAuth.snapshot Http.s_subscriptionTier].
    destruct (Js.indexOf TenantAuth.tierHierarchy (Schema.t_subscriptionTier t) <? 1) eqn:E.
    + apply Z.ltb_lt in E. apply tier_below_pro in E. tauto.
    + cbn [Http.andThen]. eexists. split; [reflexivity|]. repeat split.
  - intros Hp He Hvalid. rewrite Hvalid. cbn [Http.andThen].
    unfold TenantAuth.requireSubscriptionTier. cbn [Http.ctx Http.tenant].
    change (Js.indexOf TenantAuth.tierHierarchy "pro") with 1.
    cbn [TenantAuth.snapshot Http.s_subscriptionTier].
    assert (E : Js.indexOf TenantAuth.tierHierarchy (Schema.t_subscriptionTier t) < 1)
      by (apply tier_below_pro; split; assumption).
    apply Z.ltb_lt in E. rewrite E. cbn [Http.andThen].
    eexists. split; [reflexivity|]. split; reflexivity.
  - intros Hinvalid. rewrite Hinvalid. cbn [Http.andThen].
    eexists. split; [reflexivity|]. split; reflexivity.
Qed.

Lemma X16_witness :
  exists st',
    TenantQueries.getUsageAnalytics (fun st => Http.Next st) Sample.env
      (Sample.start (Sample.apiRequest "GET" "/analytics/usage" "ak_acme") Sample.store)
    = Http.Next st'
    /\ Http.ctx st' = Some (Http.mkContext 1 (TenantAuth.snapshot Sample.acme) None).
Proof.
  destruct (X16_usage_analytics_gate (fun st => Http.Next st) Sample.env
              (Sample.start (Sample.apiRequest "GET" "/analytics/usage" "ak_acme")
                            Sample.store)
              Sample.acme)
    as (Hpass & _).
  - exact sample_store_wf.
  - simpl. auto.
  - reflexivity.
  - discriminate.
  - reflexivity.
  - destruct Hpass as (st' & Hrun & Hctx & _); [left; reflexivity|].
    exists st'. split; [exact Hrun | exact Hctx].
Defined.

(** X17: the limiter only annotates, or throws. A request without
    context is passed on as it is. A request with context whose tier is a
    text [res.setHeader] accepts is passed on with the request, the
    context and the store as they are and with the two headers
    [X-RateLimit-Limit] and [X-RateLimit-Tier] set, the second to the
    tenant's tier as stored: a header of that name is replaced, and the
    headers of other names are left alone. For a tier [res.setHeader]
    refuses, [next()] is not called and the request is answered 500. *)
Theorem X17_rate_limiter_only_annotates :
  forall (st : Http.St),
    (Http.ctx st = None -> TenantAuth.rateLimitByTier st = Http.Next st)
    /\ (forall c, Http.ctx st = Some c ->
          Http.validHeaderText (Http.s_subscriptionTier (Http.tenant c)) = true ->
          exists st',
            TenantAuth.rateLimitByTier st = Http.Next st'
            /\ Http.req st' = Http.req st
            /\ Http.ctx st' = Http.ctx st
            /\ Http.db st' = Http.db st
            /\ Http.getHeader "X-RateLimit-Limit" (Http.resHeaders st')
               = Some (TenantAuth.tierLimit (Http.s_subscriptionTier (Http.tenant c)))
            /\ Http.getHeader "X-RateLimit-Tier" (Http.resHeaders st')
               = Some (Js.VStr (Http.s_subscriptionTier (Http.tenant c)))
            /\ (forall name,
                  Http.sameName name "X-RateLimit-Limit" = false ->
                  Http.sameName name "X-RateLimit-Tier" = false ->
                  Http.getHeader name (Http.resHeaders st')
                  = Http.getHeader name (Http.resHeaders st)))
    /\ (forall c, Http.ctx st = Some c ->
          Http.validHeaderText (Http.s_subscriptionTier (Http.tenant c)) = false ->
          exists st',
            TenantAuth.rateLimitByTier st = Http.Reply Http.uncaught st'
            /\ Http.status Http.uncaught = 500
            /\ Http.req st' = Http.req st
            /\ Http.ctx st' = Http.ctx st
            /\ Http.db st' = Http.db st).
Proof.
  intros st. split; [|split].
  - intros Hctx. unfold TenantAuth.rateLimitByTier. now rewrite Hctx.
  - intros c Hctx Hvalid. rewrite (rateLimitByTier_context st c Hctx). cbv zeta.
    rewrite Hvalid. eexists. split; [reflexivity|]. cbn [Http.req Http.ctx Http.db
                                                          Http.resHeaders].
    split; [reflexivity|]. split; [reflexivity|]. split; [reflexivity|].
    split; [|split].
    + rewrite getHeader_other by reflexivity. apply getHeader_set.
    + apply getHeader_set.
    + intros name Hl Ht. now rewrite !getHeader_other by assumption.
  - intros c Hctx Hinvalid. rewrite (rateLimitByTier_context st c Hctx). cbv zeta.
    rewrite Hinvalid. eexists. split; [reflexivity|]. repeat split.
Qed.

Lemma X17_witness :
  exists st',
    TenantAuth.rateLimitByTier
      (Http.mkSt (Sample.apiRequest "GET" "/info" "ak_acme")
         (Some (Http.mkContext 1 (TenantAuth.snapshot Sample.acme) None))
         [("x-ratelimit-tier", Js.VStr "basic")] Sample.store)
    = Http.Next st'
    /\ Http.getHeader "X-RateLimit-Tier" (Http.resHeaders st') = Some (Js.VStr "pro")
    /\ List.length (Http.resHeaders st') = 2%nat.
Proof.
  destruct (proj1 (proj2 (X17_rate_limiter_only_annotates
                            (Http.mkSt (Sample.apiRequest "GET" "/info" "ak_acme")
                               (Some (Http.mkContext 1 (TenantAuth.snapshot Sample.acme)
                                        None))
                               [("x-ratelimit-tier", Js.VStr "basic")] Sample.store)))
                  (Http.mkContext 1 (TenantAuth.snapshot Sample.acme) None)
                  eq_refl eq_refl)
    as (st' & Hrun & _ & _ & _ & _ & Htier & _).
  exists st'. split; [exact Hrun|]. split; [exact Htier|].
  assert (Hst : Http.Next st'
                = Http.Next
                    (Http.mkSt (Sample.apiRequest "GET" "/info" "ak_acme")
                       (Some (Http.mkContext 1 (TenantAuth.snapshot Sample.acme) None))
                       [("X-RateLimit-Tier", Js.VStr "pro");
                        ("X-RateLimit-Limit", Js.VNum 500)] Sample.store))
    by (rewrite <- Hrun; reflexivity).
  injection Hst as ->. reflexivity.
Defined.

(** The limiter on a tier that ends with a line feed. *)
Example limiter_throws_on_line_feed :
  exists st',
    TenantAuth.rateLimitByTier
      (Http.mkSt (Sample.apiRequest "GET" "/info" "ak_acme")
         (Some (Http.mkContext 1
                  (Http.mkSnapshot 1 "Acme Security" "acme-security"
                     (String "p" (String "r" (String "o" (String "010" EmptyString))))
                     2 50 "active")
                  None))
         [] Sample.store)
    = Http.Reply Http.uncaught st'.
Proof. eexists. reflexivity. Qed.

(** X18: the limit of a tier is 100, 500 and 2000 for "basic", "pro" and
    "enterprise", and 100 for every other tier whose name is not a
    property that objects inherit. *)
Theorem X18_tier_limit_table_and_default :
  forall (tier : string),
    inheritedName tier = false ->
    TenantAuth.tierLimit tier
    = if (tier =? "basic")%string then Js.VNum 100
      else if (tier =? "pro")%string then Js.VNum 500
      else if (tier =? "enterprise")%string then Js.VNum 2000
      else Js.VNum 100.
Proof.
  intros tier Hinh.
  destruct (String.eqb_spec tier "basic") as [->|Hb]; [reflexivity|].
  destruct (String.eqb_spec tier "pro") as [->|Hp]; [reflexivity|].
  destruct (String.eqb_spec tier "enterprise") as [->|He]; [reflexivity|].
  apply tierLimit_default; [|exact Hinh].
  unfold TenantAuth.rateLimits. cbn [Js.assoc].
  destruct (String.eqb_spec "basic" tier); [congruence|].
  destruct (String.eqb_spec "pro" tier); [congruence|].
  destruct (String.eqb_spec "enterprise" tier); [congruence|].
  reflexivity.
Qed.

Lemma X18_witness : TenantAuth.tierLimit "platinum" = Js.VNum 100.
Proof. apply (X18_tier_limit_table_and_default "platinum"). reflexivity. Defined.

(* ===================================================================== *)
(** ** The listings of a tenant *)
(* ===================================================================== *)

Section Listings.
Import Schema Http TenantAuth TenantQueries.

Section Ordering.
Context {A : Type} (precedes : A -> A -> bool).
Hypothesis precedes_total : forall a b, precedes a b = true \/ precedes b a = true.

Lemma insertRow_perm (x : A) (rows : list A) :
  Permutation (insertRow precedes x rows) (x :: rows).
Proof.
  induction rows as [|y rest IH]; simpl; [reflexivity|].
  destruct (precedes x y); [reflexivity|].
  rewrite IH. apply perm_swap.
Qed.

Lemma orderBy_perm (rows : list A) : Permutation (orderBy precedes rows) rows.
Proof.
  induction rows as [|x rest IH]; simpl; [reflexivity|].
  rewrite insertRow_perm. now constructor.
Qed.

Lemma insertRow_hd (x : A) (rows : list A) (z : A) :
  HdRel (fun a b => precedes a b = true) z rows -> precedes z x = true ->
  HdRel (fun a b => precedes a b = true) z (insertRow precedes x rows).
Proof.
  destruct rows as [|y rest]; simpl; intros Hhd Hzx.
  - now constructor.
  - destruct (precedes x y); constructor; [exact Hzx|]. now inversion Hhd.
Qed.

Lemma insertRow_sorted (x : A) (rows : list A) :
  Sorted (fun a b => precedes a b = true) rows ->
  Sorted (fun a b => precedes a b = true) (insertRow precedes x rows).
Proof.
  induction rows as [|y rest IH]; simpl; intros Hs.
  - repeat constructor.
  - destruct (precedes x y) eqn:E.
    + constructor; [exact Hs | now constructor].
    + inversion Hs as [|? ? Hrest Hhd]; subst. constructor; [now apply IH|].
      apply insertRow_hd; [exact Hhd|].
      destruct (precedes_total y x) as [H|H]; [exact H | congruence].
Qed.

Lemma orderBy_sorted (rows : list A) :
  Sorted (fun a b => precedes a b = true) (orderBy precedes rows).
Proof.
  induction rows as [|x rest IH]; simpl; [constructor | now apply insertRow_sorted].
Qed.

End Ordering.

Lemma newerLicense_total (a b : HubLicense) :
  newerLicense a b = true \/ newerLicense b a = true.
Proof. unfold newerLicense. rewrite !Z.leb_le. lia. Qed.

Lemma laterHeartbeat_total (a b : TenantHub) :
  laterHeartbeat a b = true \/ laterHeartbeat b a = true.
Proof.
  unfold laterHeartbeat.
  destruct (h_lastHeartbeat a), (h_lastHeartbeat b); auto.
  rewrite !Z.leb_le. lia.
Qed.

End Listings.

(** X19: [GET /api/tenant/hub-licenses] shows a tenant its own licenses
    and nothing else. Whenever the route sends rows, the request supplied
    the key of an active tenant, the rows are exactly the stored licenses
    of that tenant (each once, none of another tenant), and they come
    newest first by [createdAt]. *)
Theorem X19_license_listing_is_the_tenants_own :
  forall (e : Http.Env) (st : Http.St) (rows : list Schema.HubLicense),
    TenantQueries.getTenantHubLicenses e st = inr (TenantQueries.Rows rows) ->
    exists t : Schema.Tenant,
      In t (Schema.tenants (Http.db st))
      /\ Schema.t_status t = "active"
      /\ Js.present (TenantAuth.suppliedApiKey (Http.req st)) = Some (Schema.t_apiKey t)
      /\ Permutation rows
           (filter (fun l => Schema.l_tenantId l =? Schema.t_id t)
                   (Schema.hubLicenses (Http.db st)))
      /\ (forall l, In l rows -> Schema.l_tenantId l = Schema.t_id t)
      /\ Sorted (fun a b => Schema.l_createdAt b <= Schema.l_createdAt a) rows.
Proof.
  intros e st rows Hrun. unfold TenantQueries.getTenantHubLicenses in Hrun.
  destruct (TenantQueries.tenantPrefix e st) as [st1|r st1] eqn:Hprefix;
    simpl in Hrun; [|discriminate].
  destruct (tenantPrefix_next e st st1 Hprefix) as (t & Hin & Hst & Hkey & Hctx & Hlic & _).
  unfold TenantQueries.listHubLicenses in Hrun. rewrite Hctx, Hlic in Hrun.
  simpl in Hrun. injection Hrun as <-.
  exists t. repeat split; auto.
  - apply orderBy_perm.
  - intros l Hl. apply (Permutation_in _ (orderBy_perm _ _)) in Hl.
    apply filter_In in Hl. destruct Hl as [_ Hid]. now apply Z.eqb_eq.
  - pose proof (orderBy_sorted TenantQueries.newerLicense newerLicense_total
                  (filter (fun l => Schema.l_tenantId l =? Schema.t_id t)
                          (Schema.hubLicenses (Http.db st)))) as Hsorted.
    induction Hsorted as [|a l Hs IH Hhd]; constructor; auto.
    destruct Hhd as [|b l' Hab]; constructor.
    unfold TenantQueries.newerLicense in Hab. now apply Z.leb_le.
Qed.

Lemma X19_witness :
  exists rows,
    TenantQueries.getTenantHubLicenses Sample.env
      (Sample.start (Sample.apiRequest "GET" "/hub-licenses" "ak_hooli") Sample.store)
    = inr (TenantQueries.Rows rows)
    /\ forall l, In l rows -> Schema.l_tenantId l = 4.
Proof.
  eexists. split; [reflexivity|]. intros l Hl.
  destruct (X19_license_listing_is_the_tenants_own Sample.env
              (Sample.start (Sample.apiRequest "GET" "/hub-licenses" "ak_hooli") Sample.store)
              _ eq_refl)
    as (t & Hin & Hst & Hkey & _ & Hown & _).
  rewrite (Hown l Hl).
  simpl in Hin, Hkey.
  repeat (destruct Hin as [<-|Hin]; [simpl in *; first [reflexivity | discriminate]|]).
  contradiction.
Defined.

(** X20: [GET /api/tenant/hubs] shows a tenant its own hubs and nothing
    else. Whenever the route sends rows, the request supplied the key of
    an active tenant, the rows are exactly the stored hub rows of that
    tenant, and they come latest heartbeat first, the hubs that never sent
    one before the others. *)
Theorem X20_hub_listing_is_the_tenants_own :
  forall (e : Http.Env) (st : Http.St) (rows : list Schema.TenantHub),
    TenantQueries.getTenantHubs e st = inr (TenantQueries.Rows rows) ->
    exists t : Schema.Tenant,
      In t (Schema.tenants (Http.db st))
      /\ Schema.t_status t = "active"
      /\ Js.present (TenantAuth.suppliedApiKey (Http.req st)) = Some (Schema.t_apiKey t)
      /\ Permutation rows (TenantRoutes.hubsOf (Http.db st) (Schema.t_id t))
      /\ (forall h, In h rows -> Schema.h_tenantId h = Schema.t_id t)
      /\ Sorted (fun a b => TenantQueries.laterHeartbeat a b = true) rows.
Proof.
  intros e st rows Hrun. unfold TenantQueries.getTenantHubs in Hrun.
  destruct (TenantQueries.tenantPrefix e st) as [st1|r st1] eqn:Hprefix;
    simpl in Hrun; [|discriminate].
  destruct (tenantPrefix_next e st st1 Hprefix) as (t & Hin & Hst & Hkey & Hctx & _ & Hhubs).
  unfold TenantQueries.listHubs in Hrun. rewrite Hctx, Hhubs in Hrun.
  simpl in Hrun. injection Hrun as <-.
  exists t. repeat split; auto.
  - apply orderBy_perm.
  - intros h Hh. apply (Permutation_in _ (orderBy_perm _ _)) in Hh.
    apply filter_In in Hh. destruct Hh as [_ Hid]. now apply Z.eqb_eq.
  - apply orderBy_sorted. exact laterHeartbeat_total.
Qed.

Lemma X20_witness :
  exists rows,
    TenantQueries.getTenantHubs Sample.env
      (Sample.start (Sample.apiRequest "GET" "/hubs" "ak_hooli") Sample.storeWithHub2)
    = inr (TenantQueries.Rows rows)
    /\ Permutation rows (TenantRoutes.hubsOf Sample.storeWithHub2 4).
Proof.
  eexists. split; [reflexivity|].
  destruct (X20_hub_listing_is_the_tenants_own Sample.env
              (Sample.start (Sample.apiRequest "GET" "/hubs" "ak_hooli") Sample.storeWithHub2)
              _ eq_refl)
    as (t & Hin & Hst & Hkey & Hperm & _).
  simpl in Hin, Hkey.
  repeat (destruct Hin as [<-|Hin]; [simpl in *; first [exact Hperm | discriminate]|]).
  contradiction.
Defined.

(** X21: [GET /api/tenant/info] answers with the caller's own tenant.
    Whenever the route reaches its handler, the request supplied the key
    of a stored active tenant, and the body is that tenant's snapshot with
    its hub cap, camera cap and tier as stored. *)
Theorem X21_tenant_info_is_the_callers :
  forall (e : Http.Env) (st : Http.St) (info : TenantQueries.TenantInfo),
    TenantQueries.getTenantInfo e st = inr info ->
    exists t : Schema.Tenant,
      In t (Schema.tenants (Http.db st))
      /\ Schema.t_status t = "active"
      /\ Js.present (TenantAuth.suppliedApiKey (Http.req st)) = Some (Schema.t_apiKey t)
      /\ info = TenantQueries.mkTenantInfo (Some (TenantAuth.snapshot t))
                  (Some (Schema.t_maxHubs t)) (Some (Schema.t_maxCameras t))
                  (Some (Schema.t_subscriptionTier t)).
Proof.
  intros e st info Hrun. unfold TenantQueries.getTenantInfo in Hrun.
  destruct (TenantQueries.tenantPrefix e st) as [st1|r st1] eqn:Hprefix;
    simpl in Hrun; [|discriminate].
  destruct (tenantPrefix_next e st st1 Hprefix) as (t & Hin & Hst & Hkey & Hctx & _).
  unfold TenantQueries.tenantInfo in Hrun. rewrite Hctx in Hrun. simpl in Hrun.
  injection Hrun as <-. exists t. auto.
Qed.

Lemma X21_witness :
  exists t : Schema.Tenant,
    In t (Schema.tenants Sample.store)
    /\ TenantQueries.getTenantInfo Sample.env
         (Sample.start (Sample.apiRequest "GET" "/info" "ak_acme") Sample.store)
       = inr (TenantQueries.mkTenantInfo (Some (TenantAuth.snapshot t))
                (Some (Schema.t_maxHubs t)) (Some (Schema.t_maxCameras t))
                (Some (Schema.t_subscriptionTier t))).
Proof.
  destruct (X21_tenant_info_is_the_callers Sample.env
              (Sample.start (Sample.apiRequest "GET" "/info" "ak_acme") Sample.store)
              _ eq_refl)
    as (t & Hin & _ & _ & Hinfo).
  exists t. split; [exact Hin|]. rewrite <- Hinfo. reflexivity.
Defined.

(* ===================================================================== *)
(** ** Heartbeats of a registered hub *)
(* ===================================================================== *)

Section HeartbeatFacts.
Import Schema Http TenantAuth TenantRoutes.



(** An update keeps the id, the tenant, the name and the serial of every
    row. *)
Lemma update_keeps_keys (id : Z) (u : HubUpdate) (rows : list TenantHub) :
  map (fun h => (h_id h, h_tenantId h, h_name h, h_serialNumber h))
      (map (fun x => if h_id x =? id then applyUpdate u x else x) rows)
  = map (fun h => (h_id h, h_tenantId h, h_name h, h_serialNumber h)) rows.
Proof.
  rewrite map_map. apply map_ext. intros y. destruct (h_id y =? id); reflexivity.
Qed.


Lemma hubKeysUnique_same_keys (d d' : DB) :
  map (fun h => (h_id h, h_tenantId h, h_name h, h_serialNumber h)) (tenantsHubs d')
  = map (fun h => (h_id h, h_tenantId h, h_name h, h_serialNumber h)) (tenantsHubs d) ->
  hubKeysUnique d -> hubKeysUnique d'.
Proof.
  unfold hubKeysUnique. intros Hmap Hnd.
  assert (Hkeys : forall rows : list TenantHub,
             map (fun h => (h_tenantId h, h_serialNumber h)) rows
             = map (fun q : Z * Z * string * string =>
                      let '(_, tid, _, serial) := q in (tid, serial))
                   (map (fun h => (h_id h, h_tenantId h, h_name h, h_serialNumber h)) rows)).
  { intros rows. rewrite map_map. reflexivity. }
  rewrite Hkeys, Hmap, <- Hkeys. exact Hnd.
Qed.

(** The store a heartbeat leaves behind, whichever way it goes. *)
Lemma heartbeat_store (e : Env) (st : St) :
  exists r st',
    heartbeat e st = Reply r st'
    /\ req st' = req st /\ ctx st' = ctx st
    /\ tenants (db st') = tenants (db st)
    /\ hubLicenses (db st') = hubLicenses (db st)
    /\ (hubKeysUnique (db st) -> hubKeysUnique (db st')).
Proof.
  unfold heartbeat.
  destruct (ctx st) as [c|] eqn:Hctx;
    [destruct (header (req st) "x-hub-serial") as [serial|] eqn:Hserial|].
  - destruct (findHub (db st) (tenantId c) serial) as [h|] eqn:Hfind.
    + unfold updateTenantHub.
      destruct (checkUpdate _) as [u|err].
      * eexists. eexists. split; [reflexivity|]. simpl.
        repeat split; auto.
        apply hubKeysUnique_same_keys. simpl. apply update_keeps_keys.
      * eexists. eexists. split; [reflexivity|]. simpl.
        repeat split; auto.
    + unfold insertTenantHub.
      destruct (checkHub _) as [row|err].
      * destruct (existsb (fun x => h_id x =? h_id row) (tenantsHubs (db st))).
        { eexists. eexists. split; [reflexivity|]. simpl. repeat split; auto. }
        destruct (negb (tenantStored (db st) (h_tenantId row))).
        { eexists. eexists. split; [reflexivity|]. simpl. repeat split; auto. }
        destruct (existsb (fun x => (h_tenantId x =? h_tenantId row)
                                    && (h_serialNumber x =? h_serialNumber row)%string)
                          (tenantsHubs (db st))) eqn:Hex.
        { eexists. eexists. split; [reflexivity|]. simpl. repeat split; auto. }
        eexists. eexists. split; [reflexivity|]. simpl.
        repeat split; auto.
        unfold hubKeysUnique. simpl. intros Hnd.
        apply NoDup_map_snoc; [exact Hnd|].
        intros y Hy Heq. injection Heq as Hy1 Hy2.
        pose proof (proj1 (existsb_false_iff _ _) Hex y Hy) as Hf. simpl in Hf.
        rewrite Hy1, Hy2, Z.eqb_refl, String.eqb_refl in Hf. discriminate.
      * eexists. eexists. split; [reflexivity|]. simpl.
        repeat split; auto.
  - eexists. exists st. split; [reflexivity|]. repeat split; auto.
  - eexists. exists st. split; [reflexivity|]. repeat split; auto.
Qed.

End HeartbeatFacts.



(** A heartbeat whose status is the number 5: the row holds the text. *)
Example heartbeat_status_number :
  exists sent st',
    TenantRoutes.heartbeat (Http.mkEnv 1751414460000 0)
      (Sample.authenticated Sample.hooli
         (Http.mkRequest "POST" "/heartbeat" None
            [("x-license-key", "lk_5"); ("x-hub-serial", "AO-HOOLI-002-e")] []
            [("status", Js.VNum 5)])
         Sample.storeWithHub2)
    = Http.Reply (Http.mkResponse 200 (Http.HubBody (Some sent) "Heartbeat received")) st'
    /\ Schema.h_status sent = Js.VStr "5".
Proof. eexists. eexists. split; reflexivity. Qed.



(** X24: a heartbeat keeps the hub rows unique by (tenant, serial) and
    touches neither the tenants nor the licenses, whichever way it ends;
    so the unique columns of the store stay unique. *)
Theorem X24_heartbeat_keeps_store_constraints :
  forall (e : Http.Env) (st : Http.St) (r : Http.Response) (st' : Http.St),
    TenantRoutes.heartbeat e st = Http.Reply r st' ->
    hubKeysUnique (Http.db st) ->
    Schema.wf (Http.db st) ->
    hubKeysUnique (Http.db st')
    /\ Schema.wf (Http.db st')
    /\ Schema.tenants (Http.db st') = Schema.tenants (Http.db st)
    /\ Schema.hubLicenses (Http.db st') = Schema.hubLicenses (Http.db st).
Proof.
  intros e st r st' Hrun Hkeys Hwf.
  destruct (heartbeat_store e st) as (r0 & st0 & Hrun0 & _ & _ & Ht & Hl & Hk).
  rewrite Hrun in Hrun0. injection Hrun0 as _ <-.
  split; [now apply Hk|]. split; [|split; assumption].
  destruct Hwf as [H1 H2 H3 H4]. constructor; rewrite ?Ht, ?Hl; assumption.
Qed.

Lemma X24_witness :
  hubKeysUnique
    (Http.db (Http.mkSt (Sample.hubRequest "lk_6" "AO-HOOLI-003-f")
                (Some (Http.mkContext 4 (TenantAuth.snapshot Sample.hooli) None)) []
                (Schema.mkDB (Schema.tenants Sample.storeWithHub2)
                   (Schema.hubLicenses Sample.storeWithHub2)
                   (Schema.tenantsHubs Sample.storeWithHub2
                      ++ [Schema.mkTenantHub 2 4 "Hub-f" "AO-HOOLI-003-f" (Js.VStr "online")
                            (Some 1751414400000) Js.VNull Js.VNull (Js.VObj "Object")])%list
                   [] 7 3 1))).
Proof.
  apply (X24_heartbeat_keeps_store_constraints Sample.env
           (Sample.authenticated Sample.hooli (Sample.hubRequest "lk_6" "AO-HOOLI-003-f")
                                 Sample.storeWithHub2)
           (Http.mkResponse 201
              (Http.HubBody
                 (Some (Schema.mkTenantHub 2 4 "Hub-f" "AO-HOOLI-003-f" (Js.VStr "online")
                          (Some 1751414400000) Js.VNull Js.VNull (Js.VObj "Object")))
                 "Hub registered"))).
  - reflexivity.
  - unfold hubKeysUnique. simpl. repeat constructor. simpl. tauto.
  - exact sample_storeWithHub2_wf.
Defined.

(* ===================================================================== *)
(** ** License issuance: what the handler keeps and what it returns *)
(* ===================================================================== *)

Section IssuanceFacts.
Import Schema Http TenantAuth TenantRoutes.

(** The store an insert of a license leaves behind. *)
Lemma insertHubLicense_wf (mk : Z -> HubLicense) (d : DB) :
  wf d -> wf (fst (insertHubLicense mk d))
          /\ tenants (fst (insertHubLicense mk d)) = tenants d
          /\ tenantsHubs (fst (insertHubLicense mk d)) = tenantsHubs d.
Proof.
  intros [H1 H2 H3 H4]. unfold insertHubLicense.
  destruct (checkLicense (mk (hubLicensesSeq d))) as [row|err]; simpl;
    [|split; [constructor; assumption | auto]].
  destruct (existsb (fun l => l_id l =? l_id row) (hubLicenses d)); simpl;
    [split; [constructor; assumption | auto]|].
  destruct (negb (tenantStored d (l_tenantId row))); simpl;
    [split; [constructor; assumption | auto]|].
  destruct (existsb (fun l => (l_hubSerial l =? l_hubSerial row)%string)
                    (hubLicenses d)) eqn:Es; simpl.
  - split; [constructor; assumption | auto].
  - destruct (existsb (fun l => (l_licenseKey l =? l_licenseKey row)%string)
                      (hubLicenses d)) eqn:Ek; simpl.
    + split; [constructor; assumption | auto].
    + split; [|auto]. constructor; simpl; try assumption.
      * apply NoDup_map_snoc; [assumption|]. intros y Hy.
        apply String.eqb_neq. exact (proj1 (existsb_false_iff _ _) Ek y Hy).
      * apply NoDup_map_snoc; [assumption|]. intros y Hy.
        apply String.eqb_neq. exact (proj1 (existsb_false_iff _ _) Es y Hy).
Qed.

(** The handler's store is the store of its insert, when it gets to it. *)
Lemma createHubLicense_store
    (parse : list (string * Js.value) -> option InsertHubLicense)
    (e : Env) (st : St) (r : Response) (st' : St) :
  createHubLicense parse e st = Reply r st' ->
  st' = st
  \/ exists mk, st' = setDb (fst (insertHubLicense mk (db st))) st.
Proof.
  unfold createHubLicense.
  destruct (ctx st) as [c|]; [|intros H; injection H as _ <-; now left].
  destruct (parse (body (req st))) as [v|]; [|intros H; injection H as _ <-; now left].
  destruct (Js.ge (existingCount (db st) (tenantId c)) (Js.VNum (s_maxHubs (tenant c))));
    [intros H; injection H as _ <-; now left|].
  destruct (insertHubLicense _ (db st)) as [d' [license|err]] eqn:Hins;
    intros H; injection H as _ <-; right; eexists; rewrite Hins; reflexivity.
Qed.

(** What a 201 of the handler tells. *)
Lemma createHubLicense_created
    (parse : list (string * Js.value) -> option InsertHubLicense)
    (e : Env) (st : St) (license : HubLicense) (st' : St) :
  createHubLicense parse e st = Reply (mkResponse 201 (LicenseBody license)) st' ->
  exists c v hubSerial,
    ctx st = Some c /\ parse (body (req st)) = Some v
    /\ countLicenses (db st) (tenantId c) < s_maxHubs (tenant c)
    /\ checkLicense (licenseValues e v (tenantId c) (generateLicenseKey e) hubSerial
                       (hubLicensesSeq (db st)))
       = Ok license
    /\ hubSerial
       = generateHubSerialOf e (s_slug (tenant c))
           (Js.VStr (Js.numToString (countLicenses (db st) (tenantId c)) ++ "1"))
    /\ hubLicenses (db st') = (hubLicenses (db st) ++ [license])%list
    /\ tenants (db st') = tenants (db st)
    /\ db st' = fst (insertHubLicense
                       (licenseValues e v (tenantId c) (generateLicenseKey e) hubSerial)
                       (db st)).
Proof.
  unfold createHubLicense.
  destruct (ctx st) as [c|]; [|discriminate].
  destruct (parse (body (req st))) as [v|]; [|discriminate].
  rewrite existingCount_ge, existingCount_plus_one.
  destruct (s_maxHubs (tenant c) <=? countLicenses (db st) (tenantId c)) eqn:Hcap;
    [discriminate|].
  apply Z.leb_gt in Hcap.
  destruct (insertHubLicense _ (db st)) as [d' [row|err]] eqn:Hins; [|discriminate].
  intros H. injection H as <- <-. exists c, v. eexists.
  split; [reflexivity|]. split; [reflexivity|]. split; [exact Hcap|].
  rewrite Hins. simpl.
  unfold insertHubLicense in Hins.
  destruct (checkLicense _) as [checked|err] eqn:Hcheck; [|discriminate].
  destruct (existsb _ (hubLicenses (db st))); [discriminate|].
  destruct (negb (tenantStored (db st) (l_tenantId checked))); [discriminate|].
  destruct (existsb _ (hubLicenses (db st))); [discriminate|].
  destruct (existsb _ (hubLicenses (db st))); [discriminate|].
  injection Hins as <- <-. repeat split; reflexivity.
Qed.

(** The license a 201 returns: owned by the tenant, active, with a key
    and a serial that are not empty. *)
Lemma created_license (e : Env) (v : InsertHubLicense) (tid : Z) (slug : string)
    (sequence : Js.value) (id : Z) (license : HubLicense) :
  checkLicense (licenseValues e v tid (generateLicenseKey e)
                  (generateHubSerialOf e slug sequence) id) = Ok license ->
  l_tenantId license = tid /\ l_status license = "active"
  /\ l_licenseKey license <> "" /\ l_hubSerial license <> "".
Proof.
  intros H. apply checkLicense_row in H.
  destruct H as (_ & Htid & Hserial & Hkey & Hstatus & _).
  unfold licenseValues in Htid, Hserial, Hkey, Hstatus.
  cbn [l_tenantId l_hubSerial l_licenseKey l_status] in *.
  change (varchar 20 "active") with (@Ok string "active") in Hstatus.
  split; [exact Htid|]. split; [congruence|]. split.
  - rewrite (varchar_fits _ _ (generateLicenseKey_fits e)) in Hkey.
    injection Hkey as <-. discriminate.
  - unfold generateHubSerialOf in Hserial. simpl in Hserial.
    exact (varchar_nonempty _ _ _ _ Hserial).
Qed.

End IssuanceFacts.

(** X25: license issuance keeps the store well formed however it ends:
    license keys and hub serials stay unique (a colliding key or serial is
    refused, not stored), and the tenants and the hub rows are not
    touched. *)
Theorem X25_issuance_keeps_store_well_formed :
  forall (parse : list (string * Js.value) -> option TenantRoutes.InsertHubLicense)
         (e : Http.Env) (st : Http.St) (r : Http.Response) (st' : Http.St),
    TenantRoutes.createHubLicense parse e st = Http.Reply r st' ->
    Schema.wf (Http.db st) ->
    Schema.wf (Http.db st')
    /\ Schema.tenants (Http.db st') = Schema.tenants (Http.db st)
    /\ Schema.tenantsHubs (Http.db st') = Schema.tenantsHubs (Http.db st).
Proof.
  intros parse e st r st' Hrun Hwf.
  destruct (createHubLicense_store parse e st r st' Hrun) as [-> | (mk & ->)].
  - auto.
  - simpl. now apply insertHubLicense_wf.
Qed.

Lemma X25_witness :
  Schema.wf
    (Http.db (Http.setDb
                (fst (Schema.insertHubLicense
                        (TenantRoutes.licenseValues Sample.env
                           (TenantRoutes.mkInsertHubLicense 0 "any" None None None None None
                                                            None None)
                           2 (TenantAuth.generateLicenseKey Sample.env)
                           (TenantAuth.generateHubSerial Sample.env "globex" 11))
                        Sample.store))
                (Sample.withUser "admin" Sample.globex (Sample.licenseRequest "ak_globex")
                                 Sample.store))).
Proof.
  apply (X25_issuance_keeps_store_well_formed Sample.parse Sample.env
           (Sample.withUser "admin" Sample.globex (Sample.licenseRequest "ak_globex")
                            Sample.store)
           (Http.mkResponse 201
              (Http.LicenseBody
                 (TenantRoutes.licenseValues Sample.env
                    (TenantRoutes.mkInsertHubLicense 0 "any" None None None None None None None)
                    2 (TenantAuth.generateLicenseKey Sample.env)
                    (TenantAuth.generateHubSerial Sample.env "globex" 11) 7)))).
  - vm_compute. reflexivity.
  - exact sample_store_wf.
Defined.

(** X26: the body is validated before the cap is looked at. A request
    whose body the schema refuses is answered 400 "Validation error" and
    writes nothing, whether or not the tenant is at its cap; and a request
    that reaches the handler without context is answered 500. *)
Theorem X26_issuance_validates_first :
  forall (parse : list (string * Js.value) -> option TenantRoutes.InsertHubLicense)
         (e : Http.Env) (st : Http.St),
    parse (Http.body (Http.req st)) = None ->
    (forall c, Http.ctx st = Some c ->
               TenantRoutes.createHubLicense parse e st
               = Http.Reply TenantRoutes.validationError st)
    /\ (Http.ctx st = None ->
        TenantRoutes.createHubLicense parse e st
        = Http.Reply TenantRoutes.createLicenseFailed st)
    /\ Http.status TenantRoutes.validationError = 400
    /\ Http.status TenantRoutes.createLicenseFailed = 500.
Proof.
  intros parse e st Hparse. unfold TenantRoutes.createHubLicense.
  split; [|split; [|split; reflexivity]].
  - intros c ->. now rewrite Hparse.
  - intros ->. reflexivity.
Qed.

Lemma X26_witness :
  TenantRoutes.createHubLicense Sample.parse Sample.env
    (Sample.withUser "admin" Sample.acme (Sample.apiRequest "POST" "/hub-licenses" "ak_acme")
                     Sample.store)
  = Http.Reply TenantRoutes.validationError
      (Sample.withUser "admin" Sample.acme (Sample.apiRequest "POST" "/hub-licenses" "ak_acme")
                       Sample.store).
Proof.
  apply (proj1 (X26_issuance_validates_first Sample.parse Sample.env
                  (Sample.withUser "admin" Sample.acme
                     (Sample.apiRequest "POST" "/hub-licenses" "ak_acme") Sample.store)
                  eq_refl)
               (Http.mkContext 1 (TenantAuth.snapshot Sample.acme)
                  (Some (Http.mkUser 1 "ops@example.com" "admin" [])))).
  reflexivity.
Defined.

(** X27: an issued license authenticates its hub. After the handler
    answers 201 for a tenant that is stored and active, a hub request that
    presents the returned key and serial against the resulting store
    passes hub authentication as that tenant, for as long as the clock has
    not gone past the license's expiry. *)
Theorem X27_issued_license_authenticates :
  forall (parse : list (string * Js.value) -> option TenantRoutes.InsertHubLicense)
         (e e' : Http.Env) (st st' : Http.St) (license : Schema.HubLicense)
         (c : Http.TenantContext) (t : Schema.Tenant) (hub : Http.St),
    Schema.wf (Http.db st) ->
    TenantRoutes.createHubLicense parse e st
    = Http.Reply (Http.mkResponse 201 (Http.LicenseBody license)) st' ->
    Http.ctx st = Some c ->
    In t (Schema.tenants (Http.db st)) ->
    Schema.t_id t = Http.tenantId c ->
    Schema.t_status t = "active" ->
    Http.db hub = Http.db st' ->
    Http.header (Http.req hub) "x-license-key" = Some (Schema.l_licenseKey license) ->
    Http.header (Http.req hub) "x-hub-serial" = Some (Schema.l_hubSerial license) ->
    unexpired e' license ->
    exists hub',
      TenantAuth.authenticateHubLicense e' hub = Http.Next hub'
      /\ Http.ctx hub' = Some (Http.mkContext (Schema.t_id t) (TenantAuth.snapshot t) None).
Proof.
  intros parse e e' st st' license c t hub Hwf Hrun Hctx Ht Hid Hts Hdb Hk Hs Hun.
  destruct (createHubLicense_created parse e st license st' Hrun)
    as (c' & v & hubSerial & Hc' & _ & _ & Hlic & Hserial & Hrows & Htenants & Hdb').
  assert (c' = c) by congruence. subst c'.
  assert (Hwf' : Schema.wf (Http.db hub)).
  { rewrite Hdb, Hdb'. now apply insertHubLicense_wf. }
  assert (Hin : In license (Schema.hubLicenses (Http.db hub))).
  { rewrite Hdb, Hrows. apply in_or_app. right. now left. }
  assert (Ht' : In t (Schema.tenants (Http.db hub))) by (now rewrite Hdb, Htenants).
  rewrite Hserial in Hlic.
  destruct (created_license _ _ _ _ _ _ _ Hlic) as (Hlt0 & Hls & Hkne & Hsne).
  assert (Hlt : Schema.l_tenantId license = Schema.t_id t) by congruence.
  unfold TenantAuth.authenticateHubLicense. rewrite Hk, Hs. simpl.
  destruct (String.eqb_spec (Schema.l_licenseKey license) ""); [contradiction|].
  destruct (String.eqb_spec (Schema.l_hubSerial license) ""); [contradiction|].
  rewrite (findActiveByKeyAndSerial_valid (Http.db hub) license t) by assumption.
  apply expired_false_iff in Hun. rewrite Hun.
  eexists. split; [reflexivity|]. simpl. now rewrite Hlt.
Qed.

Lemma sampleMore_belowCap_wf : Schema.wf SampleMore.belowCap.
Proof.
  constructor; simpl;
    repeat (constructor; [simpl; intuition discriminate|]); constructor.
Qed.

Lemma X27_witness :
  exists hub',
    TenantAuth.authenticateHubLicense Sample.env
      (Sample.start
         (Sample.hubRequest (TenantAuth.generateLicenseKey Sample.env)
                            (TenantAuth.generateHubSerial Sample.env "acme-security" 11))
         (fst (Schema.insertHubLicense
                 (TenantRoutes.licenseValues Sample.env
                    (TenantRoutes.mkInsertHubLicense 0 "any" None None None None None None None)
                    1 (TenantAuth.generateLicenseKey Sample.env)
                    (TenantAuth.generateHubSerial Sample.env "acme-security" 11))
                 SampleMore.belowCap)))
    = Http.Next hub'
    /\ Http.ctx hub' = Some (Http.mkContext 1 (TenantAuth.snapshot Sample.acme) None).
Proof.
  apply (X27_issued_license_authenticates Sample.parse Sample.env Sample.env
           (Sample.withUser "admin" Sample.acme (Sample.licenseRequest "ak_acme")
                            SampleMore.belowCap)
           (Http.setDb
              (fst (Schema.insertHubLicense
                      (TenantRoutes.licenseValues Sample.env
                         (TenantRoutes.mkInsertHubLicense 0 "any" None None None None None
                                                          None None)
                         1 (TenantAuth.generateLicenseKey Sample.env)
                         (TenantAuth.generateHubSerial Sample.env "acme-security" 11))
                      SampleMore.belowCap))
              (Sample.withUser "admin" Sample.acme (Sample.licenseRequest "ak_acme")
                               SampleMore.belowCap))
           (TenantRoutes.licenseValues Sample.env
              (TenantRoutes.mkInsertHubLicense 0 "any" None None None None None None None)
              1 (TenantAuth.generateLicenseKey Sample.env)
              (TenantAuth.generateHubSerial Sample.env "acme-security" 11) 2)
           (Http.mkContext 1 (TenantAuth.snapshot Sample.acme)
              (Some (Http.mkUser 1 "ops@example.com" "admin" [])))
           Sample.acme).
  - exact sampleMore_belowCap_wf.
  - vm_compute. reflexivity.
  - reflexivity.
  - simpl. auto.
  - reflexivity.
  - reflexivity.
  - reflexivity.
  - reflexivity.
  - reflexivity.
  - exact I.
Defined.

(* ===================================================================== *)
(** ** Generated hub serials *)
(* ===================================================================== *)


(** X28: a generated hub serial ends, after its last dash, with the
    issuing time in base 36, whatever the tenant slug (which may itself
    contain dashes). What the heartbeat handler cuts from a serial to name
    a new hub is therefore that time stamp. *)
Theorem X28_serial_ends_with_timestamp :
  forall (e : Http.Env) (slug : string) (sequence : Z),
    0 <= Http.nowMs e ->
    Js.lastSegment "-"%char (TenantAuth.generateHubSerial e slug sequence)
    = Js.toBase36 (Http.nowMs e)
    /\ base36Text (Js.toBase36 (Http.nowMs e)) = true.
Proof.
  intros e slug sequence _. split; [|apply toBase36_text].
  rewrite generateHubSerial_split. unfold Js.lastSegment.
  rewrite lastSegmentAux_after.
  apply (lastSegmentAux_plain _ EmptyString), toBase36_text.
Qed.

Lemma X28_witness :
  Js.lastSegment "-"%char (TenantAuth.generateHubSerial Sample.env "acme-security" 1)
  = Js.toBase36 1751414400000
  /\ base36Text (Js.toBase36 1751414400000) = true.
Proof.
  apply (X28_serial_ends_with_timestamp Sample.env "acme-security" 1).
  vm_compute. discriminate.
Defined.

(** X29: for one tenant slug at one instant, the serial determines the
    sequence number: two non-negative sequence numbers that give the same
    serial are equal, and the padded number inside the serial reads back
    as the sequence number. *)
Theorem X29_serial_determines_sequence :
  forall (e : Http.Env) (slug : string) (a b : Z),
    0 <= a -> 0 <= b ->
    readNumber (Js.padStart 3 "0"%char (Js.numToString a)) = Some a
    /\ (TenantAuth.generateHubSerial e slug a = TenantAuth.generateHubSerial e slug b ->
        a = b).
Proof.
  intros e slug a b Ha Hb. split; [now apply readNumber_padStart|].
  unfold TenantAuth.generateHubSerial, TenantAuth.generateHubSerialOf. intros H.
  cbn [Js.toString] in H.
  apply string_app_inv_head in H. apply string_app_inv_head in H.
  apply string_app_inv_head in H. apply string_app_inv_tail in H.
  pose proof (readNumber_padStart a Ha) as Ra.
  pose proof (readNumber_padStart b Hb) as Rb.
  rewrite H in Ra. congruence.
Qed.

Lemma X29_witness :
  readNumber (Js.padStart 3 "0"%char (Js.numToString 7)) = Some 7
  /\ (TenantAuth.generateHubSerial Sample.env "acme" 7
      = TenantAuth.generateHubSerial Sample.env "acme" 7 -> 7 = 7).
Proof.
  apply (X29_serial_determines_sequence Sample.env "acme" 7 7); lia.
Defined.
